(** * Content-management pipeline: a shallow embedding of the backend

    The development follows the layout of [backend/app]: one module per
    source file, holding the translation of the functions the properties
    below talk about, then the vocabulary of the properties, sample data,
    and the properties themselves.

    Conventions used throughout.

    - A Python [str] is a [string]; its characters are read as the code
      points 0..255, and the case and white-space tables are CPython's on
      that range.  [str.encode()] is UTF-8.
    - A value decoded from JSON, or any other dynamically typed Python
      value the code passes around, is a [json] term; the operations on it
      raise where Python raises ([TypeError], [AttributeError],
      [KeyError]).  Numbers are exact rationals, so the comparison with
      the threshold 0.5 is the one the floats make.
    - A function that can raise returns a [result]; a function that also
      reads or writes the database session, or calls the language model,
      lives in the monad [M], in which an exception keeps the state
      reached so far (as a Python exception leaves the objects mutated).
    - What the program does not decide itself is an explicit input:
      [json.loads] and [urlparse] (library code), the outcome of each
      network call, the random colour and the clock.

    What is assumed of the outside.

    - The database takes every row and statement it is given: the session
      raises only where [scalar_one] and [scalar_one_or_none] do.  The
      constraints declared in [app/models] are not enforced by the model;
      where a property needs one (fresh primary keys, the foreign key of a
      summary) it is a hypothesis, shown to be kept by the pipeline.
    - Time is read off a clock that does not run backwards, and
      [asyncio.sleep] does not return early.
    - Logging does nothing but evaluate the text it is given; [await]
      points are sequential steps; one submission runs at a time. *)

From Stdlib Require Import String Ascii List Bool Arith ZArith NArith QArith Lia Lqa.
From Stdlib Require Import DecimalString.

#[local] Set Warnings "-register-all".
Import ListNotations.

#[local] Open Scope string_scope.
#[local] Open Scope Z_scope.
#[local] Open Scope list_scope.

Infix "+++" := String.append (at level 60, right associativity).

(* ================================================================== *)
(** * Exceptions and results *)
(* ================================================================== *)

(** The exception classes that occur.  All of them derive from
    [Exception], which is what every handler in the code catches, except
    the one handler for [json.JSONDecodeError]. *)
Inductive exn_class :=
| Exception | ValueError | TypeError | AttributeError | KeyError
| IndexError | MultipleResultsFound | NoResultFound.

Record exn := mk_exn { exn_cls : exn_class; exn_msg : string }.

(** [str(e)] *)
Definition str_of_exn (e : exn) : string := exn_msg e.

Inductive result (A : Type) :=
| Ok (a : A)
| Raise (e : exn).
Arguments Ok {A} a.
Arguments Raise {A} e.

Definition rbind {A B} (r : result A) (k : A -> result B) : result B :=
  match r with
  | Ok a => k a
  | Raise e => Raise e
  end.

Notation "'do' x <- r ; k" := (rbind r (fun x => k))
  (at level 10, x name, r at level 100, k at level 200).

(* ================================================================== *)
(** * Python strings *)
(* ================================================================== *)

Module pystr.

Definition code (c : ascii) : N := N_of_ascii c.

(** [c.lower()] on the code points 0..255: A-Z, and the Latin-1 capitals
    U+00C0..U+00DE without the multiplication sign U+00D7. *)
Definition lower_char (c : ascii) : ascii :=
  let n := code c in
  if ((65 <=? n) && (n <=? 90))%N then ascii_of_N (n + 32)
  else if ((192 <=? n) && (n <=? 222) && negb (n =? 215))%N then ascii_of_N (n + 32)
  else c.

Fixpoint lower (s : string) : string :=
  match s with
  | EmptyString => EmptyString
  | String c s' => String (lower_char c) (lower s')
  end.

(** [c.isspace()] on the code points 0..255. *)
Definition isspace (c : ascii) : bool :=
  let n := code c in
  (((9 <=? n) && (n <=? 13)) || ((28 <=? n) && (n <=? 32))
   || (n =? 133) || (n =? 160))%N.

Definition is_empty (s : string) : bool :=
  match s with EmptyString => true | _ => false end.

(** [s.split()] with no separator: the maximal runs of characters that
    are not white space.  [cur] is the run being read. *)
Fixpoint split_from (cur s : string) : list string :=
  match s with
  | EmptyString => if is_empty cur then [] else [cur]
  | String c s' =>
      if isspace c
      then (if is_empty cur then split_from EmptyString s'
            else cur :: split_from EmptyString s')
      else split_from (cur +++ String c EmptyString) s'
  end.

Definition split (s : string) : list string := split_from EmptyString s.

(** [sep.join(l)] *)
Fixpoint join (sep : string) (l : list string) : string :=
  match l with
  | [] => EmptyString
  | [x] => x
  | x :: l' => x +++ sep +++ join sep l'
  end.

Definition len (s : string) : Z := Z.of_nat (String.length s).

Fixpoint drop (n : nat) (s : string) : string :=
  match n, s with
  | O, _ => s
  | S _, EmptyString => EmptyString
  | S n', String _ s' => drop n' s'
  end.

Fixpoint take (n : nat) (s : string) : string :=
  match n, s with
  | O, _ => EmptyString
  | S _, EmptyString => EmptyString
  | S n', String c s' => String c (take n' s')
  end.

(** [s.startswith(p)] *)
Definition startswith (p s : string) : bool := String.prefix p s.

(** [s.endswith(p)] *)
Definition endswith (p s : string) : bool :=
  (String.length p <=? String.length s)%nat
  && String.eqb (drop (String.length s - String.length p) s) p.

(** First position at or after [i] where [sub] starts in the text whose
    remainder from position [i] is [s]. *)
Fixpoint find_at (sub s : string) (i : nat) : option nat :=
  if String.prefix sub s then Some i
  else match s with
       | EmptyString => None
       | String _ s' => find_at sub s' (S i)
       end.

(** [s.find(sub, start)] for [start >= 0]: the lowest index, or -1. *)
Definition find (sub s : string) (start : Z) : Z :=
  if len s <? start then -1
  else match find_at sub (drop (Z.to_nat start) s) (Z.to_nat start) with
       | Some i => Z.of_nat i
       | None => -1
       end.

(** [sub in s] *)
Definition contains (sub s : string) : bool :=
  match find_at sub s 0 with Some _ => true | None => false end.

(** A slice bound as Python clamps it: a negative bound counts from the
    end. *)
Definition clamp (n i : Z) : Z :=
  if i <? 0 then Z.max 0 (n + i) else Z.min i n.

(** [s[a:b]] *)
Definition slice (s : string) (a b : Z) : string :=
  let lo := clamp (len s) a in
  let hi := clamp (len s) b in
  take (Z.to_nat (hi - lo)) (drop (Z.to_nat lo) s).

(** [s[:n]] *)
Definition upto (n : nat) (s : string) : string := take n s.

Fixpoint lstrip (s : string) : string :=
  match s with
  | EmptyString => EmptyString
  | String c s' => if isspace c then lstrip s' else s
  end.

Fixpoint rstrip (s : string) : string :=
  match s with
  | EmptyString => EmptyString
  | String c s' =>
      let r := rstrip s' in
      if is_empty r && isspace c then EmptyString else String c r
  end.

(** [s.strip()] *)
Definition strip (s : string) : string := rstrip (lstrip s).

(** [s.split(c)] with a separator of one character: the pieces between
    its occurrences, of which there is at least one.  [cur] is the piece
    being read. *)
Fixpoint split_sep_from (c : ascii) (cur s : string) : list string :=
  match s with
  | EmptyString => [cur]
  | String d s' =>
      if Ascii.eqb d c then cur :: split_sep_from c EmptyString s'
      else split_sep_from c (cur +++ String d EmptyString) s'
  end.

Definition split_sep (c : ascii) (s : string) : list string :=
  split_sep_from c EmptyString s.

(** [s.encode()]: UTF-8, one byte below U+0080 and two bytes from there
    to U+00FF. *)
Fixpoint encode (s : string) : list N :=
  match s with
  | EmptyString => []
  | String c s' =>
      let n := code c in
      if (n <? 128)%N then n :: encode s'
      else N.lor 192 (N.shiftr n 6) :: N.lor 128 (N.land n 63) :: encode s'
  end.

End pystr.

(* ================================================================== *)
(** * hashlib.sha256 *)
(* ================================================================== *)

(** SHA-256 as FIPS 180-4 defines it, on a list of bytes; words are
    numbers below 2^32. *)
Module sha256.

#[local] Open Scope N_scope.

Definition mask : N := 4294967295.

Definition add32 (a b : N) : N := N.land (a + b) mask.

Definition rotr (n x : N) : N :=
  N.lor (N.shiftr x n) (N.land (N.shiftl x (32 - n)) mask).

Definition not32 (x : N) : N := N.lxor x mask.

Definition ch (x y z : N) : N := N.lxor (N.land x y) (N.land (not32 x) z).
Definition maj (x y z : N) : N :=
  N.lxor (N.lxor (N.land x y) (N.land x z)) (N.land y z).
Definition bsig0 (x : N) : N := N.lxor (N.lxor (rotr 2 x) (rotr 13 x)) (rotr 22 x).
Definition bsig1 (x : N) : N := N.lxor (N.lxor (rotr 6 x) (rotr 11 x)) (rotr 25 x).
Definition ssig0 (x : N) : N := N.lxor (N.lxor (rotr 7 x) (rotr 18 x)) (N.shiftr x 3).
Definition ssig1 (x : N) : N := N.lxor (N.lxor (rotr 17 x) (rotr 19 x)) (N.shiftr x 10).

Definition K : list N :=
  [1116352408; 1899447441; 3049323471; 3921009573; 961987163; 1508970993;
   2453635748; 2870763221; 3624381080; 310598401; 607225278; 1426881987;
   1925078388; 2162078206; 2614888103; 3248222580; 3835390401; 4022224774;
   264347078; 604807628; 770255983; 1249150122; 1555081692; 1996064986;
   2554220882; 2821834349; 2952996808; 3210313671; 3336571891; 3584528711;
   113926993; 338241895; 666307205; 773529912; 1294757372; 1396182291;
   1695183700; 1986661051; 2177026350; 2456956037; 2730485921; 2820302411;
   3259730800; 3345764771; 3516065817; 3600352804; 4094571909; 275423344;
   430227734; 506948616; 659060556; 883997877; 958139571; 1322822218;
   1537002063; 1747873779; 1955562222; 2024104815; 2227730452; 2361852424;
   2428436474; 2756734187; 3204031479; 3329325298].

Definition H0 : list N :=
  [1779033703; 3144134277; 1013904242; 2773480762;
   1359893119; 2600822924; 528734635; 1541459225].

(** Big-endian bytes of [x], [n] of them. *)
Fixpoint be_bytes (n : nat) (x : N) : list N :=
  match n with
  | O => []
  | S n' => N.land (N.shiftr x (8 * N.of_nat n')) 255 :: be_bytes n' x
  end.

(** The message followed by 0x80, zero bytes up to 56 modulo 64, and the
    bit length on 8 bytes. *)
Definition pad (msg : list N) : list N :=
  let l := N.of_nat (List.length msg) in
  let zeros := N.to_nat ((64 - ((l + 9) mod 64)) mod 64) in
  msg ++ [128] ++ repeat 0 zeros ++ be_bytes 8 (8 * l).

Fixpoint words (fuel : nat) (bs : list N) : list N :=
  match fuel, bs with
  | S f, b0 :: b1 :: b2 :: b3 :: r =>
      (N.shiftl b0 24 + N.shiftl b1 16 + N.shiftl b2 8 + b3) :: words f r
  | _, _ => []
  end.

(** The message schedule, latest word first: [rev_w] holds W[t-1],
    W[t-2], ... *)
Fixpoint extend (n : nat) (rev_w : list N) : list N :=
  match n with
  | O => rev_w
  | S n' =>
      let w := add32 (add32 (ssig1 (nth 1 rev_w 0)) (nth 6 rev_w 0))
                     (add32 (ssig0 (nth 14 rev_w 0)) (nth 15 rev_w 0)) in
      extend n' (w :: rev_w)
  end.

Definition schedule (block : list N) : list N := rev (extend 48 (rev block)).

Record regs := mk_regs { ra : N; rb : N; rc : N; rd : N; re : N; rf : N; rg : N; rh : N }.

Definition round (r : regs) (kw : N * N) : regs :=
  let t1 := add32 (add32 (add32 (rh r) (bsig1 (re r)))
                         (add32 (ch (re r) (rf r) (rg r)) (fst kw))) (snd kw) in
  let t2 := add32 (bsig0 (ra r)) (maj (ra r) (rb r) (rc r)) in
  mk_regs (add32 t1 t2) (ra r) (rb r) (rc r) (add32 (rd r) t1) (re r) (rf r) (rg r).

Definition compress (h : regs) (block : list N) : regs :=
  let r := fold_left round (combine K (schedule block)) h in
  mk_regs (add32 (ra h) (ra r)) (add32 (rb h) (rb r)) (add32 (rc h) (rc r))
          (add32 (rd h) (rd r)) (add32 (re h) (re r)) (add32 (rf h) (rf r))
          (add32 (rg h) (rg r)) (add32 (rh h) (rh r)).

Fixpoint blocks (fuel : nat) (ws : list N) : list (list N) :=
  match fuel, ws with
  | _, [] => []
  | O, _ => []
  | S f, _ => firstn 16 ws :: blocks f (skipn 16 ws)
  end.

Definition init : regs :=
  mk_regs 1779033703 3144134277 1013904242 2773480762
          1359893119 2600822924 528734635 1541459225.

Definition digest_words (msg : list N) : list N :=
  let p := pad msg in
  let ws := words (List.length p) p in
  let r := fold_left compress (blocks (List.length ws) ws) init in
  [ra r; rb r; rc r; rd r; re r; rf r; rg r; rh r].

Definition hex_digit (d : N) : ascii :=
  if d <? 10 then ascii_of_N (48 + d) else ascii_of_N (87 + d).

Fixpoint hex_of (n : nat) (x : N) : string :=
  match n with
  | O => EmptyString
  | S n' => String (hex_digit (N.land (N.shiftr x (4 * N.of_nat n')) 15)) (hex_of n' x)
  end.

(** [hashlib.sha256(bytes).hexdigest()] *)
Definition hexdigest (msg : list N) : string :=
  String.concat EmptyString (map (hex_of 8) (digest_words msg)).

End sha256.

(* ================================================================== *)
(** * os.path and app/config.py *)
(* ================================================================== *)

(** The two functions of [os.path] the code calls, as [posixpath] and
    [genericpath] define them. *)
Module posixpath.

(** [s.rfind(c)] for a single character [c]: the highest index, or -1 *)
Fixpoint rfind (c : ascii) (s : string) : Z :=
  match s with
  | EmptyString => -1
  | String d s' =>
      let r := rfind c s' in
      if 0 <=? r then r + 1 else if Ascii.eqb d c then 0 else -1
  end.

Fixpoint all_dots (s : string) : bool :=
  match s with
  | EmptyString => true
  | String c s' => Ascii.eqb c "." && all_dots s'
  end.

(** [splitext(p)]: the extension starts at the last dot, when that dot
    stands after the last slash and after a character of the file name
    that is no dot (the loop over [filenameIndex] looks for one). *)
Definition splitext (p : string) : string * string :=
  let sepIndex := rfind "/" p in
  let dotIndex := rfind "." p in
  if sepIndex <? dotIndex then
    if all_dots (pystr.slice p (sepIndex + 1) dotIndex)
    then (p, EmptyString)
    else (pystr.take (Z.to_nat dotIndex) p, pystr.drop (Z.to_nat dotIndex) p)
  else (p, EmptyString).

(** [join(a, b)] *)
Definition join (a b : string) : string :=
  if pystr.startswith "/" b then b
  else if pystr.is_empty a || pystr.endswith "/" a then a +++ b
  else a +++ "/" +++ b.

End posixpath.

Module config.

(** The two settings the file handler reads *)
Record Settings := {
  UPLOAD_DIR : string;
  MAX_FILE_SIZE : Z
}.

(** The defaults of the class [Settings] *)
Definition defaults : Settings :=
  {| UPLOAD_DIR := "./uploads"; MAX_FILE_SIZE := 52428800 |}.

End config.

(* ================================================================== *)
(** * app/utils/file_handler.py *)
(* ================================================================== *)

Module file_handler.

(** A metadata dictionary with string values, as both callers build it. *)
Definition metadata := list (string * string).

(** [d.get(key, default)] *)
Fixpoint get (d : metadata) (key default : string) : string :=
  match d with
  | [] => default
  | (k, v) :: d' => if String.eqb k key then v else get d' key default
  end.

(** [' '.join(content.lower().split())] *)
Definition normalize (content : string) : string :=
  pystr.join " " (pystr.split (pystr.lower content)).

(** The text that is hashed.  [if metadata:] holds for a dictionary that
    is given and not empty. *)
Definition hash_input (content : string) (md : option metadata) : string :=
  let normalized := normalize content in
  match md with
  | Some ((_ :: _) as d) =>
      let url := get d "url" "" in
      let title := get d "title" "" in
      normalized +++ "|" +++ url +++ "|" +++ title
  | _ => normalized
  end.

Definition generate_content_hash (content : string) (md : option metadata) : string :=
  sha256.hexdigest (pystr.encode (hash_input content md)).

(** [os.path.splitext(filename)[1].lower()] *)
Definition get_file_extension (filename : string) : string :=
  pystr.lower (snd (posixpath.splitext filename)).

(** [ext in allowed_extensions] *)
Definition is_allowed_file_type (filename : string) (allowed_extensions : list string)
  : bool :=
  existsb (String.eqb (get_file_extension filename)) allowed_extensions.

(** The default of [allowed_extensions] *)
Definition pdf_only : list string := [".pdf"].

(** The upload directory: the files by their paths, the latest write
    first.  The directory takes every write. *)
Definition disk := list (string * list N).

(** [str(n)] of an integer *)
Definition str_of_int (n : Z) : string := NilZero.string_of_int (Z.to_int n).

(** [save_upload_file(upload_file)] for an upload of the bytes [content]
    under the name [filename]; [md5_hexdigest] is
    [hashlib.md5(content).hexdigest()]. *)
Definition save_upload_file (settings : config.Settings)
           (md5_hexdigest : list N -> string)
           (content : list N) (filename : string) (files : disk)
  : result string * disk :=
  if config.MAX_FILE_SIZE settings <? Z.of_nat (List.length content) then
    (Raise (mk_exn ValueError
              ("File size exceeds maximum of "
               +++ str_of_int (config.MAX_FILE_SIZE settings) +++ " bytes")),
     files)
  else
    let file_hash := md5_hexdigest content in
    let ext := snd (posixpath.splitext filename) in
    let file_path := posixpath.join (config.UPLOAD_DIR settings) (file_hash +++ ext) in
    (Ok file_path, (file_path, content) :: files).

End file_handler.

(* ================================================================== *)
(** * Dynamically typed values *)
(* ================================================================== *)

(** What [json.loads] returns, and every other untyped value the services
    hand to one another. *)
Inductive json :=
| JNull
| JBool (b : bool)
| JNum (q : Q)
| JStr (s : string)
| JArr (l : list json)
| JObj (kv : list (string * json)).

Module py.

Definition raise_type {A} (msg : string) : result A := Raise (mk_exn TypeError msg).

(** [bool(v)] *)
Definition truthy (v : json) : bool :=
  match v with
  | JNull => false
  | JBool b => b
  | JNum q => negb (Qeq_bool q 0)
  | JStr s => negb (pystr.is_empty s)
  | JArr l => match l with [] => false | _ => true end
  | JObj kv => match kv with [] => false | _ => true end
  end.

Fixpoint lookup (kv : list (string * json)) (key : string) : option json :=
  match kv with
  | [] => None
  | (k, v) :: kv' => if String.eqb k key then Some v else lookup kv' key
  end.

(** [d[key] = v] on a dictionary *)
Fixpoint update (kv : list (string * json)) (key : string) (v : json)
  : list (string * json) :=
  match kv with
  | [] => [(key, v)]
  | (k, w) :: kv' =>
      if String.eqb k key then (k, v) :: kv' else (k, w) :: update kv' key v
  end.

(** [v.get(key, default)]: only a dictionary has the method. *)
Definition get (v : json) (key : string) (default : json) : result json :=
  match v with
  | JObj kv => Ok (match lookup kv key with Some x => x | None => default end)
  | _ => Raise (mk_exn AttributeError "object has no attribute 'get'")
  end.

(** [v[key]] with a string key *)
Definition getitem (v : json) (key : string) : result json :=
  match v with
  | JObj kv =>
      match lookup kv key with
      | Some x => Ok x
      | None => Raise (mk_exn KeyError ("'" +++ key +++ "'"))
      end
  | JArr _ => raise_type "list indices must be integers or slices, not str"
  | JStr _ => raise_type "string indices must be integers, not 'str'"
  | _ => raise_type "object is not subscriptable"
  end.

(** [v[key] = x] *)
Definition setitem (v : json) (key : string) (x : json) : result json :=
  match v with
  | JObj kv => Ok (JObj (update kv key x))
  | _ => raise_type "object does not support item assignment"
  end.

Definition is_str (key : string) (v : json) : bool :=
  match v with JStr s => String.eqb s key | _ => false end.

(** [key in v] for a string [key] *)
Definition contains (key : string) (v : json) : result bool :=
  match v with
  | JObj kv => Ok (match lookup kv key with Some _ => true | None => false end)
  | JArr l => Ok (existsb (is_str key) l)
  | JStr s => Ok (pystr.contains key s)
  | _ => raise_type "argument is not iterable"
  end.

Fixpoint chars (s : string) : list json :=
  match s with
  | EmptyString => []
  | String c s' => JStr (String c EmptyString) :: chars s'
  end.

(** The elements a [for] loop over [v] visits. *)
Definition iter (v : json) : result (list json) :=
  match v with
  | JArr l => Ok l
  | JStr s => Ok (chars s)
  | JObj kv => Ok (map (fun p => JStr (fst p)) kv)
  | _ => raise_type "object is not iterable"
  end.

(** [len(v)] *)
Definition length (v : json) : result Z :=
  match v with
  | JArr l => Ok (Z.of_nat (List.length l))
  | JStr s => Ok (pystr.len s)
  | JObj kv => Ok (Z.of_nat (List.length kv))
  | _ => raise_type "object has no len()"
  end.

(** [v[:n]] *)
Definition upto (n : nat) (v : json) : result json :=
  match v with
  | JArr l => Ok (JArr (firstn n l))
  | JStr s => Ok (JStr (pystr.upto n s))
  | _ => raise_type "object is not subscriptable by a slice"
  end.

(** [v >= q] against a float constant; [True] and [False] count as 1
    and 0. *)
Definition ge (v : json) (q : Q) : result bool :=
  match v with
  | JNum x => Ok (Qle_bool q x)
  | JBool b => Ok (Qle_bool q (if b then 1 else 0))
  | _ => raise_type "'>=' not supported between these instances"
  end.

(** [', '.join(v)] succeeds on an iterable of strings. *)
Definition joinable (v : json) : result unit :=
  do l <- iter v;
  if forallb (fun x => match x with JStr _ => true | _ => false end) l
  then Ok tt
  else raise_type "sequence item: expected str instance".

End py.

(** The library functions the code calls and does not define. *)
Record library := {
  (** [urlparse(u).netloc]; [urlparse] raises [ValueError] on some inputs *)
  urlparse_netloc : string -> result string;
  (** [json.loads]; [None] stands for [json.JSONDecodeError] *)
  json_loads : string -> option json
}.

(* ================================================================== *)
(** * app/utils/url_parser.py *)
(* ================================================================== *)

Module url_parser.

Inductive content_type := twitter | arxiv | acm | web.

(** The first component of [detect_content_type(url)]; the second, an
    identifier cut out of the URL by a regular expression, is not used
    by the router. *)
Definition detect_content_type (lib : library) (url : string) : result content_type :=
  do domain <- urlparse_netloc lib (pystr.lower url);
  if pystr.contains "twitter.com" domain || pystr.contains "x.com" domain
  then Ok twitter
  else if pystr.contains "arxiv.org" domain
  then Ok arxiv
  else if pystr.contains "dl.acm.org" domain || pystr.contains "acm.org" domain
  then Ok acm
  else Ok web.

End url_parser.

(* ================================================================== *)
(** * app/extractors *)
(* ================================================================== *)

Module extractors.

(** The five extractor classes. *)
Inductive extractor :=
| TwitterExtractor | ArxivExtractor | ACMExtractor | PDFExtractor | WebExtractor.

Definition get_source_type (e : extractor) : string :=
  match e with
  | TwitterExtractor => "twitter"
  | ArxivExtractor => "arxiv"
  | ACMExtractor => "acm"
  | PDFExtractor => "pdf"
  | WebExtractor => "web"
  end.

Definition is_type (lib : library) (t : url_parser.content_type) (source : string)
  : result bool :=
  do ct <- url_parser.detect_content_type lib source;
  Ok (match ct, t with
      | url_parser.twitter, url_parser.twitter
      | url_parser.arxiv, url_parser.arxiv
      | url_parser.acm, url_parser.acm
      | url_parser.web, url_parser.web => true
      | _, _ => false
      end).

(** [can_handle(source, is_file)] of each class *)
Definition can_handle (lib : library) (e : extractor) (source : string) (is_file : bool)
  : result bool :=
  match e with
  | TwitterExtractor =>
      if is_file then Ok false else is_type lib url_parser.twitter source
  | ArxivExtractor =>
      if is_file then Ok false else is_type lib url_parser.arxiv source
  | ACMExtractor =>
      if is_file then Ok false else is_type lib url_parser.acm source
  | PDFExtractor =>
      if negb is_file then Ok false
      else Ok (pystr.endswith ".pdf" (pystr.lower source))
  | WebExtractor =>
      if is_file then Ok false
      else Ok (pystr.startswith "http://" source || pystr.startswith "https://" source)
  end.

End extractors.

Module factory.
Import extractors.

(** [ExtractorFactory.extractors], in the order of [__init__] *)
Definition registry : list extractor :=
  [TwitterExtractor; ArxivExtractor; ACMExtractor; PDFExtractor; WebExtractor].

Definition no_extractor (source : string) : exn :=
  mk_exn ValueError ("No suitable extractor found for source: " +++ pystr.upto 100 source).

(** The loop of [get_extractor] over the candidates that are left: a
    candidate whose check raises is skipped like one that declines. *)
Fixpoint first_capable (lib : library) (es : list extractor) (source : string)
         (is_file : bool) : result extractor :=
  match es with
  | [] => Raise (no_extractor source)
  | e :: es' =>
      match can_handle lib e source is_file with
      | Ok true => Ok e
      | Ok false => first_capable lib es' source is_file
      | Raise _ => first_capable lib es' source is_file
      end
  end.

Definition get_extractor (lib : library) (source : string) (is_file : bool)
  : result extractor :=
  first_capable lib registry source is_file.

End factory.

(** [PDFExtractor.extract], on what [os.path.exists] and [pdfplumber]
    give for the file. *)
Module pdf.

Definition LF : ascii := ascii_of_N 10.
Definition newline : string := String LF EmptyString.
Definition tab : string := String (ascii_of_N 9) EmptyString.

(** A table as [extract_tables] gives it: rows of cells, a cell being a
    text or [None] *)
Definition table := list (list (option string)).

Record page := {
  extract_text : result (option string);
  extract_tables : result (list table)
}.

Record document := {
  metadata : option (list (string * json));
  pages : list page
}.

(** A text that counts as true *)
Definition filled (text : option string) : list string :=
  match text with
  | Some t => if pystr.is_empty t then [] else [t]
  | None => []
  end.

(** ['\n'.join(['\t'.join([str(cell) for cell in row if cell])
                  for row in table])] *)
Definition table_text (t : table) : string :=
  pystr.join newline (map (fun row => pystr.join tab (flat_map filled row)) t).

(** [f"\n[Table]\n{table_text}\n"] *)
Definition table_block (t : table) : string :=
  newline +++ "[Table]" +++ newline +++ table_text t +++ newline.

(** What one page appends to [extracted_text]: its text when that counts
    as true, then one block per table.  An error of [extract_text] leaves
    the page out; an error of [extract_tables] leaves its tables out. *)
Definition page_parts (p : page) : list string :=
  match extract_text p with
  | Raise _ => []
  | Ok text =>
      match extract_tables p with
      | Raise _ => filled text
      | Ok tables => filled text ++ map table_block tables
      end
  end.

(** [d.get(k1) or d.get(k2)] *)
Definition get_or (d : list (string * json)) (k1 k2 : string) : json :=
  let first := match py.lookup d k1 with Some v => v | None => JNull end in
  if py.truthy first then first
  else match py.lookup d k2 with Some v => v | None => JNull end.

(** [[line.strip() for line in full_text.split('\n') if line.strip()]] *)
Definition lines (full_text : string) : list string :=
  map pystr.strip
      (filter (fun line => negb (pystr.is_empty (pystr.strip line)))
              (pystr.split_sep LF full_text)).

Record extraction := {
  title : json;
  author : json;
  publish_date : option string;
  content : string;
  file_path : string;
  extractor : string;
  page_count : Z;
  pdf_info : list (string * json)
}.

(** [raise Exception(f"Failed to extract PDF: {str(e)}")] *)
Definition failed (message : string) : exn :=
  mk_exn Exception ("Failed to extract PDF: " +++ message).

(** [extract(source)]: [file_exists] is [os.path.exists(source)],
    [opened] what [pdfplumber.open(source)] gives, and [parse_date] the
    date [dateutil] reads off the text of a value, if it reads one. *)
Definition extract (file_exists : bool) (opened : result document)
           (parse_date : json -> option string) (source : string) : result extraction :=
  if negb file_exists then Raise (failed ("PDF file not found: " +++ source))
  else
    match opened with
    | Raise e => Raise (failed (str_of_exn e))
    | Ok pdf =>
        let pdf_info := match metadata pdf with Some d => d | None => [] end in
        let extracted_text := flat_map page_parts (pages pdf) in
        match extracted_text with
        | [] => Raise (failed "No text could be extracted from PDF")
        | _ :: _ =>
            let full_text := pystr.join (newline +++ newline) extracted_text in
            let title := get_or pdf_info "Title" "title" in
            let title :=
              if negb (py.truthy title) && negb (pystr.is_empty full_text) then
                match lines full_text with
                | first :: _ => JStr first
                | [] => JStr "Untitled PDF"
                end
              else title in
            let author := get_or pdf_info "Author" "author" in
            let creation_date := get_or pdf_info "CreationDate" "creation_date" in
            let publish_date :=
              if py.truthy creation_date then parse_date creation_date else None in
            Ok {| title := if py.truthy title then title else JStr "Untitled PDF";
                  author := author;
                  publish_date := publish_date;
                  content := full_text;
                  file_path := source;
                  extractor := "pdf";
                  page_count := Z.of_nat (List.length (pages pdf));
                  pdf_info := pdf_info |}
        end
    end.

End pdf.

(* ================================================================== *)
(** * app/utils/rate_limiter.py *)
(* ================================================================== *)

Module rate_limiter.

#[local] Open Scope Q_scope.

(** A limiter: its two settings and the queue of admission times,
    oldest first.  Times are in seconds. *)
Record RateLimiter := {
  max_requests : Z;
  time_window : Q;
  requests : list Q
}.

(** [RateLimiter(max_requests, time_window)] *)
Definition new (n : Z) (w : Z) : RateLimiter :=
  {| max_requests := n; time_window := inject_Z w; requests := [] |}.

Definition Qlt_bool (a b : Q) : bool := negb (Qle_bool b a).

(** [while self.requests and self.requests[0] <= limit: popleft()] *)
Fixpoint evict (limit : Q) (q : list Q) : list Q :=
  match q with
  | [] => []
  | t :: q' => if Qle_bool t limit then evict limit q' else q
  end.

(** What one call did: whether and how long it slept, and the time it
    recorded. *)
Record admission := {
  slept : option Q;
  admitted_at : Q
}.

Definition is_full (rl : RateLimiter) (q : list Q) : bool :=
  (max_requests rl <=? Z.of_nat (List.length q))%Z.

(** [acquire()], run with the lock held.  [now] is what [time.time()]
    returns on entry; [asyncio.sleep(wait_time)] returns after
    [wait_time + lag] seconds, and the second [time.time()] reads the
    clock then. *)
Definition acquire (now lag : Q) (rl : RateLimiter) : result (RateLimiter * admission) :=
  let w := time_window rl in
  let q1 := evict (now - w) (requests rl) in
  if is_full rl q1 then
    match q1 with
    | [] => Raise (mk_exn IndexError "deque index out of range")
    | oldest :: _ =>
        let wait_time := w - (now - oldest) in
        if Qlt_bool 0 wait_time then
          let now2 := now + wait_time + lag in
          let q2 := evict (now2 - w) q1 in
          Ok ({| max_requests := max_requests rl; time_window := w;
                 requests := q2 ++ [now2] |},
              {| slept := Some wait_time; admitted_at := now2 |})
        else
          Ok ({| max_requests := max_requests rl; time_window := w;
                 requests := q1 ++ [now] |},
              {| slept := None; admitted_at := now |})
    end
  else
    Ok ({| max_requests := max_requests rl; time_window := w;
           requests := q1 ++ [now] |},
        {| slept := None; admitted_at := now |}).

(** [can_proceed()] *)
Definition can_proceed (now : Q) (rl : RateLimiter) : RateLimiter * bool :=
  let q1 := evict (now - time_window rl) (requests rl) in
  ({| max_requests := max_requests rl; time_window := time_window rl; requests := q1 |},
   negb (is_full rl q1)).

(** One caller: it arrives [gap] seconds after the previous clock
    reading and, if it sleeps, oversleeps by [lag]. *)
Record call := { gap : Q; lag : Q }.

(** The limiter together with the clock and the record of every
    admission so far, latest first. *)
Record timeline := {
  clock : Q;
  limiter : RateLimiter;
  admitted : list Q
}.

Definition step (tl : timeline) (c : call) : result timeline :=
  let now := clock tl + gap c in
  do r <- acquire now (lag c) (limiter tl);
  Ok {| clock := admitted_at (snd r);
        limiter := fst r;
        admitted := admitted_at (snd r) :: admitted tl |}.

(** Successive calls, serialized by the lock. *)
Fixpoint run (tl : timeline) (cs : list call) : result timeline :=
  match cs with
  | [] => Ok tl
  | c :: cs' => do tl' <- step tl c; run tl' cs'
  end.

Definition start (rl : RateLimiter) (t0 : Q) : timeline :=
  {| clock := t0; limiter := rl; admitted := [] |}.

(** The registry [APIRateLimits._limiters] *)
Definition limiters : list (string * RateLimiter) :=
  [("twitter", new 100 900); ("claude", new 50 60);
   ("arxiv", new 3 1); ("general", new 10 1)].

(** [registry.get(api_name)] on a registry in any state of its queues *)
Fixpoint find_limiter (registry : list (string * RateLimiter)) (api_name : string)
  : option RateLimiter :=
  match registry with
  | [] => None
  | (name, rl) :: registry' =>
      if String.eqb name api_name then Some rl else find_limiter registry' api_name
  end.

(** [APIRateLimits.get_limiter(api_name)]; the default,
    [cls._limiters["general"]], is evaluated before the lookup. *)
Definition get_limiter (registry : list (string * RateLimiter)) (api_name : string)
  : result RateLimiter :=
  match find_limiter registry "general" with
  | None => Raise (mk_exn KeyError "'general'")
  | Some general =>
      Ok (match find_limiter registry api_name with
          | Some rl => rl
          | None => general
          end)
  end.

End rate_limiter.

(* ================================================================== *)
(** * app/models and the database session *)
(* ================================================================== *)

(** The rows.  A column keeps the value the code assigns to it; where that
    value comes from decoded JSON it is a [json] term. *)
Module Content.
Record t := {
  id : Z;
  source_type : string;
  source_url : option string;
  file_path : option string;
  title : string;
  author : option string;
  publish_date : option string;
  raw_content : string;
  content_hash : string;
  extraction_metadata : json;
  created_at : string
}.
End Content.

Module Summary.
Record t := {
  id : Z;
  content_id : Z;
  overview : json;
  key_insights : json;
  implications : json;
  model_version : json;
  token_count : json
}.
End Summary.

Module Theme.
Record t := {
  id : Z;
  name : json;
  description : json;
  color : string;
  content_count : Z
}.
End Theme.

Module ContentTheme.
Record t := {
  id : Z;
  content_id : Z;
  theme_id : json;
  confidence : json
}.
End ContentTheme.

Module database.

Record tables := {
  contents : list Content.t;
  summaries : list Summary.t;
  themes : list Theme.t;
  content_themes : list ContentTheme.t
}.

(** The primary-key sequences; a rollback does not rewind them. *)
Record sequences := {
  next_content : Z;
  next_summary : Z;
  next_theme : Z;
  next_content_theme : Z
}.

(** A session: what is committed, and what the open transaction sees.
    The store takes every row and every statement it is given; the only
    errors of the session are those of [scalar_one] and
    [scalar_one_or_none]. *)
Record session := {
  committed : tables;
  current : tables;
  seqs : sequences
}.

Definition commit (s : session) : session :=
  {| committed := current s; current := current s; seqs := seqs s |}.

Definition rollback (s : session) : session :=
  {| committed := committed s; current := committed s; seqs := seqs s |}.

Definition scalar_one_or_none {A} (rows : list A) : result (option A) :=
  match rows with
  | [] => Ok None
  | [r] => Ok (Some r)
  | _ => Raise (mk_exn MultipleResultsFound
                  "Multiple rows were found when one or none was required")
  end.

Definition scalar_one {A} (rows : list A) : result A :=
  match rows with
  | [] => Raise (mk_exn NoResultFound "No row was found when one was required")
  | [r] => Ok r
  | _ => Raise (mk_exn MultipleResultsFound
                  "Multiple rows were found when exactly one was required")
  end.

End database.

(* ================================================================== *)
(** * The state the services run in *)
(* ================================================================== *)

(** A call of one of the three methods of the language-model service. *)
Inductive ai_call := GenerateSummary | CategorizeContent | BootstrapThemes.

Record world := {
  db : database.session;
  (** every call made to the language-model service, latest first *)
  calls : list ai_call
}.

Record llm_reply := {
  (** [response.content[0].text] *)
  reply_text : string;
  (** [response.usage.output_tokens] *)
  output_tokens : Z
}.

(** What an extractor returns. *)
Module Extracted.
Record t := {
  title : string;
  author : option string;
  publish_date : option string;
  content : string;
  metadata : json
}.
End Extracted.

(** What the outside decides during one submission.  Each of the three
    requests to the language model is sent at most once per submission. *)
Record environment := {
  (** [extractor.extract(source)] *)
  extract_outcome : extractors.extractor -> string -> result Extracted.t;
  (** [messages.create] in [generate_summary], [categorize_content] and
      [bootstrap_themes], up to reading the text and the token count *)
  summary_reply : result llm_reply;
  categorize_reply : result llm_reply;
  bootstrap_reply : result llm_reply;
  (** The index [random.choice] draws for the theme with the given id *)
  random_choice : Z -> nat;
  (** [func.now()] *)
  server_now : string
}.

Definition M (A : Type) : Type := world -> result A * world.

Definition ret {A} (a : A) : M A := fun w => (Ok a, w).

Definition bind {A B} (m : M A) (k : A -> M B) : M B :=
  fun w =>
    match m w with
    | (Ok a, w') => k a w'
    | (Raise e, w') => (Raise e, w')
    end.

Definition raise {A} (e : exn) : M A := fun w => (Raise e, w).

Definition lift {A} (r : result A) : M A := fun w => (r, w).

(** [try: m  except Exception as e: h e] *)
Definition try_except {A} (m : M A) (h : exn -> M A) : M A :=
  fun w =>
    match m w with
    | (Ok a, w') => (Ok a, w')
    | (Raise e, w') => h e w'
    end.

Notation "x <- m ;; k" := (bind m (fun x => k))
  (at level 61, m at next level, right associativity).
Notation "m ;; k" := (bind m (fun _ => k))
  (at level 61, right associativity).

Definition get_tables : M database.tables := fun w => (Ok (database.current (db w)), w).

Definition set_tables (t : database.tables) : M unit :=
  fun w => (Ok tt,
            {| db := {| database.committed := database.committed (db w);
                        database.current := t;
                        database.seqs := database.seqs (db w) |};
               calls := calls w |}).

Definition get_seqs : M database.sequences := fun w => (Ok (database.seqs (db w)), w).

Definition set_seqs (q : database.sequences) : M unit :=
  fun w => (Ok tt,
            {| db := {| database.committed := database.committed (db w);
                        database.current := database.current (db w);
                        database.seqs := q |};
               calls := calls w |}).

Definition db_commit : M unit :=
  fun w => (Ok tt, {| db := database.commit (db w); calls := calls w |}).

Definition db_rollback : M unit :=
  fun w => (Ok tt, {| db := database.rollback (db w); calls := calls w |}).

Definition record_call (c : ai_call) : M unit :=
  fun w => (Ok tt, {| db := db w; calls := c :: calls w |}).

(* ================================================================== *)
(** * app/prompts *)
(* ================================================================== *)

(** The text of a prompt goes to the language model, whose reply is an
    input here; what the callers can observe of building a prompt is
    whether it raises. *)
Module prompts.

Fixpoint each {A} (f : A -> result unit) (l : list A) : result unit :=
  match l with
  | [] => Ok tt
  | x :: l' => do _ <- f x; each f l'
  end.

(** [get_theme_categorization_prompt(summary, existing_themes)] reads
    [theme['name']] and [theme.get('description', ...)] of every theme,
    then [summary.get('overview', '')], iterates over
    [summary.get('key_insights', [])] and reads
    [summary.get('implications', '')]. *)
Definition get_theme_categorization_prompt (summary : json) (existing_themes : list json)
  : result unit :=
  do _ <- each (fun theme =>
                  do _ <- py.getitem theme "name";
                  do _ <- py.get theme "description" (JStr "No description");
                  Ok tt) existing_themes;
  do _ <- py.get summary "overview" (JStr "");
  do insights <- py.get summary "key_insights" (JArr []);
  do _ <- py.iter insights;
  do _ <- py.get summary "implications" (JStr "");
  Ok tt.

(** [get_theme_bootstrap_prompt(summaries)] reads
    [s.get('overview', '')] and joins [s.get('key_insights', [])] with
    [', '] for every summary. *)
Definition get_theme_bootstrap_prompt (summaries : list json) : result unit :=
  each (fun s =>
          do _ <- py.get s "overview" (JStr "");
          do insights <- py.get s "key_insights" (JArr []);
          py.joinable insights) summaries.

End prompts.

(* ================================================================== *)
(** * app/services/ai_service.py *)
(* ================================================================== *)

(** Each of the three methods first awaits [acquire] on the limiter named
    claude, which delays and does not raise, then runs its [try]
    block. *)
Module ai_service.

(** [self.model] *)
Definition model : string := "claude-sonnet-4-5-20250929".

Definition fence : string := "```".
Definition json_fence : string := "```json".

(** The text handed to [json.loads]: what stands between a fence tagged
    json, or else any fence, and the next fence, stripped; the whole
    text when it holds no fence. *)
Definition strip_fence (response_text : string) : string :=
  if pystr.contains json_fence response_text then
    let json_start := pystr.find json_fence response_text 0 + 7 in
    let json_end := pystr.find fence response_text json_start in
    pystr.strip (pystr.slice response_text json_start json_end)
  else if pystr.contains fence response_text then
    let json_start := pystr.find fence response_text 0 + 3 in
    let json_end := pystr.find fence response_text json_start in
    pystr.strip (pystr.slice response_text json_start json_end)
  else response_text.

Definition sentinel : string := "Summary generation partially failed - see overview".

(** The fallback dictionary of [generate_summary] *)
Definition degraded (response_text : string) (tokens : Z) : json :=
  JObj [("overview", JStr response_text);
        ("key_insights", JArr [JStr sentinel]);
        ("implications", JNull);
        ("suggested_themes", JArr []);
        ("token_count", JNum (inject_Z tokens));
        ("model_version", JStr model)].

(** The dictionary returned for any other summary type *)
Definition brief (response_text : string) (tokens : Z) : json :=
  JObj [("overview", JStr response_text);
        ("key_insights", JArr []);
        ("implications", JNull);
        ("suggested_themes", JArr []);
        ("token_count", JNum (inject_Z tokens));
        ("model_version", JStr model)].

(** The [try] block of [generate_summary], from the reply on. *)
Definition summary_of_reply (lib : library) (summary_type : string) (reply : llm_reply)
  : result json :=
  if String.eqb summary_type "comprehensive" then
    let response_text := strip_fence (reply_text reply) in
    match json_loads lib response_text with
    | Some summary_data =>
        do has_overview <- py.contains "overview" summary_data;
        if negb has_overview
        then Raise (mk_exn ValueError "Missing 'overview' in summary")
        else
          do has_insights <- py.contains "key_insights" summary_data;
          if negb has_insights
          then Raise (mk_exn ValueError "Missing 'key_insights' in summary")
          else
            do d1 <- py.setitem summary_data "token_count"
                                (JNum (inject_Z (output_tokens reply)));
            py.setitem d1 "model_version" (JStr model)
    | None => Ok (degraded response_text (output_tokens reply))
    end
  else Ok (brief (reply_text reply) (output_tokens reply)).

Definition wrap (prefix : string) (e : exn) : exn :=
  mk_exn Exception (prefix +++ str_of_exn e).

Definition generate_summary (lib : library) (env : environment) (summary_type : string)
  : M json :=
  record_call GenerateSummary ;;
  try_except
    (reply <- lift (summary_reply env) ;;
     lift (summary_of_reply lib summary_type reply))
    (fun e => raise (wrap "Failed to generate summary: " e)).

Definition empty_categorization : json :=
  JObj [("theme_matches", JArr []); ("new_theme_suggestion", JNull)].

(** The [try] block of [categorize_content], from the reply on; the log
    line takes [len(categorization.get('theme_matches', []))]. *)
Definition categorization_of_reply (lib : library) (reply : llm_reply) : result json :=
  match json_loads lib (strip_fence (reply_text reply)) with
  | Some categorization =>
      do matches <- py.get categorization "theme_matches" (JArr []);
      do _ <- py.length matches;
      Ok categorization
  | None => Ok empty_categorization
  end.

Definition categorize_content (lib : library) (env : environment)
           (summary : json) (existing_themes : list json) : M json :=
  record_call CategorizeContent ;;
  try_except
    (lift (prompts.get_theme_categorization_prompt summary existing_themes) ;;
     reply <- lift (categorize_reply env) ;;
     lift (categorization_of_reply lib reply))
    (fun e => raise (wrap "Failed to categorize content: " e)).

(** The [try] block of [bootstrap_themes], from the reply on; the log
    line takes [len(themes)]. *)
Definition themes_of_reply (lib : library) (reply : llm_reply) : result json :=
  match json_loads lib (strip_fence (reply_text reply)) with
  | Some result =>
      do themes <- py.get result "themes" (JArr []);
      do _ <- py.length themes;
      Ok themes
  | None => Ok (JArr [])
  end.

Definition bootstrap_themes (lib : library) (env : environment) (summaries : list json)
  : M json :=
  record_call BootstrapThemes ;;
  try_except
    (lift (prompts.get_theme_bootstrap_prompt summaries) ;;
     reply <- lift (bootstrap_reply env) ;;
     lift (themes_of_reply lib reply))
    (fun e => raise (wrap "Failed to bootstrap themes: " e)).

End ai_service.

(* ================================================================== *)
(** * app/services/theme_service.py *)
(* ================================================================== *)

Module theme_service.

Definition THEME_COLORS : list string :=
  ["#FF5733"; "#33FF57"; "#3357FF"; "#F333FF"; "#FF33F3";
   "#33FFF3"; "#F3FF33"; "#FF8C33"; "#8C33FF"; "#33FF8C";
   "#FF3383"; "#33FFA5"; "#A533FF"; "#FFA533"; "#5733FF"].

Definition CONFIDENCE_HIGH : Q := 3 # 4.
Definition CONFIDENCE_LOW : Q := 1 # 2.
Definition BOOTSTRAP_COUNT : Z := 10.

(** The value of an integer key as the services pass it on *)
Definition of_id (i : Z) : json := JNum (inject_Z i).

(** [Theme.id == theme_id] in a [where] clause; a value that is no
    number selects no row. *)
Definition id_is (theme_id : json) (i : Z) : bool :=
  match theme_id with
  | JNum q => Qeq_bool q (inject_Z i)
  | _ => false
  end.

(** [_create_theme(name, description, db)]: the new row gets the next
    key when it is flushed. *)
Definition _create_theme (env : environment) (name description : json) : M Theme.t :=
  q <- get_seqs ;;
  t <- get_tables ;;
  let i := database.next_theme q in
  let color := nth (Nat.modulo (random_choice env i) (List.length THEME_COLORS))
                   THEME_COLORS "" in
  let theme := {| Theme.id := i; Theme.name := name; Theme.description := description;
                  Theme.color := color; Theme.content_count := 1 |} in
  set_tables {| database.contents := database.contents t;
                database.summaries := database.summaries t;
                database.themes := database.themes t ++ [theme];
                database.content_themes := database.content_themes t |} ;;
  set_seqs {| database.next_content := database.next_content q;
              database.next_summary := database.next_summary q;
              database.next_theme := i + 1;
              database.next_content_theme := database.next_content_theme q |} ;;
  ret theme.

(** [db.add(ContentTheme(content_id=..., theme_id=..., confidence=...))] *)
Definition add_content_theme (content_id : Z) (theme_id confidence : json) : M unit :=
  q <- get_seqs ;;
  t <- get_tables ;;
  let row := {| ContentTheme.id := database.next_content_theme q;
                ContentTheme.content_id := content_id;
                ContentTheme.theme_id := theme_id;
                ContentTheme.confidence := confidence |} in
  set_tables {| database.contents := database.contents t;
                database.summaries := database.summaries t;
                database.themes := database.themes t;
                database.content_themes := database.content_themes t ++ [row] |} ;;
  set_seqs {| database.next_content := database.next_content q;
              database.next_summary := database.next_summary q;
              database.next_theme := database.next_theme q;
              database.next_content_theme := database.next_content_theme q + 1 |}.

Definition bump (theme_id : json) (th : Theme.t) : Theme.t :=
  if id_is theme_id (Theme.id th)
  then {| Theme.id := Theme.id th; Theme.name := Theme.name th;
          Theme.description := Theme.description th; Theme.color := Theme.color th;
          Theme.content_count := Theme.content_count th + 1 |}
  else th.

(** [update(Theme).where(Theme.id == theme_id)
      .values(content_count=Theme.content_count + 1)] *)
Definition increment_content_count (theme_id : json) : M unit :=
  t <- get_tables ;;
  set_tables {| database.contents := database.contents t;
                database.summaries := database.summaries t;
                database.themes := map (bump theme_id) (database.themes t);
                database.content_themes := database.content_themes t |}.

(** The loop of [_bootstrap_themes] over the proposed themes *)
Fixpoint create_proposed (env : environment) (proposed : list json) : M unit :=
  match proposed with
  | [] => ret tt
  | theme_data :: rest =>
      name <- lift (py.getitem theme_data "name") ;;
      description <- lift (py.get theme_data "description" JNull) ;;
      _create_theme env name description ;;
      create_proposed env rest
  end.

Definition summary_dict (s : Summary.t) : json :=
  JObj [("overview", Summary.overview s);
        ("key_insights", Summary.key_insights s);
        ("implications", Summary.implications s)].

(** [select(Summary).order_by(Summary.generated_at.desc()).limit(20)]:
    the rows are kept in the order they were inserted. *)
Definition recent_summaries (t : database.tables) : list Summary.t :=
  firstn 20 (rev (database.summaries t)).

Definition bootstrap_body (lib : library) (env : environment) : M unit :=
  t <- get_tables ;;
  match recent_summaries t with
  | [] => ret tt
  | summaries =>
      themes <- ai_service.bootstrap_themes lib env (map summary_dict summaries) ;;
      proposed <- lift (py.iter themes) ;;
      create_proposed env proposed
  end.

Definition _bootstrap_themes (lib : library) (env : environment) : M unit :=
  try_except (bootstrap_body lib env) (fun _ => ret tt).

(** The themes the categorization works with: those in the table, read
    again after a bootstrap when there are fewer than 5 of them and at
    least [BOOTSTRAP_COUNT] associations. *)
Definition load_themes (lib : library) (env : environment) : M (list Theme.t) :=
  t <- get_tables ;;
  let existing_themes := database.themes t in
  if Z.of_nat (List.length existing_themes) <? 5 then
    let content_count := Z.of_nat (List.length (database.content_themes t)) in
    if BOOTSTRAP_COUNT <=? content_count then
      _bootstrap_themes lib env ;;
      t' <- get_tables ;;
      ret (database.themes t')
    else ret existing_themes
  else ret existing_themes.

(** The loop over [suggested_themes[:3]] *)
Fixpoint create_suggested (env : environment) (content_id : Z) (names : list json)
         (assigned_theme_ids : list json) : M (list json) :=
  match names with
  | [] => ret assigned_theme_ids
  | theme_name :: rest =>
      theme <- _create_theme env theme_name JNull ;;
      add_content_theme content_id (of_id (Theme.id theme)) (JNum 1) ;;
      create_suggested env content_id rest
                       (assigned_theme_ids ++ [of_id (Theme.id theme)])
  end.

(** The loop over [categorization.get('theme_matches', [])] *)
Fixpoint process_matches (content_id : Z) (matches : list json)
         (assigned_theme_ids : list json) : M (list json) :=
  match matches with
  | [] => ret assigned_theme_ids
  | m :: rest =>
      theme_id <- lift (py.get m "theme_id" JNull) ;;
      confidence <- lift (py.get m "confidence" (JNum 0)) ;;
      above <- lift (py.ge confidence CONFIDENCE_LOW) ;;
      if above && py.truthy theme_id then
        add_content_theme content_id theme_id confidence ;;
        increment_content_count theme_id ;;
        process_matches content_id rest (assigned_theme_ids ++ [theme_id])
      else process_matches content_id rest assigned_theme_ids
  end.

Definition theme_dict (th : Theme.t) : json :=
  JObj [("id", of_id (Theme.id th));
        ("name", Theme.name th);
        ("description", Theme.description th)].

Definition is_nil {A} (l : list A) : bool :=
  match l with [] => true | _ => false end.

(** The [try] block of [categorize_content] *)
Definition categorize_body (lib : library) (env : environment)
           (content_id : Z) (summary : json) : M (list json) :=
  existing_themes <- load_themes lib env ;;
  if is_nil existing_themes then
    suggested_themes <- lift (py.get summary "suggested_themes" (JArr [])) ;;
    first3 <- lift (py.upto 3 suggested_themes) ;;
    names <- lift (py.iter first3) ;;
    create_suggested env content_id names []
  else
    categorization <- ai_service.categorize_content lib env summary
                        (map theme_dict existing_themes) ;;
    theme_matches <- lift (py.get categorization "theme_matches" (JArr [])) ;;
    matches <- lift (py.iter theme_matches) ;;
    assigned_theme_ids <- process_matches content_id matches [] ;;
    new_theme_suggestion <- lift (py.get categorization "new_theme_suggestion" JNull) ;;
    if py.truthy new_theme_suggestion && is_nil assigned_theme_ids then
      name <- lift (py.getitem new_theme_suggestion "name") ;;
      description <- lift (py.get new_theme_suggestion "description" JNull) ;;
      theme <- _create_theme env name description ;;
      add_content_theme content_id (of_id (Theme.id theme)) (JNum (9 # 10)) ;;
      ret (assigned_theme_ids ++ [of_id (Theme.id theme)])
    else ret assigned_theme_ids.

Definition categorize_content (lib : library) (env : environment)
           (content_id : Z) (summary : json) : M (list json) :=
  try_except (categorize_body lib env content_id summary) (fun _ => ret []).

End theme_service.

(* ================================================================== *)
(** * app/services/content_processor.py *)
(* ================================================================== *)

Module content_processor.

(** The result dictionary of [_get_content_details] *)
Record summary_view := {
  overview : json;
  key_insights : json;
  implications : json
}.

Record theme_view := {
  theme_id : json;
  confidence : json
}.

Record details := {
  content_id : Z;
  title : string;
  author : option string;
  source_type : string;
  source_url : option string;
  created_at : option string;
  summary : option summary_view;
  themes : list theme_view
}.

Definition has_hash (h : string) (c : Content.t) : bool :=
  String.eqb (Content.content_hash c) h.

Definition _get_content_details (content_id : Z) : M details :=
  t <- get_tables ;;
  content <- lift (database.scalar_one
                     (filter (fun c => Content.id c =? content_id)
                             (database.contents t))) ;;
  summary <- lift (database.scalar_one_or_none
                     (filter (fun s => Summary.content_id s =? content_id)
                             (database.summaries t))) ;;
  let content_themes :=
    filter (fun ct => ContentTheme.content_id ct =? content_id)
           (database.content_themes t) in
  ret {| content_id := Content.id content;
         title := Content.title content;
         author := Content.author content;
         source_type := Content.source_type content;
         source_url := Content.source_url content;
         created_at := Some (Content.created_at content);
         summary := option_map
                      (fun s => {| overview := Summary.overview s;
                                   key_insights := Summary.key_insights s;
                                   implications := Summary.implications s |})
                      summary;
         themes := map (fun ct => {| theme_id := ContentTheme.theme_id ct;
                                     confidence := ContentTheme.confidence ct |})
                       content_themes |}.

(** [extractor_factory.extract(source, is_file)] *)
Definition extract (lib : library) (env : environment) (source : string) (is_file : bool)
  : result Extracted.t :=
  do extractor <- factory.get_extractor lib source is_file;
  extract_outcome env extractor source.

(** [db.add(content); await db.flush()] *)
Definition add_content (env : environment) (source_type : string)
           (source_url file_path : option string) (extracted : Extracted.t)
           (content_hash : string) : M Content.t :=
  q <- get_seqs ;;
  t <- get_tables ;;
  let content := {| Content.id := database.next_content q;
                    Content.source_type := source_type;
                    Content.source_url := source_url;
                    Content.file_path := file_path;
                    Content.title := Extracted.title extracted;
                    Content.author := Extracted.author extracted;
                    Content.publish_date := Extracted.publish_date extracted;
                    Content.raw_content := Extracted.content extracted;
                    Content.content_hash := content_hash;
                    Content.extraction_metadata := Extracted.metadata extracted;
                    Content.created_at := server_now env |} in
  set_tables {| database.contents := database.contents t ++ [content];
                database.summaries := database.summaries t;
                database.themes := database.themes t;
                database.content_themes := database.content_themes t |} ;;
  set_seqs {| database.next_content := database.next_content q + 1;
              database.next_summary := database.next_summary q;
              database.next_theme := database.next_theme q;
              database.next_content_theme := database.next_content_theme q |} ;;
  ret content.

(** [db.add(summary); await db.flush()] *)
Definition add_summary (content_id : Z)
           (overview key_insights implications model_version token_count : json)
  : M unit :=
  q <- get_seqs ;;
  t <- get_tables ;;
  let row := {| Summary.id := database.next_summary q;
                Summary.content_id := content_id;
                Summary.overview := overview;
                Summary.key_insights := key_insights;
                Summary.implications := implications;
                Summary.model_version := model_version;
                Summary.token_count := token_count |} in
  set_tables {| database.contents := database.contents t;
                database.summaries := database.summaries t ++ [row];
                database.themes := database.themes t;
                database.content_themes := database.content_themes t |} ;;
  set_seqs {| database.next_content := database.next_content q;
              database.next_summary := database.next_summary q + 1;
              database.next_theme := database.next_theme q;
              database.next_content_theme := database.next_content_theme q |}.

(** Steps 3 to 5, which [process_url] and [process_file] spell out alike:
    the content row, the summary, the themes, the commit. *)
Definition ingest (lib : library) (env : environment) (source : string) (is_file : bool)
           (source_url file_path : option string) (extracted : Extracted.t)
           (content_hash : string) : M details :=
  extractor <- lift (factory.get_extractor lib source is_file) ;;
  let source_type := extractors.get_source_type extractor in
  content <- add_content env source_type source_url file_path extracted content_hash ;;
  summary_data <- ai_service.generate_summary lib env "comprehensive" ;;
  overview <- lift (py.getitem summary_data "overview") ;;
  key_insights <- lift (py.get summary_data "key_insights" (JArr [])) ;;
  implications <- lift (py.get summary_data "implications" JNull) ;;
  model_version <- lift (py.get summary_data "model_version" JNull) ;;
  token_count <- lift (py.get summary_data "token_count" JNull) ;;
  add_summary (Content.id content) overview key_insights implications
              model_version token_count ;;
  theme_service.categorize_content lib env (Content.id content) summary_data ;;
  db_commit ;;
  _get_content_details (Content.id content).

(** Steps 2 to 5 after the extraction, for the metadata the caller
    hashes with the text. *)
Definition deduplicate_or_ingest (lib : library) (env : environment)
           (source : string) (is_file : bool) (source_url file_path : option string)
           (md : file_handler.metadata) (extracted : Extracted.t) : M details :=
  let content_hash :=
    file_handler.generate_content_hash (Extracted.content extracted) (Some md) in
  t <- get_tables ;;
  existing_content <- lift (database.scalar_one_or_none
                              (filter (has_hash content_hash) (database.contents t))) ;;
  match existing_content with
  | Some c => _get_content_details (Content.id c)
  | None => ingest lib env source is_file source_url file_path extracted content_hash
  end.

Definition failed (prefix : string) (e : exn) : M details :=
  db_rollback ;;
  raise (mk_exn Exception (prefix +++ str_of_exn e)).

Definition process_url (lib : library) (env : environment) (url : string) : M details :=
  try_except
    (extracted <- lift (extract lib env url false) ;;
     deduplicate_or_ingest lib env url false (Some url) None
       [("url", url); ("title", Extracted.title extracted)] extracted)
    (failed "Failed to process URL: ").

Definition process_file (lib : library) (env : environment)
           (file_path original_filename : string) : M details :=
  try_except
    (extracted <- lift (extract lib env file_path true) ;;
     deduplicate_or_ingest lib env file_path true None (Some file_path)
       [("file", original_filename); ("title", Extracted.title extracted)] extracted)
    (failed "Failed to process file: ").

(** The digest [process_url] looks a submission up by *)
Definition url_content_hash (content url title : string) : string :=
  file_handler.generate_content_hash content (Some [("url", url); ("title", title)]).

(** The digest [process_file] looks a submission up by *)
Definition file_content_hash (content original_filename title : string) : string :=
  file_handler.generate_content_hash content
    (Some [("file", original_filename); ("title", title)]).

End content_processor.

(* ================================================================== *)
(** * app/api/routes/content.py *)
(* ================================================================== *)

Module content_routes.

(** [HTTPException(status_code, detail)] *)
Record HTTPException := {
  status_code : Z;
  detail : string
}.

(** What a handler gives: the value it returns, or the [HTTPException] it
    raises *)
Inductive response (A : Type) :=
| Sent (a : A)
| Refused (e : HTTPException).
Arguments Sent {A} a.
Arguments Refused {A} e.

(** The paginated list of [list_content]; one item is built from each
    row the query fetches, in their order. *)
Record listing (A : Type) := {
  items : list A;
  total : Z;
  page : Z;
  page_size : Z;
  total_pages : Z
}.
Arguments items {A} l.
Arguments total {A} l.
Arguments page {A} l.
Arguments page_size {A} l.
Arguments total_pages {A} l.

(** [offset(offset).limit(limit)] on the rows a query yields *)
Definition window {A} (rows : list A) (offset limit : Z) : list A :=
  firstn (Z.to_nat limit) (skipn (Z.to_nat offset) rows).

(** The loop that appends one item for each row fetched *)
Fixpoint build_items {A B} (build : A -> result B) (contents : list A)
  : result (list B) :=
  match contents with
  | [] => Ok []
  | content :: rest =>
      do item <- build content;
      do items <- build_items build rest;
      Ok (item :: items)
  end.

(** [list_content(page, page_size, source_type, theme_id, db)].  [rows]
    is what the query with its filters yields in the order asked for,
    before the offset and the limit, and its length what the count query
    yields; [build] makes the [ContentResponse] of a row from its summary
    and its themes, or raises what the queries and the response model
    raise. *)
Definition list_content {A B} (build : A -> result B) (rows : list A)
           (page page_size : Z) : response (listing B) :=
  if page <? 1 then
    Refused {| status_code := 400; detail := "Page must be >= 1" |}
  else if (page_size <? 1) || (100 <? page_size) then
    Refused {| status_code := 400; detail := "Page size must be between 1 and 100" |}
  else
    let total := Z.of_nat (List.length rows) in
    let contents := window rows ((page - 1) * page_size) page_size in
    match build_items build contents with
    | Raise e =>
        Refused {| status_code := 500;
                   detail := "Failed to list content: " +++ str_of_exn e |}
    | Ok items =>
        Sent {| items := items;
                total := total;
                page := page;
                page_size := page_size;
                total_pages := (total + page_size - 1) / page_size |}
    end.

(** The session with the upload directory beside it *)
Record site := {
  session : world;
  files : file_handler.disk
}.

(** [upload_file(file, db)] for an upload of the bytes [content] under
    the name [filename].  [respond] makes the response for the key of the
    content: [_get_content_detail] and the response model, with their
    errors. *)
Definition upload_file {R} (lib : library) (env : environment)
           (settings : config.Settings) (md5_hexdigest : list N -> string)
           (respond : Z -> M R) (filename : string) (content : list N) (s : site)
  : response R * site :=
  if negb (file_handler.is_allowed_file_type filename file_handler.pdf_only) then
    (Refused {| status_code := 400; detail := "Only PDF files are allowed" |}, s)
  else
    match file_handler.save_upload_file settings md5_hexdigest content filename
                                        (files s) with
    | (Raise e, d) =>
        (Refused {| status_code := 500;
                    detail := "Failed to process file: " +++ str_of_exn e |},
         {| session := session s; files := d |})
    | (Ok file_path, d) =>
        match (result <- content_processor.process_file lib env file_path filename ;;
               respond (content_processor.content_id result)) (session s) with
        | (Ok r, w) => (Sent r, {| session := w; files := d |})
        | (Raise e, w) =>
            (Refused {| status_code := 500;
                        detail := "Failed to process file: " +++ str_of_exn e |},
             {| session := w; files := d |})
        end
    end.

(** [delete_file(file_path)]: [os_remove] is what [os.remove] does for a
    path that exists; its error is caught. *)
Definition delete_file (os_remove : string -> result unit) (file_path : string)
           (d : file_handler.disk) : bool * file_handler.disk :=
  if existsb (fun entry => String.eqb (fst entry) file_path) d then
    match os_remove file_path with
    | Ok _ => (true, filter (fun entry => negb (String.eqb (fst entry) file_path)) d)
    | Raise _ => (false, d)
    end
  else (false, d).

(** [delete(Content).where(Content.id == content_id)]; the foreign keys
    of the summaries and of the associations are declared with
    [ondelete="CASCADE"]. *)
Definition delete_rows (content_id : Z) (t : database.tables) : database.tables :=
  {| database.contents :=
       filter (fun c => negb (Content.id c =? content_id)) (database.contents t);
     database.summaries :=
       filter (fun r => negb (Summary.content_id r =? content_id)) (database.summaries t);
     database.themes := database.themes t;
     database.content_themes :=
       filter (fun l => negb (ContentTheme.content_id l =? content_id))
              (database.content_themes t) |}.

(** A path that counts as true *)
Definition given (file_path : option string) : option string :=
  match file_path with
  | Some path => if pystr.is_empty path then None else Some path
  | None => None
  end.

(** [delete_content(content_id, db)] *)
Definition delete_content (os_remove : string -> result unit) (content_id : Z) (s : site)
  : response unit * site :=
  let w := session s in
  let t := database.current (db w) in
  match database.scalar_one_or_none
          (filter (fun c => Content.id c =? content_id) (database.contents t)) with
  | Raise e =>
      (Refused {| status_code := 500;
                  detail := "Failed to delete content: " +++ str_of_exn e |},
       {| session := snd (db_rollback w); files := files s |})
  | Ok None =>
      (Refused {| status_code := 404;
                  detail := "Content " +++ file_handler.str_of_int content_id
                            +++ " not found" |},
       s)
  | Ok (Some content) =>
      let d := match given (Content.file_path content) with
               | Some path => snd (delete_file os_remove path (files s))
               | None => files s
               end in
      let w1 := snd (set_tables (delete_rows content_id t) w) in
      (Sent tt, {| session := snd (db_commit w1); files := d |})
  end.

End content_routes.

(* ================================================================== *)
(** * Vocabulary of the properties *)
(* ================================================================== *)

Module window.

#[local] Open Scope Q_scope.

(** How many of the times [l] lie in the window of length [w] that ends
    at [t], that is, after [t - w]. *)
Definition count (w t : Q) (l : list Q) : nat :=
  List.length (filter (fun x => rate_limiter.Qlt_bool (t - w) x) l).

(** Every admission of a record (latest first) found fewer than [n]
    earlier admissions in its window. *)
Fixpoint spaced (n : Z) (w : Q) (admitted : list Q) : Prop :=
  match admitted with
  | [] => True
  | t :: earlier => (Z.of_nat (count w t earlier) < n)%Z /\ spaced n w earlier
  end.

(** A caller cannot arrive before the previous clock reading, and a sleep
    does not end early. *)
Definition causal (c : rate_limiter.call) : Prop :=
  0 <= rate_limiter.gap c /\ 0 <= rate_limiter.lag c.

(** The queue of a timeline holds no more than the capacity, it is the
    tail of the record of admissions (what the record holds besides has
    left the window), and the record is spaced. *)
Definition coherent (tl : rate_limiter.timeline) : Prop :=
  let rl := rate_limiter.limiter tl in
  (Z.of_nat (List.length (rate_limiter.requests rl)) <= rate_limiter.max_requests rl)%Z
  /\ (exists expired,
        rate_limiter.admitted tl = rev (rate_limiter.requests rl) ++ expired
        /\ Forall (fun t => t <= rate_limiter.clock tl - rate_limiter.time_window rl)
                  expired)
  /\ spaced (rate_limiter.max_requests rl) (rate_limiter.time_window rl)
            (rate_limiter.admitted tl).

(** The registry [reg] holds the limiters of [APIRateLimits] under their
    names and with their settings, whatever their queues hold. *)
Definition as_configured (reg : list (string * rate_limiter.RateLimiter)) : Prop :=
  map (fun p => (fst p, (rate_limiter.max_requests (snd p),
                         rate_limiter.time_window (snd p)))) reg
  = map (fun p => (fst p, (rate_limiter.max_requests (snd p),
                           rate_limiter.time_window (snd p)))) rate_limiter.limiters.

End window.

(** The world after a call to the language-model service was recorded. *)
Definition logged (c : ai_call) (w : world) : world :=
  {| db := db w; calls := c :: calls w |}.

Module pipeline.

(** A submission: a URL, or an uploaded file with its original name. *)
Inductive submission :=
| ByUrl (url : string)
| ByFile (file_path original_filename : string).

(** [process_url] or [process_file], as the submission asks *)
Definition submit (lib : library) (env : environment) (s : submission)
  : M content_processor.details :=
  match s with
  | ByUrl url => content_processor.process_url lib env url
  | ByFile file_path original_filename =>
      content_processor.process_file lib env file_path original_filename
  end.

(** What the router and the extractor are given *)
Definition source (s : submission) : string :=
  match s with ByUrl url => url | ByFile file_path _ => file_path end.

Definition is_file (s : submission) : bool :=
  match s with ByUrl _ => false | ByFile _ _ => true end.

(** The digest the submission is looked up by, once its text is extracted *)
Definition digest (s : submission) (extracted : Extracted.t) : string :=
  match s with
  | ByUrl url =>
      content_processor.url_content_hash
        (Extracted.content extracted) url (Extracted.title extracted)
  | ByFile _ original_filename =>
      content_processor.file_content_hash
        (Extracted.content extracted) original_filename (Extracted.title extracted)
  end.

(** The dictionary hashed with the text *)
Definition metadata (s : submission) (extracted : Extracted.t) : file_handler.metadata :=
  match s with
  | ByUrl url => [("url", url); ("title", Extracted.title extracted)]
  | ByFile _ original_filename =>
      [("file", original_filename); ("title", Extracted.title extracted)]
  end.

Definition url_column (s : submission) : option string :=
  match s with ByUrl url => Some url | ByFile _ _ => None end.

Definition path_column (s : submission) : option string :=
  match s with ByUrl _ => None | ByFile file_path _ => Some file_path end.

(** The [try] block of [process_url] or [process_file] *)
Definition attempt (lib : library) (env : environment) (s : submission)
  : M content_processor.details :=
  extracted <- lift (content_processor.extract lib env (source s) (is_file s)) ;;
  content_processor.deduplicate_or_ingest lib env (source s) (is_file s)
    (url_column s) (path_column s) (metadata s extracted) extracted.

(** How the error of a failed submission starts *)
Definition failure_prefix (s : submission) : string :=
  match s with
  | ByUrl _ => "Failed to process URL: "
  | ByFile _ _ => "Failed to process file: "
  end.

(** The rows the session sees that carry the digest [h] *)
Definition with_hash (h : string) (w : world) : list Content.t :=
  filter (content_processor.has_hash h) (database.contents (database.current (db w))).

(** The keys in use in the tables [t] lie below [next]: those of the
    content rows, and those the summaries refer to (the foreign key). *)
Definition keys_below (next : Z) (t : database.tables) : Prop :=
  Forall (fun c => Content.id c < next) (database.contents t)
  /\ Forall (fun r => Summary.content_id r < next) (database.summaries t).

(** The content sequence is ahead of every key in use, in what the
    transaction sees and in what is committed. *)
Definition keys_fresh (w : world) : Prop :=
  keys_below (database.next_content (database.seqs (db w))) (database.current (db w))
  /\ keys_below (database.next_content (database.seqs (db w)))
                (database.committed (db w)).

(** [w'] differs from [w] at most in the themes, the associations, their
    two sequences and the record of calls. *)
Definition documents_kept (w w' : world) : Prop :=
  database.committed (db w') = database.committed (db w)
  /\ database.contents (database.current (db w'))
     = database.contents (database.current (db w))
  /\ database.summaries (database.current (db w'))
     = database.summaries (database.current (db w))
  /\ database.next_content (database.seqs (db w'))
     = database.next_content (database.seqs (db w))
  /\ database.next_summary (database.seqs (db w'))
     = database.next_summary (database.seqs (db w)).

(** The computation [m] keeps the documents, whatever it returns. *)
Definition keeps_documents {A} (m : M A) : Prop :=
  forall w, documents_kept w (snd (m w)).

(** The computation [m] returns: it raises in no world. *)
Definition returns {A} (m : M A) : Prop :=
  forall w, exists a, fst (m w) = Ok a.

End pipeline.

Module taxonomy.

(** The theme [_create_theme] makes under the key [i] *)
Definition theme_from (env : environment) (i : Z) (name description : json) : Theme.t :=
  {| Theme.id := i;
     Theme.name := name;
     Theme.description := description;
     Theme.color := nth (Nat.modulo (random_choice env i)
                                    (List.length theme_service.THEME_COLORS))
                        theme_service.THEME_COLORS "";
     Theme.content_count := 1 |}.

(** One theme per name, without description, under the keys from [first]
    on *)
Fixpoint suggested_themes (env : environment) (first : Z) (names : list json)
  : list Theme.t :=
  match names with
  | [] => []
  | name :: rest => theme_from env first name JNull :: suggested_themes env (first + 1) rest
  end.

(** One association of full confidence per name, to the themes keyed from
    [first_theme] on *)
Fixpoint suggested_links (content_id first_link first_theme : Z) (names : list json)
  : list ContentTheme.t :=
  match names with
  | [] => []
  | _ :: rest =>
      {| ContentTheme.id := first_link;
         ContentTheme.content_id := content_id;
         ContentTheme.theme_id := theme_service.of_id first_theme;
         ContentTheme.confidence := JNum 1 |}
      :: suggested_links content_id (first_link + 1) (first_theme + 1) rest
  end.

(** The entry [key] of a dictionary, or [default] *)
Definition field (m : json) (key : string) (default : json) : json :=
  match m with
  | JObj kv => match py.lookup kv key with Some x => x | None => default end
  | _ => default
  end.

Definition theme_id_of (m : json) : json := field m "theme_id" JNull.
Definition confidence_of (m : json) : json := field m "confidence" (JNum 0).

(** The number a value compares as, if it compares at all *)
Definition number (v : json) : option Q :=
  match v with
  | JNum q => Some q
  | JBool b => Some (if b then 1 else 0)%Q
  | _ => None
  end.

(** A match the loop can read: a dictionary whose confidence, when it has
    one, is a number. *)
Definition well_formed (m : json) : Prop :=
  (exists kv, m = JObj kv) /\ number (confidence_of m) <> None.

(** The gate: a confidence of at least one half and a theme key that
    counts as true (neither missing nor null, zero or empty). *)
Definition accepted (m : json) : bool :=
  match number (confidence_of m) with
  | Some q => Qle_bool theme_service.CONFIDENCE_LOW q && py.truthy (theme_id_of m)
  | None => false
  end.

(** One association per match, with the confidence of the match *)
Fixpoint match_links (content_id first_link : Z) (matches : list json)
  : list ContentTheme.t :=
  match matches with
  | [] => []
  | m :: rest =>
      {| ContentTheme.id := first_link;
         ContentTheme.content_id := content_id;
         ContentTheme.theme_id := theme_id_of m;
         ContentTheme.confidence := confidence_of m |}
      :: match_links content_id (first_link + 1) rest
  end.

(** How many of the matches name the theme keyed [i] *)
Definition credits (matches : list json) (i : Z) : Z :=
  Z.of_nat (List.length (filter (fun m => theme_service.id_is (theme_id_of m) i) matches)).

(** The theme with its counter raised by one per match that names it *)
Definition credited (matches : list json) (th : Theme.t) : Theme.t :=
  {| Theme.id := Theme.id th;
     Theme.name := Theme.name th;
     Theme.description := Theme.description th;
     Theme.color := Theme.color th;
     Theme.content_count := Theme.content_count th + credits matches (Theme.id th) |}.

(** A suggestion is taken up when it counts as true and no match was
    accepted. *)
Definition takes_up (suggestion : json) (accepted_matches : list json) : bool :=
  py.truthy suggestion && theme_service.is_nil accepted_matches.

(** A suggestion the code can read: a dictionary with a name, unless it
    counts as false. *)
Definition readable (suggestion : json) : Prop :=
  py.truthy suggestion = true ->
  exists kv name, suggestion = JObj kv /\ py.lookup kv "name" = Some name.

End taxonomy.

Module catalogue.

(** The computation [m] records no call to the language-model service. *)
Definition silent {A} (m : M A) : Prop :=
  forall w, calls (snd (m w)) = calls w.

(** Whether a categorization in the tables [t] starts with a bootstrap:
    fewer than 5 themes and at least [BOOTSTRAP_COUNT] associations *)
Definition bootstrap_due (t : database.tables) : bool :=
  (Z.of_nat (List.length (database.themes t)) <? 5)
  && (theme_service.BOOTSTRAP_COUNT <=? Z.of_nat (List.length (database.content_themes t))).

(** The themes the bootstrap loop makes of the proposed entries, up to
    the first entry it cannot read, under the keys from [first] on *)
Fixpoint proposed_themes (env : environment) (first : Z) (proposed : list json)
  : list Theme.t :=
  match proposed with
  | [] => []
  | theme_data :: rest =>
      match py.getitem theme_data "name", py.get theme_data "description" JNull with
      | Ok name, Ok description =>
          taxonomy.theme_from env first name description
          :: proposed_themes env (first + 1) rest
      | _, _ => []
      end
  end.

(** A proposed entry the loop can read: a dictionary with a name *)
Definition named (theme_data : json) : Prop :=
  exists kv name, theme_data = JObj kv /\ py.lookup kv "name" = Some name.

(** The theme [b] is the theme [a], with a counter that is not lower. *)
Definition same_theme (a b : Theme.t) : Prop :=
  Theme.id b = Theme.id a
  /\ Theme.name b = Theme.name a
  /\ Theme.description b = Theme.description a
  /\ Theme.color b = Theme.color a
  /\ Theme.content_count a <= Theme.content_count b.

(** The session [w'] holds the themes of [w], each with a counter that is
    not lower, followed by new themes, and the associations of [w]
    followed by new associations, all of the content [content_id]. *)
Definition grows (content_id : Z) (w w' : world) : Prop :=
  exists kept new_themes new_links,
    database.themes (database.current (db w')) = kept ++ new_themes
    /\ Forall2 same_theme (database.themes (database.current (db w))) kept
    /\ database.content_themes (database.current (db w'))
       = database.content_themes (database.current (db w)) ++ new_links
    /\ Forall (fun l => ContentTheme.content_id l = content_id) new_links.

(** The computation [m] only adds to the taxonomy, for the content
    [content_id], whatever it returns. *)
Definition growing {A} (content_id : Z) (m : M A) : Prop :=
  forall w, grows content_id w (snd (m w)).

End catalogue.

Module ledger.

(** The content row a new submission adds under the key [key] *)
Definition content_row (env : environment) (x : extractors.extractor)
           (s : pipeline.submission) (extracted : Extracted.t) (key : Z) : Content.t :=
  {| Content.id := key;
     Content.source_type := extractors.get_source_type x;
     Content.source_url := pipeline.url_column s;
     Content.file_path := pipeline.path_column s;
     Content.title := Extracted.title extracted;
     Content.author := Extracted.author extracted;
     Content.publish_date := Extracted.publish_date extracted;
     Content.raw_content := Extracted.content extracted;
     Content.content_hash := pipeline.digest s extracted;
     Content.extraction_metadata := Extracted.metadata extracted;
     Content.created_at := server_now env |}.

(** The summary row written from the dictionary [sd] under the key [key]
    for the content [content_key] *)
Definition summary_row (sd : json) (key content_key : Z) : Summary.t :=
  {| Summary.id := key;
     Summary.content_id := content_key;
     Summary.overview := taxonomy.field sd "overview" JNull;
     Summary.key_insights := taxonomy.field sd "key_insights" (JArr []);
     Summary.implications := taxonomy.field sd "implications" JNull;
     Summary.model_version := taxonomy.field sd "model_version" JNull;
     Summary.token_count := taxonomy.field sd "token_count" JNull |}.

(** The summary as the result of a submission shows it *)
Definition view (row : Summary.t) : content_processor.summary_view :=
  {| content_processor.overview := Summary.overview row;
     content_processor.key_insights := Summary.key_insights row;
     content_processor.implications := Summary.implications row |}.

(** The session after [db.add(c); flush] for a content row, after the
    same for a summary row, and after [commit] *)
Definition with_content (c : Content.t) (w : world) : world :=
  let t := database.current (db w) in
  let q := database.seqs (db w) in
  {| db := {| database.committed := database.committed (db w);
              database.current :=
                {| database.contents := database.contents t ++ [c];
                   database.summaries := database.summaries t;
                   database.themes := database.themes t;
                   database.content_themes := database.content_themes t |};
              database.seqs :=
                {| database.next_content := database.next_content q + 1;
                   database.next_summary := database.next_summary q;
                   database.next_theme := database.next_theme q;
                   database.next_content_theme := database.next_content_theme q |} |};
     calls := calls w |}.

Definition with_summary (row : Summary.t) (w : world) : world :=
  let t := database.current (db w) in
  let q := database.seqs (db w) in
  {| db := {| database.committed := database.committed (db w);
              database.current :=
                {| database.contents := database.contents t;
                   database.summaries := database.summaries t ++ [row];
                   database.themes := database.themes t;
                   database.content_themes := database.content_themes t |};
              database.seqs :=
                {| database.next_content := database.next_content q;
                   database.next_summary := database.next_summary q + 1;
                   database.next_theme := database.next_theme q;
                   database.next_content_theme := database.next_content_theme q |} |};
     calls := calls w |}.

Definition after_commit (w : world) : world :=
  {| db := database.commit (db w); calls := calls w |}.

Definition after_rollback (w : world) : world :=
  {| db := database.rollback (db w); calls := calls w |}.

(** No two content rows of [t] carry the same digest. *)
Definition hashes_unique (t : database.tables) : Prop :=
  NoDup (map Content.content_hash (database.contents t)).

(** The contents [l'] are the contents of the session [w], or they are
    those followed by one row whose digest no row of [w] carries. *)
Definition grown_by_new (w : world) (l' : list Content.t) : Prop :=
  l' = database.contents (database.current (db w))
  \/ exists c, l' = database.contents (database.current (db w)) ++ [c]
               /\ pipeline.with_hash (Content.content_hash c) w = [].

End ledger.

Module paths.

(** The character [c] does not occur in [s]. *)
Fixpoint lacks (c : ascii) (s : string) : bool :=
  match s with
  | EmptyString => true
  | String d s' => negb (Ascii.eqb d c) && lacks c s'
  end.

End paths.

Module replies.

(** No backtick occurs in [s]. *)
Fixpoint plain (s : string) : bool :=
  match s with
  | EmptyString => true
  | String c s' => negb (Ascii.eqb c "`") && plain s'
  end.

End replies.

(* ================================================================== *)
(** * Sample data *)
(* ================================================================== *)

(** Concrete libraries, replies and stores on which the properties below
    are exercised. *)
Module samples.

Definition quote : string := String (ascii_of_N 34) EmptyString.
Definition quoted (s : string) : string := quote +++ s +++ quote.

(** The characters of [s] before the first slash *)
Fixpoint until_slash (s : string) : string :=
  match s with
  | EmptyString => EmptyString
  | String c s' => if Ascii.eqb c "/" then EmptyString else String c (until_slash s')
  end.

(** The host of a plain [http://host/path] or [https://host/path] URL *)
Definition host_of (url : string) : result string :=
  if pystr.startswith "https://" url then Ok (until_slash (pystr.drop 8 url))
  else if pystr.startswith "http://" url then Ok (until_slash (pystr.drop 7 url))
  else Ok EmptyString.

(** [{"overview": "o", "key_insights": ["k"],
      "suggested_themes": ["A", "B", "C", "D"]}] *)
Definition summary_text : string :=
  "{" +++ quoted "overview" +++ ": " +++ quoted "o" +++ ", "
      +++ quoted "key_insights" +++ ": [" +++ quoted "k" +++ "], "
      +++ quoted "suggested_themes" +++ ": ["
      +++ quoted "A" +++ ", " +++ quoted "B" +++ ", "
      +++ quoted "C" +++ ", " +++ quoted "D" +++ "]}".

Definition summary_value : json :=
  JObj [("overview", JStr "o");
        ("key_insights", JArr [JStr "k"]);
        ("suggested_themes", JArr [JStr "A"; JStr "B"; JStr "C"; JStr "D"])].

(** [{"theme_matches": [{"theme_id": 1, "confidence": 0.5},
                        {"theme_id": 2, "confidence": 0.499}],
      "new_theme_suggestion": {"name": "N"}}] *)
Definition matches_text : string :=
  "{" +++ quoted "theme_matches" +++ ": [{" +++ quoted "theme_id" +++ ": 1, "
      +++ quoted "confidence" +++ ": 0.5}, {" +++ quoted "theme_id" +++ ": 2, "
      +++ quoted "confidence" +++ ": 0.499}], "
      +++ quoted "new_theme_suggestion" +++ ": {" +++ quoted "name" +++ ": "
      +++ quoted "N" +++ "}}".

Definition matches_value : json :=
  JObj [("theme_matches",
         JArr [JObj [("theme_id", JNum 1); ("confidence", JNum (5 # 10))];
               JObj [("theme_id", JNum 2); ("confidence", JNum (499 # 1000))]]);
        ("new_theme_suggestion", JObj [("name", JStr "N")])].

(** [{"theme_matches": [{"confidence": 0.9}],
      "new_theme_suggestion": null}] *)
Definition anonymous_match_text : string :=
  "{" +++ quoted "theme_matches" +++ ": [{" +++ quoted "confidence" +++ ": 0.9}], "
      +++ quoted "new_theme_suggestion" +++ ": null}".

Definition anonymous_match_value : json :=
  JObj [("theme_matches", JArr [JObj [("confidence", JNum (9 # 10))]]);
        ("new_theme_suggestion", JNull)].

(** A decoder for the three documents above; like [json.loads] it
    rejects prose. *)
Definition decode (text : string) : option json :=
  if String.eqb text summary_text then Some summary_value
  else if String.eqb text matches_text then Some matches_value
  else if String.eqb text anonymous_match_text then Some anonymous_match_value
  else None.

Definition lib : library :=
  {| urlparse_netloc := host_of; json_loads := decode |}.

Definition reply (text : string) (tokens : Z) : result llm_reply :=
  Ok {| reply_text := text; output_tokens := tokens |}.

Definition unreachable : result llm_reply :=
  Raise (mk_exn Exception "Connection error.").

Definition article : Extracted.t :=
  {| Extracted.title := "T"; Extracted.author := Some "Ann";
     Extracted.publish_date := None; Extracted.content := "Hello   World";
     Extracted.metadata := JObj [] |}.

(** An environment in which every extraction yields [article] and the
    language model answers as given. *)
Definition env (summary categorize bootstrap : result llm_reply) : environment :=
  {| extract_outcome := fun _ _ => Ok article;
     summary_reply := summary;
     categorize_reply := categorize;
     bootstrap_reply := bootstrap;
     random_choice := fun _ => O;
     server_now := "2025-01-01T00:00:00+00:00" |}.

Definition no_tables : database.tables :=
  {| database.contents := []; database.summaries := [];
     database.themes := []; database.content_themes := [] |}.

Definition first_keys : database.sequences :=
  {| database.next_content := 1; database.next_summary := 1;
     database.next_theme := 1; database.next_content_theme := 1 |}.

(** A fresh database and no call made yet *)
Definition empty_world : world :=
  {| db := {| database.committed := no_tables; database.current := no_tables;
              database.seqs := first_keys |};
     calls := [] |}.

(** A reply of unparseable prose inside a fence tagged json *)
Definition fenced_prose : string := "```json oops```".

(** A web page, and environments in which the language model answers the
    summary request with the sample summary, or not at all *)
Definition page : pipeline.submission := pipeline.ByUrl "https://example.org/a".

Definition env_ok : environment :=
  env (reply summary_text 42) unreachable unreachable.

Definition env_down : environment :=
  env unreachable unreachable unreachable.

(** A store that holds the themes A and B and nothing else *)
Definition two_themes : database.tables :=
  {| database.contents := []; database.summaries := [];
     database.themes :=
       [ {| Theme.id := 1; Theme.name := JStr "A"; Theme.description := JNull;
            Theme.color := "#FF5733"; Theme.content_count := 1 |};
         {| Theme.id := 2; Theme.name := JStr "B"; Theme.description := JNull;
            Theme.color := "#33FF57"; Theme.content_count := 1 |} ];
     database.content_themes := [] |}.

Definition themed_world : world :=
  {| db := {| database.committed := two_themes; database.current := two_themes;
              database.seqs :=
                {| database.next_content := 1; database.next_summary := 1;
                   database.next_theme := 3; database.next_content_theme := 1 |} |};
     calls := [] |}.

(** The language model answers the categorization request with the two
    matches and the suggestion, or with the match that names no theme. *)
Definition env_matches : environment :=
  env (reply summary_text 42) (reply matches_text 17) unreachable.

Definition env_anonymous : environment :=
  env (reply summary_text 42) (reply anonymous_match_text 9) unreachable.

(** A limiter for 2 requests per 10 seconds, and three callers one second
    apart *)
Definition small_limiter : rate_limiter.RateLimiter := rate_limiter.new 2 10.

Definition burst : list rate_limiter.call :=
  [ {| rate_limiter.gap := 1; rate_limiter.lag := 0 |};
    {| rate_limiter.gap := 1; rate_limiter.lag := 0 |};
    {| rate_limiter.gap := 1; rate_limiter.lag := 0 |} ].

(** A PDF of two pages without metadata: the first gives a text whose
    first line is blank, the second gives no text and one table *)
Definition scan : pdf.document :=
  {| pdf.metadata := None;
     pdf.pages :=
       [ {| pdf.extract_text :=
              Ok (Some ("  " +++ pdf.newline +++ " Deep Nets " +++ pdf.newline
                        +++ "Abstract"));
            pdf.extract_tables := Ok [] |};
         {| pdf.extract_text := Ok None;
            pdf.extract_tables := Ok [[[Some "a"; None; Some "b"]]] |} ] |}.

Definition no_date (creation_date : json) : option string := None.

(** The session after the page was submitted to a fresh database, with
    an empty upload directory *)
Definition stored_world : world :=
  snd (pipeline.submit lib env_ok page empty_world).

Definition stored_site : content_routes.site :=
  {| content_routes.session := stored_world; content_routes.files := [] |}.

(** A second page, and the session after it was submitted next *)
Definition second_page : pipeline.submission := pipeline.ByUrl "https://example.org/b".

Definition twice_stored_site : content_routes.site :=
  {| content_routes.session := snd (pipeline.submit lib env_ok second_page stored_world);
     content_routes.files := [] |}.

(** The row of an upload stored at [./uploads/d41d.pdf], and a session
    that holds it *)
Definition uploaded_row : Content.t :=
  {| Content.id := 7; Content.source_type := "pdf"; Content.source_url := None;
     Content.file_path := Some "./uploads/d41d.pdf"; Content.title := "T";
     Content.author := None; Content.publish_date := None;
     Content.raw_content := "Hello"; Content.content_hash := "h7";
     Content.extraction_metadata := JObj [];
     Content.created_at := "2025-01-01T00:00:00+00:00" |}.

Definition uploaded_tables : database.tables :=
  {| database.contents := [uploaded_row]; database.summaries := [];
     database.themes := []; database.content_themes := [] |}.

Definition uploaded_world : world :=
  {| db := {| database.committed := uploaded_tables; database.current := uploaded_tables;
              database.seqs :=
                {| database.next_content := 8; database.next_summary := 1;
                   database.next_theme := 1; database.next_content_theme := 1 |} |};
     calls := [] |}.

(** An environment in which no extraction gives a text *)
Definition env_unreadable : environment :=
  {| extract_outcome :=
       fun _ _ => Raise (pdf.failed "No text could be extracted from PDF");
     summary_reply := unreachable;
     categorize_reply := unreachable;
     bootstrap_reply := unreachable;
     random_choice := fun _ => O;
     server_now := "2025-01-01T00:00:00+00:00" |}.

(** A digest function with one value, and a response that is the key *)
Definition one_digest (content : list N) : string := "d41d".

Definition echo (content_id : Z) : M Z := ret content_id.

Definition bare_site : content_routes.site :=
  {| content_routes.session := empty_world; content_routes.files := [] |}.

(** [os.remove] succeeds *)
Definition removes (path : string) : result unit := Ok tt.

End samples.

(* ================================================================== *)
(** * Properties *)
(* ================================================================== *)

(** ** The digest against the FIPS 180-4 test vectors *)

Example sha256_abc :
  sha256.hexdigest (pystr.encode "abc")
  = "ba7816bf8f01cfea414140de5dae2223b00361a396177a9cb410ff61f20015ad".
Proof. vm_compute. reflexivity. Qed.

Example sha256_empty :
  sha256.hexdigest []
  = "e3b0c44298fc1c149afbf4c8996fb92427ae41e4649b934ca495991b7852b855".
Proof. vm_compute. reflexivity. Qed.

Example sha256_two_blocks :
  sha256.hexdigest (pystr.encode
    "aaaaaaaaaaaaaaaaaaaaaaaaaaaaaaaaaaaaaaaaaaaaaaaaaaaaaaaaaaaaaaaaaaaaaa")
  = "6bd5e5034855a11241f0dee8fc72850ffd9955b28347a86428b5fa19119f6ad0".
Proof. vm_compute. reflexivity. Qed.

(** ** Routing *)

Section Routing.
Import extractors.
Variable lib : library.

(** A candidate that declines, or whose check raises, hands over to the
    rest of the list. *)
Lemma first_capable_skip e es source is_file :
  can_handle lib e source is_file <> Ok true ->
  factory.first_capable lib (e :: es) source is_file
  = factory.first_capable lib es source is_file.
Proof.
  intros H. simpl.
  destruct (can_handle lib e source is_file) as [[|]|]; congruence.
Qed.

Lemma first_capable_take e es source is_file :
  can_handle lib e source is_file = Ok true ->
  factory.first_capable lib (e :: es) source is_file = Ok e.
Proof. intros H. simpl. now rewrite H. Qed.

(** No URL extractor takes a file, and the PDF extractor takes no URL. *)
Lemma file_only_pdf e source :
  e <> PDFExtractor -> can_handle lib e source true = Ok false.
Proof. destruct e; simpl; congruence. Qed.

Lemma url_never_pdf source : can_handle lib PDFExtractor source false = Ok false.
Proof. reflexivity. Qed.

Lemma upto_length n s : (String.length (pystr.upto n s) <= n)%nat.
Proof.
  unfold pystr.upto. revert s.
  induction n as [|n IH]; intros [|c s]; simpl; try lia.
  specialize (IH s). lia.
Qed.

End Routing.

(** The router as a decision table. *)
Lemma get_extractor_table (lib : library) (source : string) (is_file : bool) :
  factory.get_extractor lib source is_file
  = (if is_file then
       if pystr.endswith ".pdf" (pystr.lower source)
       then Ok extractors.PDFExtractor
       else Raise (factory.no_extractor source)
     else
       match url_parser.detect_content_type lib source with
       | Ok url_parser.twitter => Ok extractors.TwitterExtractor
       | Ok url_parser.arxiv => Ok extractors.ArxivExtractor
       | Ok url_parser.acm => Ok extractors.ACMExtractor
       | Ok url_parser.web | Raise _ =>
           if pystr.startswith "http://" source || pystr.startswith "https://" source
           then Ok extractors.WebExtractor
           else Raise (factory.no_extractor source)
       end).
Proof.
  unfold factory.get_extractor, factory.registry.
  destruct is_file.
  - rewrite !first_capable_skip
      by (rewrite file_only_pdf; [discriminate | discriminate]).
    simpl.
    destruct (pystr.endswith ".pdf" (pystr.lower source)); reflexivity.
  - unfold factory.first_capable, extractors.can_handle, extractors.is_type.
    destruct (url_parser.detect_content_type lib source) as [[ | | | ]|e]; simpl;
      try reflexivity;
      destruct (pystr.startswith "http://" source || pystr.startswith "https://" source);
      reflexivity.
Qed.

(** A URL whose host holds [twitter.com] is never left to the web
    extractor, whatever else the registry would accept it as. *)
Lemma twitter_host_routed (lib : library) (source domain : string) :
  urlparse_netloc lib (pystr.lower source) = Ok domain ->
  pystr.contains "twitter.com" domain = true ->
  factory.get_extractor lib source false = Ok extractors.TwitterExtractor.
Proof.
  intros Hd Hc. rewrite get_extractor_table.
  unfold url_parser.detect_content_type. rewrite Hd. simpl. now rewrite Hc.
Qed.

(** C8.  The candidates are tried in the order twitter, arxiv, acm, pdf,
    web, and the first that accepts is returned.  A file goes to the PDF
    extractor when its lower-cased path ends in [.pdf] and to no extractor
    at all otherwise; a URL goes to the twitter, arxiv or acm extractor
    when [detect_content_type] classifies it so, and only otherwise
    (classified as plain web, or not classifiable because parsing it
    raised) to the web extractor, which takes everything that starts with
    [http://] or [https://].  When nothing matches, the [ValueError]
    carries the first 100 characters of the source. *)
Theorem get_extractor_priority :
  forall (lib : library) (source : string) (is_file : bool),
    factory.registry
    = [extractors.TwitterExtractor; extractors.ArxivExtractor; extractors.ACMExtractor;
       extractors.PDFExtractor; extractors.WebExtractor]
    /\ factory.get_extractor lib source is_file
       = (if is_file then
            if pystr.endswith ".pdf" (pystr.lower source)
            then Ok extractors.PDFExtractor
            else Raise (factory.no_extractor source)
          else
            match url_parser.detect_content_type lib source with
            | Ok url_parser.twitter => Ok extractors.TwitterExtractor
            | Ok url_parser.arxiv => Ok extractors.ArxivExtractor
            | Ok url_parser.acm => Ok extractors.ACMExtractor
            | Ok url_parser.web | Raise _ =>
                if pystr.startswith "http://" source || pystr.startswith "https://" source
                then Ok extractors.WebExtractor
                else Raise (factory.no_extractor source)
            end)
    /\ exn_cls (factory.no_extractor source) = ValueError
    /\ exn_msg (factory.no_extractor source)
       = "No suitable extractor found for source: " +++ pystr.upto 100 source
    /\ (String.length (pystr.upto 100 source) <= 100)%nat.
Proof.
  intros lib source is_file.
  split; [reflexivity|].
  split; [apply get_extractor_table|].
  split; [reflexivity|].
  split; [reflexivity|apply upto_length].
Qed.

(** ** The content hash *)

Section ContentHash.
Import file_handler.

Lemma lower_char_idem c : pystr.lower_char (pystr.lower_char c) = pystr.lower_char c.
Proof. destruct c as [[] [] [] [] [] [] [] []]; reflexivity. Qed.

Lemma lower_idem s : pystr.lower (pystr.lower s) = pystr.lower s.
Proof. induction s as [|c s IH]; simpl; [reflexivity|]. now rewrite lower_char_idem, IH. Qed.

Lemma lower_app a b : pystr.lower (a +++ b) = pystr.lower a +++ pystr.lower b.
Proof. induction a as [|c a IH]; simpl; [reflexivity|]. now rewrite IH. Qed.

Lemma lower_char_space c : pystr.isspace c = true -> pystr.lower_char c = c.
Proof. destruct c as [[] [] [] [] [] [] [] []]; simpl; intros H; try reflexivity; discriminate. Qed.

(** A white-space character ends the run being read and starts none. *)
Lemma split_from_space cur a w b :
  pystr.isspace w = true ->
  pystr.split_from cur (a +++ String w b)
  = pystr.split_from cur a ++ pystr.split b.
Proof.
  intros Hw. revert cur.
  induction a as [|c a IH]; intros cur; simpl.
  - rewrite Hw. destruct (pystr.is_empty cur); reflexivity.
  - destruct (pystr.isspace c).
    + destruct (pystr.is_empty cur); simpl; now rewrite IH.
    + apply IH.
Qed.

Lemma split_space a w b :
  pystr.isspace w = true ->
  pystr.split (a +++ String w b) = pystr.split a ++ pystr.split b.
Proof. apply split_from_space. Qed.

Lemma split_leading_space w b :
  pystr.isspace w = true -> pystr.split (String w b) = pystr.split b.
Proof. intros Hw. unfold pystr.split. simpl. now rewrite Hw. Qed.

(** Letter case does not reach the hashed text. *)
Lemma normalize_case c : normalize (pystr.lower c) = normalize c.
Proof. unfold normalize. now rewrite lower_idem. Qed.

(** Which white-space character separates two words does not reach the
    hashed text, ... *)
Lemma normalize_space_kind a w1 w2 b :
  pystr.isspace w1 = true -> pystr.isspace w2 = true ->
  normalize (a +++ String w1 b) = normalize (a +++ String w2 b).
Proof.
  intros H1 H2. unfold normalize. rewrite !lower_app. simpl.
  rewrite (lower_char_space w1 H1), (lower_char_space w2 H2).
  now rewrite !split_space.
Qed.

(** ... nor does how many of them do. *)
Lemma normalize_space_run a w1 w2 b :
  pystr.isspace w1 = true -> pystr.isspace w2 = true ->
  normalize (a +++ String w1 (String w2 b)) = normalize (a +++ String w1 b).
Proof.
  intros H1 H2. unfold normalize. rewrite !lower_app. simpl.
  rewrite (lower_char_space w1 H1), (lower_char_space w2 H2).
  rewrite !split_space by assumption.
  now rewrite split_leading_space.
Qed.

(** What [process_url] hashes. *)
Lemma hash_input_url content url title :
  hash_input content (Some [("url", url); ("title", title)])
  = normalize content +++ "|" +++ url +++ "|" +++ title.
Proof. reflexivity. Qed.

(** What [process_file] hashes: the dictionary it passes has no [url]
    entry, so the middle field is empty. *)
Lemma hash_input_file content original_filename title :
  hash_input content (Some [("file", original_filename); ("title", title)])
  = normalize content +++ "||" +++ title.
Proof. reflexivity. Qed.

Lemma url_content_hash_eq content url title :
  content_processor.url_content_hash content url title
  = sha256.hexdigest
      (pystr.encode (normalize content +++ "|" +++ url +++ "|" +++ title)).
Proof. reflexivity. Qed.

Lemma append_cancel_l s a b : s +++ a = s +++ b -> a = b.
Proof. induction s as [|c s IH]; simpl; intros H; [assumption|]. injection H. auto. Qed.

Lemma append_length a b : String.length (a +++ b) = (String.length a + String.length b)%nat.
Proof. induction a as [|c a IH]; simpl; [reflexivity|]. now rewrite IH. Qed.

Lemma append_cancel_r a b s : a +++ s = b +++ s -> a = b.
Proof.
  revert b. induction a as [|c a IH]; intros [|d b] H; simpl in *.
  - reflexivity.
  - exfalso. apply (f_equal String.length) in H. simpl in H.
    rewrite append_length in H. lia.
  - exfalso. apply (f_equal String.length) in H. simpl in H.
    rewrite append_length in H. lia.
  - injection H as -> H. f_equal. now apply IH.
Qed.

(** With the text and the URL fixed, another title is another hashed
    text; with the text and the title fixed, another URL is. *)
Lemma hash_input_url_title content url t1 t2 :
  hash_input content (Some [("url", url); ("title", t1)])
  = hash_input content (Some [("url", url); ("title", t2)]) -> t1 = t2.
Proof.
  rewrite !hash_input_url. intros H.
  now repeat (apply append_cancel_l in H).
Qed.

Lemma hash_input_url_url content u1 u2 title :
  hash_input content (Some [("url", u1); ("title", title)])
  = hash_input content (Some [("url", u2); ("title", title)]) -> u1 = u2.
Proof.
  rewrite !hash_input_url. intros H.
  apply append_cancel_l in H. apply append_cancel_l in H.
  now apply append_cancel_r in H.
Qed.

(** The file name never reaches the hashed text. *)
Lemma file_content_hash_label content f1 f2 title :
  content_processor.file_content_hash content f1 title
  = content_processor.file_content_hash content f2 title.
Proof. reflexivity. Qed.

End ContentHash.

Example url_hash_case_and_space :
  content_processor.url_content_hash "Hello   World" "http://a" "T"
  = content_processor.url_content_hash "hello world" "http://a" "T".
Proof. reflexivity. Qed.

Example url_hash_title_changes :
  content_processor.url_content_hash "Hello" "http://a" "T"
  = "3a78795df1478eadbff280cdb7c3b3717a402428983f0df936b0684bf8c481f1"
  /\ content_processor.url_content_hash "Hello" "http://a" "U"
     = "96b11a8f6c25aeeee037215eff51138ab748c727c6a650369a2099dd22b05dca".
Proof. split; vm_compute; reflexivity. Qed.

(** C1.  On a file submission the digest is taken over the normalized
    text, two bars and the title: two uploads of the same text under the
    same title and different file names get one digest, here the SHA-256
    of [hello||T], although the texts the property describes,
    [hello|a.pdf|T] and [hello|b.pdf|T], differ. *)
Theorem process_file_hash_ignores_label :
  file_handler.hash_input "Hello" (Some [("file", "a.pdf"); ("title", "T")]) = "hello||T"
  /\ content_processor.file_content_hash "Hello" "a.pdf" "T"
     = "f3bc50caaf595b3ee6870ee8e24386f09b5dcc313384707a0b58b28180588cf2"
  /\ content_processor.file_content_hash "Hello" "b.pdf" "T"
     = content_processor.file_content_hash "Hello" "a.pdf" "T"
  /\ sha256.hexdigest (pystr.encode "hello|a.pdf|T")
     <> content_processor.file_content_hash "Hello" "a.pdf" "T".
Proof.
  split; [reflexivity|].
  split; [vm_compute; reflexivity|].
  split; [reflexivity|].
  vm_compute. discriminate.
Qed.

(** ** The summary *)

Section Summaries.
Import ai_service.

Lemma prefix_app_l a b s : String.prefix (a +++ b) s = true -> String.prefix a s = true.
Proof.
  revert s. induction a as [|c a IH]; intros s H.
  - destruct s; reflexivity.
  - destruct s as [|d s]; simpl in *; [discriminate|].
    destruct (Ascii.ascii_dec c d); [|discriminate]. now apply IH.
Qed.

Lemma find_at_eq sub s i :
  pystr.find_at sub s i
  = if String.prefix sub s then Some i
    else match s with
         | EmptyString => None
         | String _ s' => pystr.find_at sub s' (S i)
         end.
Proof. destruct s; reflexivity. Qed.

Lemma find_at_app_l a b s i :
  pystr.find_at a s i = None -> pystr.find_at (a +++ b) s i = None.
Proof.
  revert i. induction s as [|c s IH]; intros i;
    rewrite (find_at_eq a _ i), (find_at_eq (a +++ b) _ i).
  - destruct (String.prefix a EmptyString) eqn:Ha; [discriminate|].
    destruct (String.prefix (a +++ b) EmptyString) eqn:Hab; [|reflexivity].
    apply prefix_app_l in Hab. congruence.
  - destruct (String.prefix a (String c s)) eqn:Ha; [discriminate|].
    destruct (String.prefix (a +++ b) (String c s)) eqn:Hab.
    + apply prefix_app_l in Hab. congruence.
    + apply IH.
Qed.

(** A text without a fence holds no fence tagged json either. *)
Lemma no_fence_no_json_fence text :
  pystr.contains fence text = false -> pystr.contains json_fence text = false.
Proof.
  unfold pystr.contains. intros H.
  destruct (pystr.find_at fence text 0) eqn:Hf; [discriminate|].
  change json_fence with (fence +++ "json").
  now rewrite (find_at_app_l _ _ _ _ Hf).
Qed.

Lemma strip_fence_plain text :
  pystr.contains fence text = false -> strip_fence text = text.
Proof.
  intros H. unfold strip_fence.
  now rewrite (no_fence_no_json_fence _ H), H.
Qed.

Lemma summary_of_reply_degraded lib reply :
  json_loads lib (strip_fence (reply_text reply)) = None ->
  summary_of_reply lib "comprehensive" reply
  = Ok (degraded (strip_fence (reply_text reply)) (output_tokens reply)).
Proof. intros H. unfold summary_of_reply. simpl. now rewrite H. Qed.

Lemma lookup_update_same kv key v : py.lookup (py.update kv key v) key = Some v.
Proof.
  induction kv as [|[k w] kv IH]; simpl.
  - now rewrite String.eqb_refl.
  - destruct (String.eqb k key) eqn:E; simpl; rewrite E; [reflexivity|apply IH].
Qed.

Lemma lookup_update_other kv key v key' :
  key <> key' -> py.lookup (py.update kv key v) key' = py.lookup kv key'.
Proof.
  intros Hne. induction kv as [|[k w] kv IH]; simpl.
  - destruct (String.eqb key key') eqn:E; [|reflexivity].
    apply String.eqb_eq in E. contradiction.
  - destruct (String.eqb k key) eqn:E; simpl.
    + apply String.eqb_eq in E. subst k.
      destruct (String.eqb key key') eqn:E'; [|reflexivity].
      apply String.eqb_eq in E'. contradiction.
    + destruct (String.eqb k key'); [reflexivity|apply IH].
Qed.

(** Whatever [generate_summary] returns carries the token count of the
    reply and the model identifier. *)
Lemma summary_of_reply_accounting lib summary_type reply d :
  summary_of_reply lib summary_type reply = Ok d ->
  py.get d "token_count" JNull = Ok (JNum (inject_Z (output_tokens reply)))
  /\ py.get d "model_version" JNull = Ok (JStr model).
Proof.
  unfold summary_of_reply.
  destruct (String.eqb summary_type "comprehensive").
  - destruct (json_loads lib (strip_fence (reply_text reply))) as [data|].
    + destruct (py.contains "overview" data) as [[|]|]; simpl; try discriminate.
      destruct (py.contains "key_insights" data) as [[|]|]; simpl; try discriminate.
      destruct data; simpl; try discriminate.
      intros H. injection H as <-. simpl.
      rewrite lookup_update_same.
      rewrite lookup_update_other by discriminate.
      rewrite lookup_update_same. split; reflexivity.
    + intros H. injection H as <-. split; reflexivity.
  - intros H. injection H as <-. split; reflexivity.
Qed.

(** A summary that is returned is a dictionary with an [overview]. *)
Lemma summary_of_reply_shape lib reply d :
  summary_of_reply lib "comprehensive" reply = Ok d ->
  exists kv, d = JObj kv /\ py.lookup kv "overview" <> None.
Proof.
  unfold summary_of_reply. simpl.
  destruct (json_loads lib (strip_fence (reply_text reply))) as [data|].
  - destruct (py.contains "overview" data) as [[|]|] eqn:Ho; simpl; try discriminate.
    destruct (py.contains "key_insights" data) as [[|]|]; simpl; try discriminate.
    destruct data; simpl; try discriminate.
    intros H. injection H as <-.
    eexists. split; [reflexivity|].
    rewrite !lookup_update_other by discriminate.
    simpl in Ho. destruct (py.lookup kv "overview"); [discriminate|discriminate Ho].
  - intros H. injection H as <-. eexists. split; [reflexivity|]. simpl. discriminate.
Qed.

(** One run of [generate_summary]: the call is recorded, and an error of
    the request or of the validation comes back wrapped. *)
Lemma generate_summary_run lib env summary_type w :
  generate_summary lib env summary_type w
  = (match rbind (summary_reply env) (summary_of_reply lib summary_type) with
     | Ok d => Ok d
     | Raise e => Raise (wrap "Failed to generate summary: " e)
     end, logged GenerateSummary w).
Proof.
  unfold generate_summary, bind, try_except, record_call, lift, raise, logged, rbind.
  destruct (summary_reply env) as [reply|e]; [|reflexivity].
  destruct (summary_of_reply lib summary_type reply); reflexivity.
Qed.

End Summaries.

(** The reply [```json oops```] does not parse; the summary returned for
    it has the overview [oops], which is not the text of the reply. *)
Lemma fenced_reply_overview_is_stripped :
  json_loads samples.lib (ai_service.strip_fence samples.fenced_prose) = None
  /\ fst (ai_service.generate_summary samples.lib
            (samples.env (samples.reply samples.fenced_prose 7)
                         samples.unreachable samples.unreachable)
            "comprehensive" samples.empty_world)
     = Ok (ai_service.degraded "oops" 7)
  /\ py.get (ai_service.degraded "oops" 7) "overview" JNull = Ok (JStr "oops")
  /\ "oops" <> samples.fenced_prose.
Proof.
  split; [reflexivity|].
  split; [reflexivity|].
  split; [reflexivity|discriminate].
Qed.

(** C4, amended.  When the text handed to [json.loads] does not parse, a
    comprehensive [generate_summary] does not raise: it records the call
    and returns the dictionary whose overview is that text, which is the
    reply with its fence stripped and the reply itself when the reply
    holds no fence, whose key insights are the one sentinel, whose
    implications are null and whose suggested themes are empty.  That
    dictionary, like every dictionary a comprehensive call returns,
    carries the token count of the reply and the model identifier. *)
Theorem degraded_summary_on_parse_failure :
  forall (lib : library) (env : environment) (reply : llm_reply) (w : world),
    summary_reply env = Ok reply ->
    json_loads lib (ai_service.strip_fence (reply_text reply)) = None ->
    ai_service.generate_summary lib env "comprehensive" w
    = (Ok (JObj [("overview", JStr (ai_service.strip_fence (reply_text reply)));
                 ("key_insights",
                  JArr [JStr "Summary generation partially failed - see overview"]);
                 ("implications", JNull);
                 ("suggested_themes", JArr []);
                 ("token_count", JNum (inject_Z (output_tokens reply)));
                 ("model_version", JStr "claude-sonnet-4-5-20250929")]),
       logged GenerateSummary w)
    /\ (pystr.contains "```" (reply_text reply) = false ->
        ai_service.strip_fence (reply_text reply) = reply_text reply)
    /\ (forall (lib' : library) (d : json),
          fst (ai_service.generate_summary lib' env "comprehensive" w) = Ok d ->
          py.get d "token_count" JNull = Ok (JNum (inject_Z (output_tokens reply)))
          /\ py.get d "model_version" JNull = Ok (JStr ai_service.model)).
Proof.
  intros lib env reply w Hreply Hparse.
  split; [|split].
  - rewrite generate_summary_run, Hreply. simpl rbind.
    now rewrite (summary_of_reply_degraded lib reply Hparse).
  - apply strip_fence_plain.
  - intros lib' d. rewrite generate_summary_run, Hreply. simpl.
    destruct (ai_service.summary_of_reply lib' "comprehensive" reply) eqn:E;
      [|discriminate].
    intros H. injection H as <-.
    exact (summary_of_reply_accounting _ _ _ _ E).
Qed.

Lemma degraded_summary_on_parse_failure_witness :
  let env := samples.env (samples.reply "plain prose" 7)
                         samples.unreachable samples.unreachable in
  let reply := {| reply_text := "plain prose"; output_tokens := 7 |} in
  summary_reply env = Ok reply
  /\ json_loads samples.lib (ai_service.strip_fence (reply_text reply)) = None
  /\ ai_service.generate_summary samples.lib env "comprehensive" samples.empty_world
     = (Ok (ai_service.degraded "plain prose" 7),
        logged GenerateSummary samples.empty_world).
Proof.
  split; [reflexivity|].
  split; [reflexivity|].
  exact (proj1 (degraded_summary_on_parse_failure
                  samples.lib
                  (samples.env (samples.reply "plain prose" 7)
                               samples.unreachable samples.unreachable)
                  {| reply_text := "plain prose"; output_tokens := 7 |}
                  samples.empty_world eq_refl eq_refl)).
Defined.

(** ** The rate limiter *)

Section RateLimiter.
Import rate_limiter.
#[local] Open Scope Q_scope.

Lemma Qlt_bool_true a b : Qlt_bool a b = true <-> a < b.
Proof.
  unfold Qlt_bool. rewrite negb_true_iff. split.
  - intros H. apply Qnot_le_lt. intros Hle.
    apply Qle_bool_iff in Hle. congruence.
  - intros H. destruct (Qle_bool b a) eqn:E; [|reflexivity].
    apply Qle_bool_iff in E. exfalso. apply (Qlt_not_le _ _ H E).
Qed.

Lemma Qlt_bool_false a b : Qlt_bool a b = false <-> b <= a.
Proof.
  unfold Qlt_bool. rewrite negb_false_iff. apply Qle_bool_iff.
Qed.

Lemma Qle_bool_false a b : Qle_bool a b = false -> b < a.
Proof.
  intros H. apply Qnot_le_lt. intros Hle. apply Qle_bool_iff in Hle. congruence.
Qed.

Lemma evict_length limit q : (List.length (evict limit q) <= List.length q)%nat.
Proof.
  induction q as [|t q IH]; simpl; [lia|].
  destruct (Qle_bool t limit); simpl; lia.
Qed.

(** What the eviction leaves starts with a time inside the window. *)
Lemma evict_head limit q t rest : evict limit q = t :: rest -> limit < t.
Proof.
  induction q as [|x q IH]; simpl; [discriminate|].
  destruct (Qle_bool x limit) eqn:E; [exact IH|].
  intros H. injection H as -> _. now apply Qle_bool_false.
Qed.

Lemma evict_expired limit t q : t <= limit -> evict limit (t :: q) = evict limit q.
Proof. intros H. simpl. apply Qle_bool_iff in H. now rewrite H. Qed.

Lemma evict_idem limit q : evict limit (evict limit q) = evict limit q.
Proof.
  destruct (evict limit q) as [|t rest] eqn:E; [reflexivity|].
  apply evict_head in E. simpl.
  destruct (Qle_bool t limit) eqn:El; [|reflexivity].
  apply Qle_bool_iff in El. exfalso. apply (Qlt_not_le _ _ E El).
Qed.

(** The eviction removes a prefix of expired times. *)
Lemma evict_split limit q :
  exists expired, q = expired ++ evict limit q /\ Forall (fun t => t <= limit) expired.
Proof.
  induction q as [|t q (expired & Hq & Hall)]; simpl.
  - exists []. split; [reflexivity|constructor].
  - destruct (Qle_bool t limit) eqn:E.
    + exists (t :: expired). split; [simpl; now rewrite <- Hq|].
      constructor; [now apply Qle_bool_iff|assumption].
    + exists []. split; [reflexivity|constructor].
Qed.

(** When the queue is full after the eviction, the wait is positive, and
    the oldest time has left the window when the sleep is over. *)
Lemma full_queue_wait now lag w q oldest rest :
  evict (now - w) q = oldest :: rest ->
  0 <= lag ->
  0 < w - (now - oldest)
  /\ oldest <= (now + (w - (now - oldest)) + lag) - w
  /\ evict ((now + (w - (now - oldest)) + lag) - w) (oldest :: rest)
     = evict ((now + (w - (now - oldest)) + lag) - w) rest.
Proof.
  intros He Hlag. apply evict_head in He.
  assert (H1 : 0 < w - (now - oldest)) by lra.
  assert (H2 : oldest <= (now + (w - (now - oldest)) + lag) - w) by lra.
  split; [assumption|]. split; [assumption|]. now apply evict_expired.
Qed.

(** One call, case by case. *)
Lemma acquire_not_full now lag rl :
  is_full rl (evict (now - time_window rl) (requests rl)) = false ->
  acquire now lag rl
  = Ok ({| max_requests := max_requests rl; time_window := time_window rl;
           requests := evict (now - time_window rl) (requests rl) ++ [now] |},
        {| slept := None; admitted_at := now |}).
Proof. intros H. unfold acquire. now rewrite H. Qed.

Lemma acquire_full now lag rl oldest rest :
  is_full rl (evict (now - time_window rl) (requests rl)) = true ->
  evict (now - time_window rl) (requests rl) = oldest :: rest ->
  let wait_time := time_window rl - (now - oldest) in
  let now2 := now + wait_time + lag in
  acquire now lag rl
  = Ok ({| max_requests := max_requests rl; time_window := time_window rl;
           requests := evict (now2 - time_window rl) (oldest :: rest) ++ [now2] |},
        {| slept := Some wait_time; admitted_at := now2 |}).
Proof.
  intros Hfull He. simpl. unfold acquire. rewrite Hfull, He.
  apply evict_head in He.
  assert (Hw : Qlt_bool 0 (time_window rl - (now - oldest)) = true)
    by (apply Qlt_bool_true; lra).
  now rewrite Hw.
Qed.

Lemma full_nonempty rl q :
  (1 <= max_requests rl)%Z -> is_full rl q = true -> q <> [].
Proof.
  unfold is_full. intros Hn Hf ->. simpl in Hf.
  apply Z.leb_le in Hf. lia.
Qed.

End RateLimiter.

Section Timeline.
Import rate_limiter.
#[local] Open Scope Q_scope.

Lemma filter_none {A} (p : A -> bool) (l : list A) :
  Forall (fun x => p x = false) l -> filter p l = [].
Proof.
  induction 1 as [|x l Hx _ IH]; simpl; [reflexivity|]. now rewrite Hx.
Qed.

Lemma filter_length_bound {A} (p : A -> bool) (l : list A) :
  (List.length (filter p l) <= List.length l)%nat.
Proof. induction l as [|x l IH]; simpl; [lia|]. destruct (p x); simpl; lia. Qed.

Lemma filter_short {A} (p : A -> bool) (l : list A) :
  (List.length (filter p l) < List.length l)%nat ->
  exists x, In x l /\ p x = false.
Proof.
  induction l as [|x l IH]; simpl; [lia|].
  destruct (p x) eqn:E; simpl; intros H.
  - destruct IH as (y & Hy & Hp); [lia|]. exists y. auto.
  - exists x. auto.
Qed.

(** Times that left the window do not count, so the count is at most the
    length of the queue. *)
Lemma count_bound w t q expired :
  Forall (fun x => x <= t - w) expired ->
  (window.count w t (rev q ++ expired) <= List.length q)%nat.
Proof.
  intros Hexp. unfold window.count. rewrite filter_app.
  rewrite (filter_none _ expired).
  - rewrite app_nil_r. rewrite <- (length_rev q). apply filter_length_bound.
  - eapply Forall_impl; [|exact Hexp]. intros x Hx. now apply Qlt_bool_false.
Qed.

Lemma Forall_le_weaken (a b : Q) l :
  a <= b -> Forall (fun t => t <= a) l -> Forall (fun t => t <= b) l.
Proof.
  intros Hab H. eapply Forall_impl; [|exact H]. intros x Hx. simpl in Hx. lra.
Qed.

(** One call from a coherent timeline: it cannot fail when the capacity is
    positive, and when it returns the timeline is coherent again, with
    the settings it had. *)
Lemma step_coherent tl c tl' :
  window.coherent tl -> window.causal c -> step tl c = Ok tl' ->
  window.coherent tl'
  /\ max_requests (limiter tl') = max_requests (limiter tl)
  /\ time_window (limiter tl') = time_window (limiter tl)
  /\ admitted tl' = clock tl' :: admitted tl
  /\ clock tl <= clock tl'.
Proof.
  intros (Hlen & (expired & Hadm & Hexp) & Hsp) (Hgap & Hlag) Hstep.
  unfold step in Hstep.
  set (rl := limiter tl) in *.
  set (w := time_window rl) in *.
  set (now := clock tl + gap c) in *.
  destruct (evict_split (now - w) (requests rl)) as (pre & Hq & Hpre).
  assert (Hnow : clock tl <= now) by (unfold now; lra).
  destruct (is_full rl (evict (now - w) (requests rl))) eqn:Hfull.
  - destruct (evict (now - w) (requests rl)) as [|oldest rest] eqn:He.
    + unfold acquire in Hstep. fold w in Hstep. rewrite He, Hfull in Hstep.
      discriminate.
    + assert (Hfull0 : is_full rl (evict (now - time_window rl) (requests rl)) = true).
      { change (is_full rl (evict (now - w) (requests rl)) = true).
        now rewrite He. }
      pose proof (acquire_full now (lag c) rl oldest rest Hfull0 He) as Hacq.
      cbv zeta in Hacq. fold w in Hacq.
      destruct (full_queue_wait now (lag c) w (requests rl) oldest rest He Hlag)
        as (Hpos & Hold & Hev).
      rewrite Hev in Hacq.
      set (now2 := now + (w - (now - oldest)) + lag c) in *.
      rewrite Hacq in Hstep. unfold rbind in Hstep.
      cbn [fst snd admitted_at] in Hstep. injection Hstep as <-.
      cbn [limiter clock admitted requests max_requests time_window].
      destruct (evict_split (now2 - w) rest) as (pre2 & Hq2 & Hpre2).
      assert (Hnow2 : now <= now2) by (unfold now2; lra).
      assert (Hbound : (List.length (evict (now2 - w) rest) < List.length (oldest :: rest))%nat).
      { pose proof (evict_length (now2 - w) rest). simpl. lia. }
      assert (Hq1 : (List.length (oldest :: rest) <= List.length (requests rl))%nat).
      { rewrite <- He. apply evict_length. }
      assert (Hadm' :
        admitted tl
        = rev (evict (now2 - w) rest) ++ (rev pre2 ++ [oldest] ++ rev pre ++ expired)).
      { rewrite Hadm. rewrite Hq at 1. rewrite Hq2 at 1.
        rewrite !rev_app_distr. simpl. rewrite !rev_app_distr.
        rewrite <- !app_assoc. reflexivity. }
      assert (Hall : Forall (fun t => t <= now2 - w)
                            (rev pre2 ++ [oldest] ++ rev pre ++ expired)).
      { apply Forall_app. split; [apply Forall_rev; exact Hpre2|].
        apply Forall_app. split; [constructor; [exact Hold|constructor]|].
        apply Forall_app. split.
        - apply Forall_rev. apply (Forall_le_weaken (now - w)); [lra|exact Hpre].
        - apply (Forall_le_weaken (clock tl - w)); [lra|exact Hexp]. }
      split; [|split; [reflexivity|split; [reflexivity|split; [reflexivity|lra]]]].
      unfold window.coherent.
      cbn [limiter clock admitted requests max_requests time_window].
      split; [|split].
      * rewrite length_app. simpl. simpl in Hbound, Hq1. lia.
      * exists (rev pre2 ++ [oldest] ++ rev pre ++ expired).
        split; [|exact Hall].
        rewrite rev_app_distr. simpl. now rewrite Hadm'.
      * split; [|exact Hsp].
        rewrite Hadm'.
        pose proof (count_bound w now2 (evict (now2 - w) rest) _ Hall).
        simpl in Hbound, Hq1. lia.
  - rewrite (acquire_not_full now (lag c) rl Hfull) in Hstep.
    unfold rbind in Hstep. cbn [fst snd admitted_at] in Hstep.
    injection Hstep as <-.
    cbn [limiter clock admitted requests max_requests time_window]. fold w.
    assert (Hadm' :
      admitted tl = rev (evict (now - w) (requests rl)) ++ (rev pre ++ expired)).
    { rewrite Hadm. rewrite Hq at 1. rewrite rev_app_distr.
      now rewrite <- app_assoc. }
    assert (Hall : Forall (fun t => t <= now - w) (rev pre ++ expired)).
    { apply Forall_app. split; [apply Forall_rev; exact Hpre|].
      apply (Forall_le_weaken (clock tl - w)); [lra|exact Hexp]. }
    assert (Hroom : (Z.of_nat (List.length (evict (now - w) (requests rl)))
                     < max_requests rl)%Z).
    { unfold is_full in Hfull. apply Z.leb_gt in Hfull. exact Hfull. }
    split; [|split; [reflexivity|split; [reflexivity|split; [reflexivity|lra]]]].
    unfold window.coherent.
    cbn [limiter clock admitted requests max_requests time_window]. fold w.
    split; [|split].
    * rewrite length_app. simpl. lia.
    * exists (rev pre ++ expired). split; [|exact Hall].
      rewrite rev_app_distr. simpl. now rewrite Hadm'.
    * split; [|exact Hsp].
      rewrite Hadm'.
      pose proof (count_bound w now (evict (now - w) (requests rl)) _ Hall). lia.
Qed.

Lemma acquire_total now lag rl :
  (1 <= max_requests rl)%Z -> exists r, acquire now lag rl = Ok r.
Proof.
  intros Hn. unfold acquire.
  destruct (is_full rl (evict (now - time_window rl) (requests rl))) eqn:Hfull;
    [|eexists; reflexivity].
  destruct (evict (now - time_window rl) (requests rl)) as [|oldest rest] eqn:He.
  - exfalso. exact (full_nonempty rl [] Hn Hfull eq_refl).
  - destruct (Qlt_bool 0 (time_window rl - (now - oldest))); eexists; reflexivity.
Qed.

Lemma acquire_settings now lag rl r :
  acquire now lag rl = Ok r ->
  max_requests (fst r) = max_requests rl /\ time_window (fst r) = time_window rl.
Proof.
  unfold acquire.
  destruct (is_full rl (evict (now - time_window rl) (requests rl))).
  - destruct (evict (now - time_window rl) (requests rl)) as [|oldest rest];
      [discriminate|].
    destruct (Qlt_bool 0 (time_window rl - (now - oldest)));
      intros H; injection H as <-; split; reflexivity.
  - intros H; injection H as <-; split; reflexivity.
Qed.

Lemma step_total tl c :
  (1 <= max_requests (limiter tl))%Z ->
  exists tl', step tl c = Ok tl' /\ max_requests (limiter tl') = max_requests (limiter tl).
Proof.
  intros Hn. unfold step.
  destruct (acquire_total (clock tl + gap c) (lag c) (limiter tl) Hn) as (r & Hr).
  rewrite Hr. simpl. eexists. split; [reflexivity|].
  simpl. apply (acquire_settings _ _ _ _ Hr).
Qed.

Lemma run_total cs : forall tl,
  (1 <= max_requests (limiter tl))%Z -> exists tl', run tl cs = Ok tl'.
Proof.
  induction cs as [|c cs IH]; intros tl Hn; simpl.
  - eexists; reflexivity.
  - destruct (step_total tl c Hn) as (tl1 & Hs & Hm). rewrite Hs. simpl.
    apply IH. now rewrite Hm.
Qed.

Lemma run_coherent cs : forall tl tl',
  window.coherent tl -> Forall window.causal cs -> run tl cs = Ok tl' ->
  window.coherent tl'
  /\ max_requests (limiter tl') = max_requests (limiter tl)
  /\ time_window (limiter tl') = time_window (limiter tl)
  /\ List.length (admitted tl') = (List.length cs + List.length (admitted tl))%nat.
Proof.
  induction cs as [|c cs IH]; intros tl tl' Hc Hcs Hrun; simpl in Hrun.
  - injection Hrun as <-.
    split; [exact Hc|]. split; [reflexivity|]. split; reflexivity.
  - destruct (step tl c) as [tl1|e] eqn:Hs; simpl in Hrun; [|discriminate].
    inversion Hcs as [|? ? Hcc Hcs']; subst.
    destruct (step_coherent tl c tl1 Hc Hcc Hs) as (Hc1 & Hm1 & Hw1 & Ha1 & _).
    destruct (IH tl1 tl' Hc1 Hcs' Hrun) as (Hc' & Hm' & Hw' & Hl').
    split; [exact Hc'|]. split; [congruence|]. split; [congruence|].
    rewrite Hl', Ha1. simpl. lia.
Qed.

(** A first call that returns on an empty queue shows a capacity of at
    least one. *)
Lemma first_call_capacity rl t0 c cs tl :
  requests rl = [] -> run (start rl t0) (c :: cs) = Ok tl ->
  (1 <= max_requests rl)%Z.
Proof.
  intros Hq Hrun. simpl in Hrun. unfold step, acquire in Hrun. simpl in Hrun.
  rewrite Hq in Hrun. simpl in Hrun. unfold is_full in Hrun. simpl in Hrun.
  destruct (max_requests rl <=? 0)%Z eqn:E; [discriminate|].
  apply Z.leb_gt in E. lia.
Qed.

(** The limiters of the registry have a capacity of at least one. *)
Lemma registry_capacities :
  Forall (fun entry => (1 <= max_requests (snd entry))%Z) limiters.
Proof. repeat constructor; simpl; lia. Qed.

Lemma start_coherent rl t0 :
  requests rl = [] -> (0 <= max_requests rl)%Z -> window.coherent (start rl t0).
Proof.
  intros Hq Hn. unfold window.coherent, start. simpl. rewrite Hq. simpl.
  split; [exact Hn|]. split; [|exact I].
  exists []. split; [reflexivity|constructor].
Qed.

End Timeline.

Example burst_of_three :
  exists tl,
    rate_limiter.run (rate_limiter.start samples.small_limiter 0) samples.burst = Ok tl
    /\ List.length (rate_limiter.requests (rate_limiter.limiter tl)) = 2%nat
    /\ Qeq (rate_limiter.clock tl) 11.
Proof. eexists. split; [reflexivity|]. split; reflexivity. Qed.

(** C9.  With a capacity of at least one, [acquire] always returns.  It
    evicts the times that left the window; if the queue then holds fewer
    times than the capacity it records the time of the call at once;
    otherwise it sleeps for the window minus the age of the oldest time,
    which is positive, evicts again with the clock read after the sleep
    (the oldest time is gone by then) and records that reading.  On a new
    limiter any sequence of calls returns, and once more calls than the
    capacity were made the latest admission lies a full window after some
    earlier one.  The clock is assumed not to run backwards and a sleep
    not to end early. *)
Theorem acquire_delays_never_rejects :
  forall (rl : rate_limiter.RateLimiter) (now lag t0 : Q) (cs : list rate_limiter.call),
    (1 <= rate_limiter.max_requests rl)%Z ->
    (0 <= lag)%Q ->
    Forall window.causal cs ->
    let w := rate_limiter.time_window rl in
    let q1 := rate_limiter.evict (now - w)%Q (rate_limiter.requests rl) in
    (exists rl' adm,
        rate_limiter.acquire now lag rl = Ok (rl', adm)
        /\ rate_limiter.max_requests rl' = rate_limiter.max_requests rl
        /\ rate_limiter.time_window rl' = w
        /\ rate_limiter.requests rl'
           = rate_limiter.evict (rate_limiter.admitted_at adm - w)%Q q1
             ++ [rate_limiter.admitted_at adm]
        /\ (if rate_limiter.is_full rl q1
            then exists oldest rest,
                q1 = oldest :: rest
                /\ rate_limiter.slept adm = Some (w - (now - oldest))%Q
                /\ (0 < w - (now - oldest))%Q
                /\ rate_limiter.admitted_at adm = (now + (w - (now - oldest)) + lag)%Q
                /\ (oldest + w <= rate_limiter.admitted_at adm)%Q
                /\ rate_limiter.requests rl'
                   = rate_limiter.evict (rate_limiter.admitted_at adm - w)%Q rest
                     ++ [rate_limiter.admitted_at adm]
            else rate_limiter.slept adm = None
                 /\ rate_limiter.admitted_at adm = now))
    /\ (rate_limiter.requests rl = [] ->
        exists tl,
          rate_limiter.run (rate_limiter.start rl t0) cs = Ok tl
          /\ List.length (rate_limiter.admitted tl) = List.length cs
          /\ ((rate_limiter.max_requests rl < Z.of_nat (List.length cs))%Z ->
              exists t earlier p,
                rate_limiter.admitted tl = t :: earlier
                /\ In p earlier
                /\ (p + w <= t)%Q)).
Proof.
  intros rl now lag t0 cs Hn Hlag Hcs. cbv zeta.
  split.
  - destruct (rate_limiter.is_full rl
                (rate_limiter.evict (now - rate_limiter.time_window rl)%Q
                                    (rate_limiter.requests rl))) eqn:Hfull.
    + destruct (rate_limiter.evict (now - rate_limiter.time_window rl)%Q
                                   (rate_limiter.requests rl))
        as [|oldest rest] eqn:He.
      * exfalso. exact (full_nonempty rl [] Hn Hfull eq_refl).
      * assert (Hfull0 : rate_limiter.is_full rl
                           (rate_limiter.evict (now - rate_limiter.time_window rl)%Q
                                               (rate_limiter.requests rl)) = true)
          by (rewrite He; exact Hfull).
        pose proof (acquire_full now lag rl oldest rest Hfull0 He) as Hacq.
        cbv zeta in Hacq.
        destruct (full_queue_wait now lag _ _ oldest rest He Hlag)
          as (Hpos & Hold & Hev).
        eexists. eexists. split; [exact Hacq|].
        cbn [rate_limiter.max_requests rate_limiter.time_window rate_limiter.requests
             rate_limiter.admitted_at rate_limiter.slept].
        split; [reflexivity|]. split; [reflexivity|]. split; [reflexivity|].
        exists oldest, rest.
        split; [reflexivity|]. split; [reflexivity|]. split; [exact Hpos|].
        split; [reflexivity|]. split; [lra|].
        now rewrite Hev.
    + eexists. eexists. split; [exact (acquire_not_full now lag rl Hfull)|].
      cbn [rate_limiter.max_requests rate_limiter.time_window rate_limiter.requests
           rate_limiter.admitted_at rate_limiter.slept].
      split; [reflexivity|]. split; [reflexivity|].
      split; [|split; reflexivity].
      now rewrite evict_idem.
  - intros Hq.
    assert (Hn1 : (1 <= rate_limiter.max_requests
                          (rate_limiter.limiter (rate_limiter.start rl t0)))%Z)
      by exact Hn.
    destruct (run_total cs (rate_limiter.start rl t0) Hn1) as (tl & Hrun).
    assert (Hc0 : window.coherent (rate_limiter.start rl t0))
      by (apply start_coherent; [exact Hq|lia]).
    destruct (run_coherent cs _ tl Hc0 Hcs Hrun) as (Hc & Hm & Hw & Hl).
    simpl in Hm, Hw, Hl. rewrite Nat.add_0_r in Hl.
    exists tl. split; [exact Hrun|]. split; [exact Hl|].
    intros Hmany.
    destruct Hc as (_ & _ & Hsp).
    destruct (rate_limiter.admitted tl) as [|t earlier] eqn:Ha.
    + simpl in Hl. lia.
    + destruct Hsp as (Hcount & _).
      rewrite Hm, Hw in Hcount.
      destruct (filter_short
                  (fun x => rate_limiter.Qlt_bool (t - rate_limiter.time_window rl) x)
                  earlier)
        as (p & Hin & Hp).
      { unfold window.count in Hcount. simpl in Hl. lia. }
      exists t, earlier, p. split; [reflexivity|]. split; [exact Hin|].
      apply Qlt_bool_false in Hp. lra.
Qed.

Lemma acquire_delays_never_rejects_witness :
  (1 <= rate_limiter.max_requests samples.small_limiter)%Z
  /\ (0 <= 0)%Q
  /\ Forall window.causal samples.burst
  /\ exists tl,
       rate_limiter.run (rate_limiter.start samples.small_limiter 0) samples.burst = Ok tl
       /\ List.length (rate_limiter.admitted tl) = 3%nat.
Proof.
  assert (H1 : (1 <= rate_limiter.max_requests samples.small_limiter)%Z)
    by (simpl; lia).
  assert (H2 : (0 <= 0)%Q) by lra.
  assert (H3 : Forall window.causal samples.burst)
    by (repeat constructor; simpl; lra).
  split; [exact H1|]. split; [exact H2|]. split; [exact H3|].
  destruct (proj2 (acquire_delays_never_rejects
                     samples.small_limiter 0 0 0 samples.burst H1 H2 H3) eq_refl)
    as (tl & Hrun & Hlen & _).
  exists tl. split; [exact Hrun|exact Hlen].
Defined.

(** C10.  On a limiter that starts empty, after any number of completed
    calls the queue holds no more times than the capacity, and one more
    call keeps it so; every admission was recorded when fewer earlier
    admissions than the capacity lay in the window ending at it.  The
    reason is the one given: the head of a queue that was just evicted is
    inside the window, so the wait computed from it is positive, and once
    the sleep is over that head is evicted.  The clock is assumed not to
    run backwards and a sleep not to end early. *)
Theorem queue_never_exceeds_capacity :
  forall (rl : rate_limiter.RateLimiter) (t0 : Q) (cs : list rate_limiter.call)
         (tl : rate_limiter.timeline),
    rate_limiter.requests rl = [] ->
    cs <> [] ->
    Forall window.causal cs ->
    rate_limiter.run (rate_limiter.start rl t0) cs = Ok tl ->
    let w := rate_limiter.time_window rl in
    let n := rate_limiter.max_requests rl in
    (Z.of_nat (List.length (rate_limiter.requests (rate_limiter.limiter tl))) <= n)%Z
    /\ window.spaced n w (rate_limiter.admitted tl)
    /\ (forall c tl',
          window.causal c -> rate_limiter.step tl c = Ok tl' ->
          (Z.of_nat (List.length (rate_limiter.requests (rate_limiter.limiter tl'))) <= n)%Z
          /\ (Z.of_nat (window.count w (rate_limiter.clock tl') (rate_limiter.admitted tl))
              < n)%Z)
    /\ (forall now lag oldest rest,
          (0 <= lag)%Q ->
          rate_limiter.evict (now - w)%Q
            (rate_limiter.requests (rate_limiter.limiter tl)) = oldest :: rest ->
          (0 < w - (now - oldest))%Q
          /\ rate_limiter.evict ((now + (w - (now - oldest)) + lag) - w)%Q (oldest :: rest)
             = rate_limiter.evict ((now + (w - (now - oldest)) + lag) - w)%Q rest).
Proof.
  intros rl t0 cs tl Hq Hsome Hcs Hrun. cbv zeta.
  assert (Hn : (0 <= rate_limiter.max_requests rl)%Z).
  { destruct cs as [|c cs']; [contradiction|].
    pose proof (first_call_capacity rl t0 c cs' tl Hq Hrun). lia. }
  assert (Hc0 : window.coherent (rate_limiter.start rl t0))
    by (apply start_coherent; assumption).
  destruct (run_coherent cs _ tl Hc0 Hcs Hrun) as (Hc & Hm & Hw & _).
  simpl in Hm, Hw.
  split; [|split; [|split]].
  - destruct Hc as (Hlen & _). now rewrite Hm in Hlen.
  - destruct Hc as (_ & _ & Hsp). now rewrite Hm, Hw in Hsp.
  - intros c tl' Hcc Hstep.
    destruct (step_coherent tl c tl' Hc Hcc Hstep) as (Hc' & Hm' & Hw' & Ha' & _).
    destruct Hc' as (Hlen' & _ & Hsp').
    rewrite Ha' in Hsp'. destruct Hsp' as (Hcount & _).
    rewrite Hm', Hm in Hlen', Hcount. rewrite Hw', Hw in Hcount.
    split; assumption.
  - intros now lag oldest rest Hlag He.
    destruct (full_queue_wait now lag _ _ oldest rest He Hlag) as (Hpos & _ & Hev).
    split; assumption.
Qed.

Lemma queue_never_exceeds_capacity_witness :
  rate_limiter.requests samples.small_limiter = []
  /\ samples.burst <> []
  /\ Forall window.causal samples.burst
  /\ exists tl,
       rate_limiter.run (rate_limiter.start samples.small_limiter 0) samples.burst = Ok tl
       /\ (Z.of_nat (List.length (rate_limiter.requests (rate_limiter.limiter tl))) <= 2)%Z.
Proof.
  assert (H2 : samples.burst <> []) by discriminate.
  assert (H3 : Forall window.causal samples.burst)
    by (repeat constructor; simpl; lra).
  split; [reflexivity|]. split; [exact H2|]. split; [exact H3|].
  eexists. split; [reflexivity|].
  exact (proj1 (queue_never_exceeds_capacity
                  samples.small_limiter 0 samples.burst _ eq_refl H2 H3 eq_refl)).
Defined.

(** ** Computations in the session *)

Section Computations.
Import pipeline.

Lemma bind_ok {A B} (m : M A) (k : A -> M B) w a w' :
  m w = (Ok a, w') -> bind m k w = k a w'.
Proof. intros H. unfold bind. now rewrite H. Qed.

Lemma bind_raise {A B} (m : M A) (k : A -> M B) w e w' :
  m w = (Raise e, w') -> bind m k w = (Raise e, w').
Proof. intros H. unfold bind. now rewrite H. Qed.

Lemma bind_lift_ok {A B} (r : result A) (k : A -> M B) w a :
  r = Ok a -> bind (lift r) k w = k a w.
Proof. intros ->. reflexivity. Qed.

Lemma bind_lift_raise {A B} (r : result A) (k : A -> M B) w e :
  r = Raise e -> bind (lift r) k w = (Raise e, w).
Proof. intros ->. reflexivity. Qed.

Lemma bind_get_dict {B} kv key default (k : json -> M B) w :
  bind (lift (py.get (JObj kv) key default)) k w
  = k (match py.lookup kv key with Some x => x | None => default end) w.
Proof. reflexivity. Qed.

Lemma documents_kept_refl w : documents_kept w w.
Proof. repeat split. Qed.

Lemma documents_kept_trans w1 w2 w3 :
  documents_kept w1 w2 -> documents_kept w2 w3 -> documents_kept w1 w3.
Proof.
  intros (a1 & b1 & c1 & d1 & e1) (a2 & b2 & c2 & d2 & e2).
  repeat split; congruence.
Qed.

Lemma keeps_ret {A} (a : A) : keeps_documents (ret a).
Proof. intros w. apply documents_kept_refl. Qed.

Lemma keeps_lift {A} (r : result A) : keeps_documents (lift r).
Proof. intros w. apply documents_kept_refl. Qed.

Lemma keeps_raise {A} (e : exn) : keeps_documents (@raise A e).
Proof. intros w. apply documents_kept_refl. Qed.

Lemma keeps_bind {A B} (m : M A) (k : A -> M B) :
  keeps_documents m -> (forall a, keeps_documents (k a)) -> keeps_documents (bind m k).
Proof.
  intros Hm Hk w. unfold bind. specialize (Hm w).
  destruct (m w) as [[a|e] w1]; simpl in *; [|exact Hm].
  eapply documents_kept_trans; [exact Hm|apply Hk].
Qed.

Lemma keeps_try {A} (m : M A) (h : exn -> M A) :
  keeps_documents m -> (forall e, keeps_documents (h e)) ->
  keeps_documents (try_except m h).
Proof.
  intros Hm Hh w. unfold try_except. specialize (Hm w).
  destruct (m w) as [[a|e] w1]; simpl in *; [exact Hm|].
  eapply documents_kept_trans; [exact Hm|apply Hh].
Qed.

Lemma keeps_get_tables : keeps_documents get_tables.
Proof. intros w. apply documents_kept_refl. Qed.

Lemma keeps_get_seqs : keeps_documents get_seqs.
Proof. intros w. apply documents_kept_refl. Qed.

Lemma keeps_record_call c : keeps_documents (record_call c).
Proof. intros w. repeat split. Qed.

Lemma returns_ret {A} (a : A) : returns (ret a).
Proof. intros w. now exists a. Qed.

(** A handler that returns makes the whole [try] return. *)
Lemma returns_try {A} (m : M A) (h : exn -> M A) :
  (forall e, returns (h e)) -> returns (try_except m h).
Proof.
  intros Hh w. unfold try_except.
  destruct (m w) as [[a|e] w1]; [now exists a|apply Hh].
Qed.

End Computations.

(** ** The language-model service in the session *)

Section Service.
Import pipeline ai_service.

Lemma keeps_generate_summary lib env ty : keeps_documents (generate_summary lib env ty).
Proof.
  unfold generate_summary.
  apply keeps_bind; [apply keeps_record_call|]. intros _.
  apply keeps_try.
  - apply keeps_bind; [apply keeps_lift|]. intros reply. apply keeps_lift.
  - intros e. apply keeps_raise.
Qed.

Lemma keeps_categorize lib env summary themes :
  keeps_documents (categorize_content lib env summary themes).
Proof.
  unfold categorize_content.
  apply keeps_bind; [apply keeps_record_call|]. intros _.
  apply keeps_try.
  - apply keeps_bind; [apply keeps_lift|]. intros _.
    apply keeps_bind; [apply keeps_lift|]. intros reply. apply keeps_lift.
  - intros e. apply keeps_raise.
Qed.

Lemma keeps_bootstrap lib env summaries :
  keeps_documents (bootstrap_themes lib env summaries).
Proof.
  unfold bootstrap_themes.
  apply keeps_bind; [apply keeps_record_call|]. intros _.
  apply keeps_try.
  - apply keeps_bind; [apply keeps_lift|]. intros _.
    apply keeps_bind; [apply keeps_lift|]. intros reply. apply keeps_lift.
  - intros e. apply keeps_raise.
Qed.

(** One run of [categorize_content]: the call is recorded, and an error
    of the prompt, of the request or of the log line comes back wrapped. *)
Lemma categorize_run lib env summary themes w :
  categorize_content lib env summary themes w
  = (match rbind (prompts.get_theme_categorization_prompt summary themes)
                 (fun _ => rbind (categorize_reply env) (categorization_of_reply lib)) with
     | Ok c => Ok c
     | Raise e => Raise (wrap "Failed to categorize content: " e)
     end, logged CategorizeContent w).
Proof.
  unfold categorize_content, bind, try_except, record_call, lift, raise, logged, rbind.
  destruct (prompts.get_theme_categorization_prompt summary themes); [|reflexivity].
  destruct (categorize_reply env) as [reply|e]; [|reflexivity].
  destruct (categorization_of_reply lib reply); reflexivity.
Qed.

End Service.

(** ** The theme service in the session *)

Section Themes.
Import pipeline theme_service.

Lemma keeps_create_theme env name description :
  keeps_documents (_create_theme env name description).
Proof. intros w. repeat split. Qed.

Lemma keeps_add_content_theme content_id theme_id confidence :
  keeps_documents (add_content_theme content_id theme_id confidence).
Proof. intros w. repeat split. Qed.

Lemma keeps_increment theme_id : keeps_documents (increment_content_count theme_id).
Proof. intros w. repeat split. Qed.

Lemma keeps_create_proposed env proposed : keeps_documents (create_proposed env proposed).
Proof.
  induction proposed as [|theme_data rest IH]; simpl; [apply keeps_ret|].
  apply keeps_bind; [apply keeps_lift|]. intros name.
  apply keeps_bind; [apply keeps_lift|]. intros description.
  apply keeps_bind; [apply keeps_create_theme|]. intros _. exact IH.
Qed.

Lemma keeps_bootstrap_themes lib env : keeps_documents (_bootstrap_themes lib env).
Proof.
  unfold _bootstrap_themes. apply keeps_try; [|intros e; apply keeps_ret].
  unfold bootstrap_body.
  apply keeps_bind; [apply keeps_get_tables|]. intros t.
  destruct (recent_summaries t); [apply keeps_ret|].
  apply keeps_bind; [apply keeps_bootstrap|]. intros themes.
  apply keeps_bind; [apply keeps_lift|]. intros proposed.
  apply keeps_create_proposed.
Qed.

Lemma keeps_load_themes lib env : keeps_documents (load_themes lib env).
Proof.
  unfold load_themes.
  apply keeps_bind; [apply keeps_get_tables|]. intros t.
  destruct (Z.of_nat (List.length (database.themes t)) <? 5); [|apply keeps_ret].
  destruct (BOOTSTRAP_COUNT <=? Z.of_nat (List.length (database.content_themes t)));
    [|apply keeps_ret].
  apply keeps_bind; [apply keeps_bootstrap_themes|]. intros _.
  apply keeps_bind; [apply keeps_get_tables|]. intros t'. apply keeps_ret.
Qed.

Lemma keeps_create_suggested env content_id names : forall assigned,
  keeps_documents (create_suggested env content_id names assigned).
Proof.
  induction names as [|theme_name rest IH]; intros assigned; simpl; [apply keeps_ret|].
  apply keeps_bind; [apply keeps_create_theme|]. intros theme.
  apply keeps_bind; [apply keeps_add_content_theme|]. intros _. apply IH.
Qed.

Lemma keeps_process_matches content_id matches : forall assigned,
  keeps_documents (process_matches content_id matches assigned).
Proof.
  induction matches as [|m rest IH]; intros assigned; simpl; [apply keeps_ret|].
  apply keeps_bind; [apply keeps_lift|]. intros theme_id.
  apply keeps_bind; [apply keeps_lift|]. intros confidence.
  apply keeps_bind; [apply keeps_lift|]. intros above.
  destruct (above && py.truthy theme_id); [|apply IH].
  apply keeps_bind; [apply keeps_add_content_theme|]. intros _.
  apply keeps_bind; [apply keeps_increment|]. intros _. apply IH.
Qed.

Lemma keeps_categorize_body lib env content_id summary :
  keeps_documents (categorize_body lib env content_id summary).
Proof.
  unfold categorize_body.
  apply keeps_bind; [apply keeps_load_themes|]. intros existing.
  destruct (is_nil existing).
  - apply keeps_bind; [apply keeps_lift|]. intros suggested.
    apply keeps_bind; [apply keeps_lift|]. intros first3.
    apply keeps_bind; [apply keeps_lift|]. intros names.
    apply keeps_create_suggested.
  - apply keeps_bind; [apply keeps_categorize|]. intros categorization.
    apply keeps_bind; [apply keeps_lift|]. intros theme_matches.
    apply keeps_bind; [apply keeps_lift|]. intros matches.
    apply keeps_bind; [apply keeps_process_matches|]. intros assigned.
    apply keeps_bind; [apply keeps_lift|]. intros suggestion.
    destruct (py.truthy suggestion && is_nil assigned); [|apply keeps_ret].
    apply keeps_bind; [apply keeps_lift|]. intros name.
    apply keeps_bind; [apply keeps_lift|]. intros description.
    apply keeps_bind; [apply keeps_create_theme|]. intros theme.
    apply keeps_bind; [apply keeps_add_content_theme|]. intros _. apply keeps_ret.
Qed.

(** The categorization touches no content row and no summary, and
    commits nothing. *)
Lemma keeps_categorize_content lib env content_id summary :
  keeps_documents (categorize_content lib env content_id summary).
Proof.
  unfold categorize_content.
  apply keeps_try; [apply keeps_categorize_body|]. intros e. apply keeps_ret.
Qed.

(** What [categorize_content] returns, read off the outcome of its [try]
    block. *)
Lemma categorize_content_outcome lib env content_id summary w :
  categorize_content lib env content_id summary w
  = match categorize_body lib env content_id summary w with
    | (Ok ids, w') => (Ok ids, w')
    | (Raise _, w') => (Ok [], w')
    end.
Proof.
  unfold categorize_content, try_except.
  destruct (categorize_body lib env content_id summary w) as [[ids|e] w']; reflexivity.
Qed.

Lemma bootstrap_outcome lib env w :
  _bootstrap_themes lib env w = (Ok tt, snd (bootstrap_body lib env w)).
Proof.
  unfold _bootstrap_themes, try_except.
  destruct (bootstrap_body lib env w) as [[[]|e] w']; reflexivity.
Qed.

Lemma categorize_content_returns lib env content_id summary :
  returns (categorize_content lib env content_id summary).
Proof. apply returns_try. intros e. apply returns_ret. Qed.

Lemma bootstrap_returns lib env : returns (_bootstrap_themes lib env).
Proof. apply returns_try. intros e. apply returns_ret. Qed.

End Themes.

(** ** The content processor in the session *)

Section Processor.
Import pipeline content_processor.

Lemma submit_eq lib env s :
  submit lib env s = try_except (attempt lib env s) (failed (failure_prefix s)).
Proof. destruct s; reflexivity. Qed.

Lemma metadata_hash s extracted :
  file_handler.generate_content_hash (Extracted.content extracted)
                                     (Some (metadata s extracted))
  = digest s extracted.
Proof. destruct s; reflexivity. Qed.

(** [_get_content_details] only reads. *)
Lemma details_readonly content_id w : snd (_get_content_details content_id w) = w.
Proof.
  unfold _get_content_details, bind, get_tables, lift, ret.
  destruct (database.scalar_one _); [|reflexivity].
  destruct (database.scalar_one_or_none _); reflexivity.
Qed.

Lemma details_run content_id w :
  _get_content_details content_id w = (fst (_get_content_details content_id w), w).
Proof.
  rewrite <- (details_readonly content_id w) at 3.
  now destruct (_get_content_details content_id w).
Qed.

Lemma filter_below {A} (key : A -> Z) (k : Z) (l : list A) :
  Forall (fun x => key x < k) l -> filter (fun x => key x =? k) l = [].
Proof.
  induction 1 as [|x l Hx _ IH]; simpl; [reflexivity|].
  destruct (key x =? k) eqn:E; [|exact IH].
  apply Z.eqb_eq in E. lia.
Qed.

(** The details of the row that was added last, in a store whose other
    rows have smaller keys. *)
Lemma details_of_new w c contents0 row summaries0 :
  database.contents (database.current (db w)) = contents0 ++ [c] ->
  Forall (fun x => Content.id x < Content.id c) contents0 ->
  database.summaries (database.current (db w)) = summaries0 ++ [row] ->
  Summary.content_id row = Content.id c ->
  Forall (fun r => Summary.content_id r < Content.id c) summaries0 ->
  exists d, _get_content_details (Content.id c) w = (Ok d, w)
            /\ content_id d = Content.id c.
Proof.
  intros Hc Hold Hs Hrow Holds.
  unfold _get_content_details, bind, get_tables, lift, ret.
  rewrite Hc, Hs, !filter_app, (filter_below Content.id), (filter_below Summary.content_id)
    by assumption.
  simpl. rewrite Hrow, Z.eqb_refl. simpl.
  eexists. split; reflexivity.
Qed.

Lemma add_content_spec env source_type source_url file_path extracted h w :
  exists c w1,
    add_content env source_type source_url file_path extracted h w = (Ok c, w1)
    /\ Content.id c = database.next_content (database.seqs (db w))
    /\ Content.content_hash c = h
    /\ database.contents (database.current (db w1))
       = database.contents (database.current (db w)) ++ [c]
    /\ database.summaries (database.current (db w1))
       = database.summaries (database.current (db w))
    /\ database.committed (db w1) = database.committed (db w)
    /\ database.next_content (database.seqs (db w1)) = Content.id c + 1.
Proof.
  eexists. eexists.
  split; [cbv [add_content bind get_seqs get_tables set_tables set_seqs ret];
          reflexivity|].
  simpl. repeat split.
Qed.

Lemma add_summary_spec content_id o k i m t w :
  exists row w1,
    add_summary content_id o k i m t w = (Ok tt, w1)
    /\ Summary.content_id row = content_id
    /\ database.summaries (database.current (db w1))
       = database.summaries (database.current (db w)) ++ [row]
    /\ database.contents (database.current (db w1))
       = database.contents (database.current (db w))
    /\ database.committed (db w1) = database.committed (db w)
    /\ database.next_content (database.seqs (db w1))
       = database.next_content (database.seqs (db w)).
Proof.
  exists {| Summary.id := database.next_summary (database.seqs (db w));
            Summary.content_id := content_id;
            Summary.overview := o; Summary.key_insights := k;
            Summary.implications := i; Summary.model_version := m;
            Summary.token_count := t |}.
  eexists.
  split; [cbv [add_summary bind get_seqs get_tables set_tables set_seqs ret];
          reflexivity|].
  simpl. repeat split.
Qed.

(** The three ways [ingest] can go: no extractor, a summary that fails
    (nothing is committed then), or a commit followed by the read of the
    new row with its one summary. *)
Lemma ingest_outcome lib env source is_file source_url file_path extracted h w :
  match factory.get_extractor lib source is_file with
  | Raise e =>
      ingest lib env source is_file source_url file_path extracted h w = (Raise e, w)
  | Ok _ =>
      match rbind (summary_reply env) (ai_service.summary_of_reply lib "comprehensive") with
      | Raise e =>
          exists w',
            ingest lib env source is_file source_url file_path extracted h w
            = (Raise (ai_service.wrap "Failed to generate summary: " e), w')
            /\ database.committed (db w') = database.committed (db w)
            /\ database.next_content (database.seqs (db w'))
               = database.next_content (database.seqs (db w)) + 1
      | Ok _ =>
          exists c row wc,
            ingest lib env source is_file source_url file_path extracted h w
            = _get_content_details (Content.id c) wc
            /\ Content.id c = database.next_content (database.seqs (db w))
            /\ Content.content_hash c = h
            /\ database.contents (database.current (db wc))
               = database.contents (database.current (db w)) ++ [c]
            /\ database.summaries (database.current (db wc))
               = database.summaries (database.current (db w)) ++ [row]
            /\ Summary.content_id row = Content.id c
            /\ database.committed (db wc) = database.current (db wc)
            /\ database.next_content (database.seqs (db wc)) = Content.id c + 1
      end
  end.
Proof.
  unfold ingest.
  destruct (factory.get_extractor lib source is_file) as [extractor|e] eqn:Hx;
    [|reflexivity].
  rewrite (bind_lift_ok _ _ _ _ eq_refl).
  destruct (add_content_spec env (extractors.get_source_type extractor)
              source_url file_path extracted h w)
    as (c & w1 & Hadd & Hid & Hh & Hc1 & Hs1 & Hm1 & Hn1).
  rewrite (bind_ok _ _ _ _ _ Hadd).
  destruct (summary_reply env) as [reply|e0] eqn:Hreply; simpl rbind.
  - destruct (ai_service.summary_of_reply lib "comprehensive" reply) as [d|e0] eqn:Hd.
    + cbv iota. unfold bind at 1.
      rewrite generate_summary_run, Hreply. simpl rbind. rewrite Hd.
      destruct (summary_of_reply_shape lib reply d Hd) as (kv & -> & Hov).
      destruct (py.lookup kv "overview") as [o|] eqn:Ho; [|contradiction].
      assert (Hget : py.getitem (JObj kv) "overview" = Ok o) by (simpl; now rewrite Ho).
      rewrite (bind_lift_ok _ _ _ _ Hget).
      rewrite !bind_get_dict.
      match goal with
      | |- context [add_summary ?a ?b ?c0 ?d0 ?e0 ?f0] =>
          destruct (add_summary_spec a b c0 d0 e0 f0 (logged GenerateSummary w1))
            as (row & w2 & Hsum & Hrow & Hs2 & Hc2 & Hm2 & Hn2)
      end.
      rewrite (bind_ok _ _ _ _ _ Hsum).
      unfold bind at 1.
      pose proof (keeps_categorize_content lib env (Content.id c) (JObj kv) w2) as Hk.
      destruct (categorize_content_returns lib env (Content.id c) (JObj kv) w2)
        as (ids & Hids).
      destruct (theme_service.categorize_content lib env (Content.id c) (JObj kv) w2)
        as [r3 w3].
      simpl in Hk, Hids. subst r3.
      destruct Hk as (Hm3 & Hc3 & Hs3 & Hn3 & _).
      unfold bind at 1. unfold db_commit at 1.
      exists c, row.
      eexists. split; [reflexivity|]. simpl.
      split; [exact Hid|]. split; [exact Hh|].
      split; [rewrite Hc3, Hc2; exact Hc1|].
      split; [rewrite Hs3, Hs2; simpl; now rewrite Hs1|].
      split; [exact Hrow|]. split; [reflexivity|].
      rewrite Hn3, Hn2. exact Hn1.
    + cbv iota. unfold bind at 1.
      rewrite generate_summary_run, Hreply. simpl rbind. rewrite Hd.
      eexists. split; [reflexivity|]. simpl.
      split; [exact Hm1|]. rewrite Hn1, Hid. reflexivity.
  - cbv iota. unfold bind at 1. rewrite generate_summary_run, Hreply. simpl rbind.
    eexists. split; [reflexivity|]. simpl.
    split; [exact Hm1|]. rewrite Hn1, Hid. reflexivity.
Qed.

End Processor.

(** ** Submissions *)

Section Submissions.
Import pipeline content_processor.

(** The [try] block of a submission, by what the extraction and the
    lookup give. *)
Lemma attempt_cases lib env s w :
  match extract lib env (source s) (is_file s) with
  | Raise e => attempt lib env s w = (Raise e, w)
  | Ok extracted =>
      match with_hash (digest s extracted) w with
      | [] =>
          attempt lib env s w
          = ingest lib env (source s) (is_file s) (url_column s) (path_column s)
                   extracted (digest s extracted) w
      | [c] => attempt lib env s w = _get_content_details (Content.id c) w
      | _ :: _ :: _ => exists e, attempt lib env s w = (Raise e, w)
      end
  end.
Proof.
  unfold attempt.
  destruct (extract lib env (source s) (is_file s)) as [extracted|e]; [|reflexivity].
  rewrite (bind_lift_ok _ _ _ _ eq_refl).
  unfold deduplicate_or_ingest. rewrite metadata_hash.
  unfold with_hash.
  destruct (filter (has_hash (digest s extracted))
                   (database.contents (database.current (db w))))
    as [|c [|c' rest]] eqn:Hf;
    [| |eexists]; cbv [bind get_tables lift]; rewrite Hf; reflexivity.
Qed.

Lemma extract_needs_extractor lib env source is_file extracted :
  extract lib env source is_file = Ok extracted ->
  exists x, factory.get_extractor lib source is_file = Ok x.
Proof.
  unfold extract. destruct (factory.get_extractor lib source is_file) as [x|e];
    [eauto|discriminate].
Qed.

(** The details that are returned are those of the row asked for. *)
Lemma details_id content_id w d :
  fst (_get_content_details content_id w) = Ok d ->
  content_processor.content_id d = content_id.
Proof.
  unfold _get_content_details, bind, get_tables, lift, ret.
  destruct (filter (fun c => Content.id c =? content_id)
                   (database.contents (database.current (db w))))
    as [|c [|c' rest]] eqn:Hf; simpl; try discriminate.
  assert (Hin : In c (filter (fun c => Content.id c =? content_id)
                             (database.contents (database.current (db w)))))
    by (rewrite Hf; now left).
  apply filter_In in Hin. destruct Hin as (_ & Hc). apply Z.eqb_eq in Hc.
  destruct (database.scalar_one_or_none _); simpl; [|discriminate].
  intros H. injection H as <-. exact Hc.
Qed.

(** A failed submission: the session is rolled back and the error is the
    cause, wrapped. *)
Lemma submit_raise lib env s w e w1 :
  submit lib env s w = (Raise e, w1) ->
  exists cause w',
    attempt lib env s w = (Raise cause, w')
    /\ e = mk_exn Exception (failure_prefix s +++ str_of_exn cause)
    /\ db w1 = database.rollback (db w')
    /\ calls w1 = calls w'.
Proof.
  rewrite submit_eq. unfold try_except.
  destruct (attempt lib env s w) as [[d|cause] w'] eqn:Ha; [discriminate|].
  unfold failed, bind, db_rollback, raise. intros H. injection H as <- <-.
  exists cause, w'. repeat split.
Qed.

Lemma submit_ok lib env s w d w1 :
  submit lib env s w = (Ok d, w1) <-> attempt lib env s w = (Ok d, w1).
Proof.
  rewrite submit_eq. unfold try_except.
  destruct (attempt lib env s w) as [[d'|cause] w'] eqn:Ha; [reflexivity|].
  unfold failed, bind, db_rollback, raise. split; discriminate.
Qed.

(** With fresh keys, an attempt that raises has committed nothing, and it
    has not rewound the content sequence. *)
Lemma attempt_raise_commits_nothing lib env s w cause w' :
  keys_fresh w ->
  attempt lib env s w = (Raise cause, w') ->
  database.committed (db w') = database.committed (db w)
  /\ database.next_content (database.seqs (db w))
     <= database.next_content (database.seqs (db w')).
Proof.
  intros ((Hkc & Hks) & _) Ha.
  pose proof (attempt_cases lib env s w) as Hcases.
  destruct (extract lib env (source s) (is_file s)) as [extracted|e] eqn:Hext.
  - destruct (with_hash (digest s extracted) w) as [|c [|c' rest]].
    + rewrite Hcases in Ha. clear Hcases.
      pose proof (ingest_outcome lib env (source s) (is_file s) (url_column s)
                    (path_column s) extracted (digest s extracted) w) as Hin.
      destruct (factory.get_extractor lib (source s) (is_file s)) as [x|e].
      * destruct (rbind (summary_reply env)
                        (ai_service.summary_of_reply lib "comprehensive")) as [d|e].
        -- destruct Hin as (c & row & wc & Hrun & Hid & _ & Hc & Hs & Hrow & _).
           exfalso.
           assert (Hkc' : Forall (fun x => Content.id x < Content.id c)
                                 (database.contents (database.current (db w))))
             by (rewrite Hid; exact Hkc).
           assert (Hks' : Forall (fun r => Summary.content_id r < Content.id c)
                                 (database.summaries (database.current (db w))))
             by (rewrite Hid; exact Hks).
           destruct (details_of_new wc c _ row _ Hc Hkc' Hs Hrow Hks')
             as (d' & Hd' & _).
           congruence.
        -- destruct Hin as (w'' & Hrun & Hm & Hn).
           rewrite Hrun in Ha. injection Ha as _ <-. split; [exact Hm|lia].
      * rewrite Hin in Ha. injection Ha as _ <-. split; [reflexivity|lia].
    + rewrite Hcases, details_run in Ha. injection Ha as _ <-.
      split; [reflexivity|lia].
    + destruct Hcases as (e & He). rewrite He in Ha. injection Ha as _ <-.
      split; [reflexivity|lia].
  - rewrite Hcases in Ha. injection Ha as _ <-. split; [reflexivity|lia].
Qed.

(** A submission whose digest one stored row carries returns the details
    of that row and changes nothing. *)
Lemma duplicate_returns_existing lib env s w extracted c d :
  extract lib env (source s) (is_file s) = Ok extracted ->
  with_hash (digest s extracted) w = [c] ->
  fst (_get_content_details (Content.id c) w) = Ok d ->
  submit lib env s w = (Ok d, w) /\ content_id d = Content.id c.
Proof.
  intros Hext Hc Hd. split; [|now apply (details_id _ w)].
  apply submit_ok.
  pose proof (attempt_cases lib env s w) as Hcases.
  rewrite Hext, Hc in Hcases. rewrite Hcases, details_run. now rewrite Hd.
Qed.

(** After a submission that returned, one row carries its digest, and the
    details returned are those of that row in the world it left. *)
Lemma submitted_is_stored lib env s w0 extracted d w1 :
  extract lib env (source s) (is_file s) = Ok extracted ->
  submit lib env s w0 = (Ok d, w1) ->
  exists c,
    with_hash (digest s extracted) w1 = [c]
    /\ fst (_get_content_details (Content.id c) w1) = Ok d.
Proof.
  intros Hext Hsub. apply submit_ok in Hsub.
  pose proof (attempt_cases lib env s w0) as Hcases.
  rewrite Hext in Hcases.
  destruct (with_hash (digest s extracted) w0) as [|c [|c' rest]] eqn:Hw.
  - rewrite Hcases in Hsub. clear Hcases.
    pose proof (ingest_outcome lib env (source s) (is_file s) (url_column s)
                  (path_column s) extracted (digest s extracted) w0) as Hin.
    destruct (factory.get_extractor lib (source s) (is_file s)) as [x|e];
      [|congruence].
    destruct (rbind (summary_reply env)
                    (ai_service.summary_of_reply lib "comprehensive")) as [sd|e].
    + destruct Hin as (c & row & wc & Hrun & _ & Hh & Hc & _).
      rewrite Hrun, details_run in Hsub. injection Hsub as Hd <-.
      exists c. split; [|exact Hd].
      unfold with_hash in *. rewrite Hc, filter_app, Hw. simpl.
      unfold has_hash at 1. now rewrite Hh, String.eqb_refl.
    + destruct Hin as (w'' & Hrun & _). congruence.
  - rewrite Hcases, details_run in Hsub. injection Hsub as Hd <-.
    exists c. split; [exact Hw|exact Hd].
  - destruct Hcases as (e & He). congruence.
Qed.

Lemma keys_below_weaken n n' t : n <= n' -> keys_below n t -> keys_below n' t.
Proof.
  intros Hle (Hc & Hs). split; (eapply Forall_impl; [|eassumption]); intros x Hx;
    simpl in Hx; lia.
Qed.

(** Fresh keys are an invariant of the session: the empty database has
    them and every submission, returned or failed, keeps them. *)
Lemma submit_keeps_keys_fresh lib env s w :
  keys_fresh w -> keys_fresh (snd (submit lib env s w)).
Proof.
  intros Hf. pose proof Hf as (Hcur & Hcom).
  rewrite submit_eq. unfold try_except.
  destruct (attempt lib env s w) as [[d|cause] w'] eqn:Ha.
  - simpl.
    pose proof (attempt_cases lib env s w) as Hcases.
    destruct (extract lib env (source s) (is_file s)) as [extracted|e];
      [|congruence].
    destruct (with_hash (digest s extracted) w) as [|c [|c' rest]].
    + rewrite Hcases in Ha. clear Hcases.
      pose proof (ingest_outcome lib env (source s) (is_file s) (url_column s)
                    (path_column s) extracted (digest s extracted) w) as Hin.
      destruct (factory.get_extractor lib (source s) (is_file s)) as [x|e];
        [|congruence].
      destruct (rbind (summary_reply env)
                      (ai_service.summary_of_reply lib "comprehensive")) as [sd|e].
      * destruct Hin as (c & row & wc & Hrun & Hid & _ & Hc & Hs & Hrow & Hcm & Hn).
        rewrite Hrun, details_run in Ha. injection Ha as _ <-.
        assert (Hb : keys_below (database.next_content (database.seqs (db wc)))
                                (database.current (db wc))).
        { destruct Hcur as (Hkc & Hks). rewrite Hn. split.
          - rewrite Hc. apply Forall_app. split.
            + eapply Forall_impl; [|exact Hkc]. intros y Hy. simpl in Hy. lia.
            + constructor; [lia|constructor].
          - rewrite Hs. apply Forall_app. split.
            + eapply Forall_impl; [|exact Hks]. intros y Hy. simpl in Hy. lia.
            + constructor; [lia|constructor]. }
        split; [exact Hb|]. now rewrite Hcm.
      * destruct Hin as (w'' & Hrun & _). congruence.
    + rewrite Hcases, details_run in Ha. injection Ha as _ <-. exact Hf.
    + destruct Hcases as (e & He). congruence.
  - destruct (attempt_raise_commits_nothing lib env s w cause w' Hf Ha) as (Hm & Hn).
    unfold failed, bind, db_rollback, raise, keys_fresh. simpl. rewrite Hm.
    split; exact (keys_below_weaken _ _ _ Hn Hcom).
Qed.

Lemma empty_keys_fresh : keys_fresh samples.empty_world.
Proof. repeat split; constructor. Qed.

End Submissions.

Example first_submission :
  exists d w1,
    pipeline.submit samples.lib samples.env_ok samples.page samples.empty_world = (Ok d, w1)
    /\ content_processor.content_id d = 1
    /\ List.length (database.summaries (database.committed (db w1))) = 1%nat
    /\ List.length (database.content_themes (database.committed (db w1))) = 3%nat
    /\ calls w1 = [GenerateSummary].
Proof.
  eexists. eexists. split; [vm_compute; reflexivity|].
  repeat split.
Qed.

(** C2.  A submission whose digest one stored row carries returns the
    details of that row, which name its id, and leaves the world as it
    was: no row is added to any table and no call to the language-model
    service is recorded.  So when a submission returned and the same
    source is submitted again with an extraction of the same digest, the
    second submission returns the same details, those of the one row with
    that digest, and changes nothing: the summary and the associations of
    the first submission stay the only ones.  This holds for [process_url]
    and for [process_file]. *)
Theorem duplicate_submission_short_circuits :
  forall (lib : library) (s : pipeline.submission) (env1 env2 : environment)
         (w0 w1 : world) (d : content_processor.details) (ext1 ext2 : Extracted.t),
    content_processor.extract lib env1 (pipeline.source s) (pipeline.is_file s) = Ok ext1 ->
    pipeline.submit lib env1 s w0 = (Ok d, w1) ->
    content_processor.extract lib env2 (pipeline.source s) (pipeline.is_file s) = Ok ext2 ->
    pipeline.digest s ext2 = pipeline.digest s ext1 ->
    (exists c,
        pipeline.with_hash (pipeline.digest s ext1) w1 = [c]
        /\ content_processor.content_id d = Content.id c
        /\ pipeline.submit lib env2 s w1 = (Ok d, w1))
    /\ (forall (env : environment) (w : world) (ext : Extracted.t)
               (c : Content.t) (d' : content_processor.details),
          content_processor.extract lib env (pipeline.source s) (pipeline.is_file s)
          = Ok ext ->
          pipeline.with_hash (pipeline.digest s ext) w = [c] ->
          fst (content_processor._get_content_details (Content.id c) w) = Ok d' ->
          pipeline.submit lib env s w = (Ok d', w)
          /\ content_processor.content_id d' = Content.id c).
Proof.
  intros lib s env1 env2 w0 w1 d ext1 ext2 He1 Hs1 He2 Hh.
  split.
  - destruct (submitted_is_stored lib env1 s w0 ext1 d w1 He1 Hs1) as (c & Hc & Hd).
    exists c. split; [exact Hc|].
    rewrite <- Hh in Hc.
    destruct (duplicate_returns_existing lib env2 s w1 ext2 c d He2 Hc Hd) as (H1 & H2).
    split; [exact H2|exact H1].
  - intros env w ext c d' He Hc Hd.
    exact (duplicate_returns_existing lib env s w ext c d' He Hc Hd).
Qed.

Lemma duplicate_submission_short_circuits_witness :
  exists d w1,
    content_processor.extract samples.lib samples.env_ok
      (pipeline.source samples.page) (pipeline.is_file samples.page) = Ok samples.article
    /\ pipeline.submit samples.lib samples.env_ok samples.page samples.empty_world
       = (Ok d, w1)
    /\ content_processor.extract samples.lib samples.env_down
         (pipeline.source samples.page) (pipeline.is_file samples.page)
       = Ok samples.article
    /\ pipeline.digest samples.page samples.article
       = pipeline.digest samples.page samples.article
    /\ pipeline.submit samples.lib samples.env_down samples.page w1 = (Ok d, w1).
Proof.
  eexists. eexists.
  assert (He1 : content_processor.extract samples.lib samples.env_ok
                  (pipeline.source samples.page) (pipeline.is_file samples.page)
                = Ok samples.article) by reflexivity.
  assert (He2 : content_processor.extract samples.lib samples.env_down
                  (pipeline.source samples.page) (pipeline.is_file samples.page)
                = Ok samples.article) by reflexivity.
  split; [exact He1|].
  match goal with
  | |- ?A /\ _ => assert (Hs : A) by (vm_compute; reflexivity)
  end.
  split; [exact Hs|].
  split; [exact He2|].
  split; [reflexivity|].
  destruct (proj1 (duplicate_submission_short_circuits
                     samples.lib samples.page samples.env_ok samples.env_down
                     samples.empty_world _ _ samples.article samples.article
                     He1 Hs He2 eq_refl))
    as (c & _ & _ & H).
  exact H.
Defined.

(** C3.  When [process_url] or [process_file] raises, in a session whose
    keys are fresh, nothing of the call is left: what is committed is what
    was committed before the call, and the open transaction shows just
    that, so neither the content row nor a summary or an association the
    call had added stays.  The error is a single [Exception] whose message
    is the fixed prefix followed by the message of what the [try] block
    raised. *)
Theorem failed_submission_rolls_back :
  forall (lib : library) (env : environment) (s : pipeline.submission)
         (w0 w1 : world) (e : exn),
    pipeline.keys_fresh w0 ->
    pipeline.submit lib env s w0 = (Raise e, w1) ->
    database.committed (db w1) = database.committed (db w0)
    /\ database.current (db w1) = database.committed (db w0)
    /\ exists cause w',
         pipeline.attempt lib env s w0 = (Raise cause, w')
         /\ exn_cls e = Exception
         /\ exn_msg e = pipeline.failure_prefix s +++ str_of_exn cause.
Proof.
  intros lib env s w0 w1 e Hfresh Hsub.
  destruct (submit_raise lib env s w0 e w1 Hsub) as (cause & w' & Ha & -> & Hdb & _).
  destruct (attempt_raise_commits_nothing lib env s w0 cause w' Hfresh Ha) as (Hc & _).
  rewrite Hdb. simpl. rewrite Hc.
  split; [reflexivity|]. split; [reflexivity|].
  exists cause, w'. split; [exact Ha|]. split; reflexivity.
Qed.

(** The summary request fails after the content row was added: the key 1
    is spent, the tables are empty again, and the error names the cause. *)
Lemma failed_submission_rolls_back_witness :
  exists w1,
    pipeline.keys_fresh samples.empty_world
    /\ pipeline.submit samples.lib samples.env_down samples.page samples.empty_world
       = (Raise (mk_exn Exception
                   "Failed to process URL: Failed to generate summary: Connection error."),
          w1)
    /\ database.next_content (database.seqs (db w1)) = 2
    /\ database.committed (db w1) = samples.no_tables
    /\ database.current (db w1) = samples.no_tables.
Proof.
  eexists.
  assert (Hfresh : pipeline.keys_fresh samples.empty_world)
    by (repeat split; constructor).
  split; [exact Hfresh|].
  match goal with
  | |- ?A /\ _ => assert (Hs : A) by (vm_compute; reflexivity)
  end.
  split; [exact Hs|].
  split; [reflexivity|].
  destruct (failed_submission_rolls_back _ _ _ _ _ _ Hfresh Hs) as (H1 & H2 & _).
  split; [exact H1|exact H2].
Defined.


(** ** The theme taxonomy *)

Section Taxonomy.
Import pipeline theme_service taxonomy.

Lemma create_theme_spec env name description w :
  exists w1,
    _create_theme env name description w
    = (Ok (theme_from env (database.next_theme (database.seqs (db w))) name description), w1)
    /\ database.themes (database.current (db w1))
       = database.themes (database.current (db w))
         ++ [theme_from env (database.next_theme (database.seqs (db w))) name description]
    /\ database.content_themes (database.current (db w1))
       = database.content_themes (database.current (db w))
    /\ database.next_theme (database.seqs (db w1))
       = database.next_theme (database.seqs (db w)) + 1
    /\ database.next_content_theme (database.seqs (db w1))
       = database.next_content_theme (database.seqs (db w))
    /\ calls w1 = calls w.
Proof.
  eexists.
  split; [cbv [_create_theme bind get_seqs get_tables set_tables set_seqs ret];
          reflexivity|].
  simpl. repeat split.
Qed.

Lemma add_content_theme_spec content_id theme_id confidence w :
  exists w1,
    add_content_theme content_id theme_id confidence w = (Ok tt, w1)
    /\ database.themes (database.current (db w1))
       = database.themes (database.current (db w))
    /\ database.content_themes (database.current (db w1))
       = database.content_themes (database.current (db w))
         ++ [{| ContentTheme.id := database.next_content_theme (database.seqs (db w));
                ContentTheme.content_id := content_id;
                ContentTheme.theme_id := theme_id;
                ContentTheme.confidence := confidence |}]
    /\ database.next_theme (database.seqs (db w1))
       = database.next_theme (database.seqs (db w))
    /\ database.next_content_theme (database.seqs (db w1))
       = database.next_content_theme (database.seqs (db w)) + 1
    /\ calls w1 = calls w.
Proof.
  eexists.
  split; [cbv [add_content_theme bind get_seqs get_tables set_tables set_seqs ret];
          reflexivity|].
  simpl. repeat split.
Qed.

Lemma increment_spec theme_id w :
  exists w1,
    increment_content_count theme_id w = (Ok tt, w1)
    /\ database.themes (database.current (db w1))
       = map (bump theme_id) (database.themes (database.current (db w)))
    /\ database.content_themes (database.current (db w1))
       = database.content_themes (database.current (db w))
    /\ database.seqs (db w1) = database.seqs (db w)
    /\ calls w1 = calls w.
Proof.
  eexists.
  split; [cbv [increment_content_count bind get_tables set_tables ret]; reflexivity|].
  simpl. repeat split.
Qed.

(** The cold-start loop: one theme and one association per name. *)
Lemma create_suggested_spec env content_id names : forall assigned w,
  exists w',
    create_suggested env content_id names assigned w
    = (Ok (assigned
           ++ map (fun th => of_id (Theme.id th))
                  (suggested_themes env (database.next_theme (database.seqs (db w))) names)),
       w')
    /\ database.themes (database.current (db w'))
       = database.themes (database.current (db w))
         ++ suggested_themes env (database.next_theme (database.seqs (db w))) names
    /\ database.content_themes (database.current (db w'))
       = database.content_themes (database.current (db w))
         ++ suggested_links content_id
              (database.next_content_theme (database.seqs (db w)))
              (database.next_theme (database.seqs (db w))) names
    /\ calls w' = calls w.
Proof.
  induction names as [|name rest IH]; intros assigned w.
  - exists w. simpl. rewrite !app_nil_r. repeat split.
  - simpl create_suggested.
    destruct (create_theme_spec env name JNull w)
      as (w1 & Hct & Ht1 & Hl1 & Hn1 & Hk1 & Hc1).
    rewrite (bind_ok _ _ _ _ _ Hct).
    destruct (add_content_theme_spec content_id
                (of_id (Theme.id (theme_from env (database.next_theme
                                                   (database.seqs (db w))) name JNull)))
                (JNum 1) w1)
      as (w2 & Hadd & Ht2 & Hl2 & Hn2 & Hk2 & Hc2).
    rewrite (bind_ok _ _ _ _ _ Hadd).
    destruct (IH (assigned ++ [of_id (Theme.id (theme_from env (database.next_theme
                                                   (database.seqs (db w))) name JNull))])
                 w2)
      as (w' & Hrun & Ht & Hl & Hc).
    exists w'. rewrite Hrun, Ht, Hl, Hc.
    rewrite Hn2, Hn1, Hk2, Hk1, Ht2, Ht1, Hl2, Hl1, Hc2, Hc1.
    simpl. rewrite <- !app_assoc. simpl. rewrite ?Hk1. repeat split.
Qed.

Lemma suggested_themes_names env first names :
  map Theme.name (suggested_themes env first names) = names.
Proof.
  revert first. induction names as [|n rest IH]; intros first; simpl;
    [reflexivity|now rewrite IH].
Qed.

Lemma suggested_themes_plain env first names :
  Forall (fun th => Theme.description th = JNull /\ Theme.content_count th = 1)
         (suggested_themes env first names).
Proof.
  revert first. induction names as [|n rest IH]; intros first; simpl;
    constructor; [split; reflexivity|apply IH].
Qed.

Lemma suggested_links_full content_id first_link first_theme names :
  Forall (fun l => ContentTheme.confidence l = JNum 1
                   /\ ContentTheme.content_id l = content_id)
         (suggested_links content_id first_link first_theme names).
Proof.
  revert first_link first_theme.
  induction names as [|n rest IH]; intros first_link first_theme; simpl;
    constructor; [split; reflexivity|apply IH].
Qed.

Lemma suggested_links_themes env content_id first_link first_theme names :
  map ContentTheme.theme_id (suggested_links content_id first_link first_theme names)
  = map (fun th => of_id (Theme.id th)) (suggested_themes env first_theme names).
Proof.
  revert first_link first_theme.
  induction names as [|n rest IH]; intros first_link first_theme; simpl;
    [reflexivity|now rewrite IH].
Qed.

(** With too few associations for a bootstrap, the themes are read as
    they are. *)
Lemma load_themes_plain lib env w :
  Z.of_nat (List.length (database.content_themes (database.current (db w))))
  < BOOTSTRAP_COUNT ->
  load_themes lib env w = (Ok (database.themes (database.current (db w))), w).
Proof.
  intros Hfew. unfold load_themes, bind, get_tables, ret.
  apply Z.leb_gt in Hfew. rewrite Hfew.
  destruct (Z.of_nat (List.length (database.themes (database.current (db w)))) <? 5);
    reflexivity.
Qed.

End Taxonomy.



Section Gate.
Import pipeline theme_service taxonomy.

Lemma credited_nil th : credited [] th = th.
Proof.
  destruct th. unfold credited, credits. simpl. f_equal. lia.
Qed.

Lemma credited_cons m rest th :
  credited (m :: rest) th = credited rest (bump (theme_id_of m) th).
Proof.
  unfold credited, credits, bump. simpl.
  destruct (id_is (theme_id_of m) (Theme.id th)); cbn [List.length Theme.id Theme.name
    Theme.description Theme.color Theme.content_count]; f_equal.
  rewrite Nat2Z.inj_succ. lia.
Qed.

Lemma map_credited_nil l : map (credited []) l = l.
Proof. induction l as [|th l IH]; simpl; [reflexivity|]. now rewrite credited_nil, IH. Qed.

Lemma map_credited_cons m rest l :
  map (credited rest) (map (bump (theme_id_of m)) l) = map (credited (m :: rest)) l.
Proof.
  rewrite map_map. apply map_ext. intros th. symmetry. apply credited_cons.
Qed.

Lemma ge_number v q c : number v = Some q -> py.ge v c = Ok (Qle_bool c q).
Proof.
  destruct v; simpl; try discriminate; intros H; injection H as <-; reflexivity.
Qed.

(** What the gate lets through, in the words of the property. *)
Lemma accepted_iff m :
  accepted m = true
  <-> exists q, number (confidence_of m) = Some q
                /\ (CONFIDENCE_LOW <= q)%Q
                /\ py.truthy (theme_id_of m) = true.
Proof.
  unfold accepted. destruct (number (confidence_of m)) as [q|].
  - rewrite andb_true_iff, Qle_bool_iff. split.
    + intros (H1 & H2). exists q. auto.
    + intros (q' & Hq & H1 & H2). injection Hq as <-. auto.
  - split; [discriminate|]. intros (q & Hq & _). discriminate.
Qed.

(** The loop over the matches: an association and a count for each match
    the gate lets through, nothing for the others. *)
Lemma process_matches_spec content_id matches :
  Forall well_formed matches ->
  forall assigned w,
  exists w',
    process_matches content_id matches assigned w
    = (Ok (assigned ++ map theme_id_of (filter accepted matches)), w')
    /\ database.themes (database.current (db w'))
       = map (credited (filter accepted matches))
             (database.themes (database.current (db w)))
    /\ database.content_themes (database.current (db w'))
       = database.content_themes (database.current (db w))
         ++ match_links content_id (database.next_content_theme (database.seqs (db w)))
                        (filter accepted matches)
    /\ database.next_theme (database.seqs (db w'))
       = database.next_theme (database.seqs (db w))
    /\ database.next_content_theme (database.seqs (db w'))
       = database.next_content_theme (database.seqs (db w))
         + Z.of_nat (List.length (filter accepted matches))
    /\ calls w' = calls w.
Proof.
  induction 1 as [|m rest Hm _ IH]; intros assigned w.
  - exists w. simpl. rewrite !app_nil_r, map_credited_nil, Z.add_0_r. repeat split.
  - destruct Hm as ((kv & ->) & Hnum).
    destruct (number (confidence_of (JObj kv))) as [q|] eqn:Hq; [|contradiction].
    cbn [process_matches]. rewrite !bind_get_dict.
    change (match py.lookup kv "theme_id" with Some x => x | None => JNull end)
      with (theme_id_of (JObj kv)).
    change (match py.lookup kv "confidence" with Some x => x | None => JNum 0 end)
      with (confidence_of (JObj kv)).
    rewrite (bind_lift_ok _ _ _ _ (ge_number _ _ CONFIDENCE_LOW Hq)).
    cbn [filter].
    assert (Hacc : accepted (JObj kv)
                   = Qle_bool CONFIDENCE_LOW q && py.truthy (theme_id_of (JObj kv)))
      by (unfold accepted; now rewrite Hq).
    rewrite Hacc.
    destruct (Qle_bool CONFIDENCE_LOW q && py.truthy (theme_id_of (JObj kv))).
    + destruct (add_content_theme_spec content_id (theme_id_of (JObj kv))
                  (confidence_of (JObj kv)) w)
        as (w1 & Hadd & Ht1 & Hl1 & Hn1 & Hk1 & Hc1).
      rewrite (bind_ok _ _ _ _ _ Hadd).
      destruct (increment_spec (theme_id_of (JObj kv)) w1)
        as (w2 & Hinc & Ht2 & Hl2 & Hs2 & Hc2).
      rewrite (bind_ok _ _ _ _ _ Hinc).
      destruct (IH (assigned ++ [theme_id_of (JObj kv)]) w2)
        as (w' & Hrun & Ht & Hl & Hn & Hk & Hc).
      exists w'. rewrite Hrun, Ht, Hl, Hn, Hk, Hc.
      rewrite Ht2, Ht1, Hl2, Hl1, Hs2, Hn1, Hk1, Hc2, Hc1.
      rewrite map_credited_cons. simpl.
      rewrite <- !app_assoc. simpl.
      split; [reflexivity|]. split; [reflexivity|]. split; [reflexivity|].
      split; [reflexivity|]. split; [|reflexivity].
      rewrite Zpos_P_of_succ_nat. lia.
    + apply IH.
Qed.

Lemma load_themes_reads lib env w existing w1 :
  load_themes lib env w = (Ok existing, w1) ->
  existing = database.themes (database.current (db w1)).
Proof.
  unfold load_themes, bind, get_tables, ret.
  destruct (Z.of_nat (List.length (database.themes (database.current (db w)))) <? 5).
  - destruct (BOOTSTRAP_COUNT
              <=? Z.of_nat (List.length (database.content_themes
                                           (database.current (db w))))).
    + destruct (_bootstrap_themes lib env w) as [[[]|e] w2]; [|discriminate].
      intros H. now injection H as <- <-.
    + intros H. now injection H as <- <-.
  - intros H. now injection H as <- <-.
Qed.

Lemma is_nil_map {A B} (f : A -> B) l : is_nil (map f l) = is_nil l.
Proof. destruct l; reflexivity. Qed.

End Gate.





(* ================================================================== *)
(** * Further properties *)
(* ================================================================== *)

(** ** Probing the limiter and the registry *)

Section Probing.
Import rate_limiter.
#[local] Open Scope Q_scope.

(** Evicting up to a later limit makes an earlier eviction redundant. *)
Lemma evict_evict l1 l2 q : l1 <= l2 -> evict l2 (evict l1 q) = evict l2 q.
Proof.
  intros Hle. induction q as [|t q IH]; simpl; [reflexivity|].
  destruct (Qle_bool t l1) eqn:E1.
  - apply Qle_bool_iff in E1.
    assert (E2 : Qle_bool t l2 = true) by (apply Qle_bool_iff; lra).
    now rewrite E2.
  - reflexivity.
Qed.

Lemma acquire_after_probe now now' lag rl :
  now <= now' ->
  acquire now' lag (fst (can_proceed now rl)) = acquire now' lag rl.
Proof.
  intros Hle. unfold can_proceed, acquire, is_full.
  cbn [fst requests time_window max_requests].
  rewrite (evict_evict (now - time_window rl) (now' - time_window rl)) by lra.
  reflexivity.
Qed.

End Probing.

(** X1.  [can_proceed] tells what [acquire] would do at the same clock
    reading: after the answer [True], [acquire] records that reading
    without sleeping; after [False], on a limiter of capacity at least
    one, it sleeps for a positive time.  The probe keeps the settings,
    drops only expired times, and leaves every later [acquire] with the
    outcome it would have had without the probe. *)
Theorem can_proceed_foretells_acquire :
  forall (rl : rate_limiter.RateLimiter) (now : Q),
    let probed := fst (rate_limiter.can_proceed now rl) in
    rate_limiter.max_requests probed = rate_limiter.max_requests rl
    /\ rate_limiter.time_window probed = rate_limiter.time_window rl
    /\ (List.length (rate_limiter.requests probed)
        <= List.length (rate_limiter.requests rl))%nat
    /\ (forall now' lag : Q,
          (now <= now')%Q ->
          rate_limiter.acquire now' lag probed = rate_limiter.acquire now' lag rl)
    /\ (snd (rate_limiter.can_proceed now rl) = true ->
        forall lag : Q,
          rate_limiter.acquire now lag rl
          = Ok ({| rate_limiter.max_requests := rate_limiter.max_requests rl;
                   rate_limiter.time_window := rate_limiter.time_window rl;
                   rate_limiter.requests := rate_limiter.requests probed ++ [now] |},
                {| rate_limiter.slept := None; rate_limiter.admitted_at := now |}))
    /\ (snd (rate_limiter.can_proceed now rl) = false ->
        (1 <= rate_limiter.max_requests rl)%Z ->
        forall lag : Q,
          exists rl' adm wait_time,
            rate_limiter.acquire now lag rl = Ok (rl', adm)
            /\ rate_limiter.slept adm = Some wait_time
            /\ (0 < wait_time)%Q
            /\ rate_limiter.admitted_at adm = (now + wait_time + lag)%Q).
Proof.
  intros rl now probed.
  split; [reflexivity|]. split; [reflexivity|].
  split; [apply evict_length|].
  split; [intros now' lag Hle; now apply acquire_after_probe|].
  split.
  - intros Hok lag. apply acquire_not_full.
    unfold rate_limiter.can_proceed in Hok. simpl in Hok.
    now apply negb_true_iff in Hok.
  - intros Hno Hn lag.
    unfold rate_limiter.can_proceed in Hno. simpl in Hno.
    apply negb_false_iff in Hno.
    destruct (rate_limiter.evict (now - rate_limiter.time_window rl)
                (rate_limiter.requests rl)) as [|oldest rest] eqn:He.
    + exfalso. exact (full_nonempty rl [] Hn Hno eq_refl).
    + pose proof (acquire_full now lag rl oldest rest) as Hacq.
      rewrite He in Hacq. specialize (Hacq Hno eq_refl). cbv zeta in Hacq.
      eexists. eexists. exists (rate_limiter.time_window rl - (now - oldest))%Q.
      split; [exact Hacq|]. split; [reflexivity|].
      split; [|reflexivity].
      apply evict_head in He. lra.
Qed.

(** X2.  On the registry of [APIRateLimits], in any state of its queues,
    [get_limiter] returns for every name: the limiter registered under
    the name, and the one registered as general for a name that is not
    registered.  The limiter it returns has a capacity of at least 3, so
    [acquire] on it returns as well. *)
Theorem get_limiter_always_admits :
  forall (reg : list (string * rate_limiter.RateLimiter)) (api_name : string)
         (now lag : Q),
    window.as_configured reg ->
    exists rl r,
      rate_limiter.get_limiter reg api_name = Ok rl
      /\ (3 <= rate_limiter.max_requests rl)%Z
      /\ (forall known,
            rate_limiter.find_limiter rate_limiter.limiters api_name = Some known ->
            rate_limiter.find_limiter reg api_name = Some rl
            /\ rate_limiter.max_requests rl = rate_limiter.max_requests known
            /\ rate_limiter.time_window rl = rate_limiter.time_window known)
      /\ (rate_limiter.find_limiter rate_limiter.limiters api_name = None ->
          rate_limiter.find_limiter reg "general" = Some rl
          /\ rate_limiter.max_requests rl = 10%Z
          /\ rate_limiter.time_window rl = inject_Z 1)
      /\ rate_limiter.acquire now lag rl = Ok r.
Proof.
  intros reg api_name now lag Hreg. unfold window.as_configured in Hreg.
  destruct reg as [|[n1 r1] [|[n2 r2] [|[n3 r3] [|[n4 r4] [|]]]]]; try discriminate.
  simpl in Hreg.
  injection Hreg as -> Hm1 Hw1 -> Hm2 Hw2 -> Hm3 Hw3 -> Hm4 Hw4.
  unfold rate_limiter.get_limiter. cbn [rate_limiter.find_limiter].
  change (String.eqb "twitter" "general") with false.
  change (String.eqb "claude" "general") with false.
  change (String.eqb "arxiv" "general") with false.
  change (String.eqb "general" "general") with true.
  cbv iota.
  destruct (String.eqb "twitter" api_name) eqn:E1;
    [|destruct (String.eqb "claude" api_name) eqn:E2;
      [|destruct (String.eqb "arxiv" api_name) eqn:E3;
        [|destruct (String.eqb "general" api_name) eqn:E4]]];
    match goal with
    | |- exists rl r, Ok ?x = Ok rl /\ _ =>
        destruct (acquire_total now lag x) as (r & Hr); [lia|];
        exists x, r
    end;
    (split; [reflexivity|]); (split; [lia|]);
    (split; [intros known H|split; [intros H|exact Hr]]);
    unfold rate_limiter.limiters in H; cbn [rate_limiter.find_limiter] in H;
    rewrite ?E1, ?E2, ?E3, ?E4 in H;
    try discriminate H;
    try (injection H as <-);
    repeat split; assumption.
Qed.

(** The name mastodon is not registered: the limiter is the general one. *)
Lemma get_limiter_always_admits_witness :
  window.as_configured rate_limiter.limiters
  /\ exists rl r,
       rate_limiter.get_limiter rate_limiter.limiters "mastodon" = Ok rl
       /\ (3 <= rate_limiter.max_requests rl)%Z
       /\ (forall known,
             rate_limiter.find_limiter rate_limiter.limiters "mastodon" = Some known ->
             rate_limiter.find_limiter rate_limiter.limiters "mastodon" = Some rl
             /\ rate_limiter.max_requests rl = rate_limiter.max_requests known
             /\ rate_limiter.time_window rl = rate_limiter.time_window known)
       /\ (rate_limiter.find_limiter rate_limiter.limiters "mastodon" = None ->
           rate_limiter.find_limiter rate_limiter.limiters "general" = Some rl
           /\ rate_limiter.max_requests rl = 10%Z
           /\ rate_limiter.time_window rl = inject_Z 1)
       /\ rate_limiter.acquire 0 0 rl = Ok r.
Proof.
  split; [reflexivity|].
  exact (get_limiter_always_admits rate_limiter.limiters "mastodon" 0 0 eq_refl).
Defined.

(** ** What is cut out of a fenced reply *)

Section Fences.
Import ai_service replies.

Lemma prefix_app_same a s : String.prefix a (a +++ s) = true.
Proof.
  induction a as [|c a IH]; cbn [String.prefix String.append]; [now destruct s|].
  destruct (Ascii.ascii_dec c c); [exact IH|contradiction].
Qed.

Lemma find_at_here a s i : pystr.find_at a (a +++ s) i = Some i.
Proof. rewrite find_at_eq. now rewrite prefix_app_same. Qed.

Lemma prefix_backtick_plain sub c s :
  Ascii.eqb c "`" = false -> String.prefix (String "`" sub) (String c s) = false.
Proof.
  intros Hc. cbn [String.prefix].
  destruct (Ascii.ascii_dec "`" c) as [<-|]; [discriminate|reflexivity].
Qed.

(** A search for a text that starts with a backtick passes over a stretch
    that holds none. *)
Lemma find_at_past_plain sub pre s i :
  plain pre = true ->
  pystr.find_at (String "`" sub) (pre +++ s) i
  = pystr.find_at (String "`" sub) s (i + String.length pre).
Proof.
  revert i. induction pre as [|c pre IH]; intros i Hp;
    cbn [String.append String.length].
  - now rewrite Nat.add_0_r.
  - cbn [plain] in Hp. apply andb_true_iff in Hp. destruct Hp as (Hc & Hp).
    apply negb_true_iff in Hc.
    rewrite (find_at_eq _ (String c (pre +++ s)) i).
    rewrite (prefix_backtick_plain _ _ _ Hc), (IH (S i) Hp).
    f_equal. lia.
Qed.

Lemma find_at_plain_none sub s i :
  plain s = true -> pystr.find_at (String "`" sub) s i = None.
Proof.
  revert i. induction s as [|c s IH]; intros i Hp; [reflexivity|].
  cbn [plain] in Hp. apply andb_true_iff in Hp. destruct Hp as (Hc & Hp).
  apply negb_true_iff in Hc.
  rewrite (find_at_eq _ (String c s) i), (prefix_backtick_plain _ _ _ Hc).
  now apply IH.
Qed.

Lemma drop_app_length a b : pystr.drop (String.length a) (a +++ b) = b.
Proof. induction a as [|c a IH]; simpl; [now destruct b|exact IH]. Qed.

Lemma take_app_length a b : pystr.take (String.length a) (a +++ b) = a.
Proof. induction a as [|c a IH]; simpl; [now destruct b|now rewrite IH]. Qed.

Lemma len_app a b : pystr.len (a +++ b) = pystr.len a + pystr.len b.
Proof. unfold pystr.len. rewrite append_length. lia. Qed.

Lemma len_nonneg a : 0 <= pystr.len a.
Proof. unfold pystr.len. lia. Qed.

(** [(a + s).find(sub, len(a))] searches [s]. *)
Lemma find_after a s sub :
  pystr.find sub (a +++ s) (pystr.len a)
  = match pystr.find_at sub s (String.length a) with
    | Some i => Z.of_nat i
    | None => -1
    end.
Proof.
  unfold pystr.find. rewrite len_app.
  pose proof (len_nonneg s) as Hs.
  destruct (pystr.len a + pystr.len s <? pystr.len a) eqn:E;
    [apply Z.ltb_lt in E; lia|].
  unfold pystr.len at 1 2. rewrite Nat2Z.id, drop_app_length. reflexivity.
Qed.

(** [(a + b + c)[len(a):len(a) + len(b)]] is [b]. *)
Lemma clamp_inside n i : 0 <= i <= n -> pystr.clamp n i = i.
Proof.
  intros H. unfold pystr.clamp.
  destruct (i <? 0) eqn:E; [apply Z.ltb_lt in E; lia|lia].
Qed.

Lemma slice_middle a b c :
  pystr.slice (a +++ b +++ c) (pystr.len a) (pystr.len a + pystr.len b) = b.
Proof.
  unfold pystr.slice. rewrite !len_app.
  pose proof (len_nonneg a). pose proof (len_nonneg b). pose proof (len_nonneg c).
  rewrite !clamp_inside by lia.
  replace (Z.to_nat (pystr.len a + pystr.len b - pystr.len a)) with (String.length b)
    by (unfold pystr.len; lia).
  replace (Z.to_nat (pystr.len a)) with (String.length a) by (unfold pystr.len; lia).
  now rewrite drop_app_length, take_app_length.
Qed.

(** [(a + b)[len(a):-1]] is [b[:-1]]. *)
Lemma slice_rest_chopped a b :
  pystr.slice (a +++ b) (pystr.len a) (-1) = pystr.slice b 0 (-1).
Proof.
  unfold pystr.slice. rewrite !len_app.
  pose proof (len_nonneg a). pose proof (len_nonneg b).
  rewrite (clamp_inside _ (pystr.len a)), (clamp_inside _ 0) by lia.
  unfold pystr.clamp. change (-1 <? 0) with true. cbv iota.
  replace (Z.to_nat (pystr.len a)) with (String.length a) by (unfold pystr.len; lia).
  rewrite drop_app_length. change (Z.to_nat 0) with O. cbn [pystr.drop].
  f_equal. lia.
Qed.

Lemma append_assoc_l a b c : (a +++ b) +++ c = a +++ b +++ c.
Proof. induction a as [|x a IH]; simpl; [reflexivity|now rewrite IH]. Qed.

Lemma find_zero sub s :
  pystr.find sub s 0
  = match pystr.find_at sub s 0 with Some i => Z.of_nat i | None => -1 end.
Proof.
  unfold pystr.find. pose proof (len_nonneg s).
  destruct (pystr.len s <? 0) eqn:E; [apply Z.ltb_lt in E; lia|].
  reflexivity.
Qed.

(** A block that is opened by [marker], a text that starts with a
    backtick, after a stretch without backticks, and closed by a fence
    after a body without backticks. *)
Lemma closed_block m pre body post :
  plain pre = true -> plain body = true ->
  let marker := String "`" m in
  let text := pre +++ marker +++ body +++ fence +++ post in
  pystr.contains marker text = true
  /\ pystr.find marker text 0 = pystr.len pre
  /\ pystr.find fence text (pystr.len pre + pystr.len marker)
     = pystr.len pre + pystr.len marker + pystr.len body
  /\ pystr.slice text (pystr.len pre + pystr.len marker)
                  (pystr.len pre + pystr.len marker + pystr.len body) = body.
Proof.
  intros Hpre Hbody marker text.
  assert (Hat : pystr.find_at marker text 0 = Some (String.length pre)).
  { unfold text, marker. rewrite (find_at_past_plain m pre _ 0 Hpre).
    apply find_at_here. }
  split; [unfold pystr.contains; now rewrite Hat|].
  split; [rewrite find_zero, Hat; reflexivity|].
  assert (Htext : text = (pre +++ marker) +++ body +++ fence +++ post)
    by (unfold text; now rewrite append_assoc_l).
  rewrite <- len_app. split.
  - rewrite Htext, find_after.
    change fence with (String "`" "``").
    rewrite (find_at_past_plain "``" body _ _ Hbody), find_at_here.
    unfold pystr.len. lia.
  - rewrite Htext. apply slice_middle.
Qed.

(** The same block without the closing fence. *)
Lemma open_block m pre body :
  plain pre = true -> plain body = true ->
  let marker := String "`" m in
  let text := pre +++ marker +++ body in
  pystr.contains marker text = true
  /\ pystr.find marker text 0 = pystr.len pre
  /\ pystr.find fence text (pystr.len pre + pystr.len marker) = -1
  /\ pystr.slice text (pystr.len pre + pystr.len marker) (-1)
     = pystr.slice body 0 (-1).
Proof.
  intros Hpre Hbody marker text.
  assert (Hat : pystr.find_at marker text 0 = Some (String.length pre)).
  { unfold text, marker. rewrite (find_at_past_plain m pre _ 0 Hpre).
    apply find_at_here. }
  split; [unfold pystr.contains; now rewrite Hat|].
  split; [rewrite find_zero, Hat; reflexivity|].
  assert (Htext : text = (pre +++ marker) +++ body)
    by (unfold text; now rewrite append_assoc_l).
  rewrite <- len_app. split.
  - rewrite Htext, find_after.
    change fence with (String "`" "``").
    now rewrite (find_at_plain_none "``" body _ Hbody).
  - rewrite Htext. apply slice_rest_chopped.
Qed.

End Fences.

(** X3.  When a reply opens a fence tagged json after a stretch without
    backticks and closes it after a body without backticks, the text
    handed to [json.loads] is the body, stripped, whatever precedes the
    block and whatever follows it. *)
Theorem tagged_block_is_cut_out :
  forall pre body post : string,
    replies.plain pre = true ->
    replies.plain body = true ->
    ai_service.strip_fence (pre +++ "```json" +++ body +++ "```" +++ post)
    = pystr.strip body.
Proof.
  intros pre body post Hpre Hbody.
  destruct (closed_block "``json" pre body post Hpre Hbody) as (Hc & Hs & He & Hsl).
  cbv zeta in Hc, Hs, He, Hsl.
  unfold ai_service.strip_fence, ai_service.json_fence, ai_service.fence in *.
  rewrite Hc, Hs.
  change (pystr.len "```json") with 7 in He, Hsl.
  now rewrite He, Hsl.
Qed.

Lemma tagged_block_is_cut_out_witness :
  replies.plain "Here it is: " = true
  /\ replies.plain " [1, 2] " = true
  /\ ai_service.strip_fence ("Here it is: " +++ "```json" +++ " [1, 2] " +++ "```"
                               +++ " as asked, in `json`")
     = "[1, 2]".
Proof.
  split; [reflexivity|]. split; [reflexivity|].
  exact (tagged_block_is_cut_out "Here it is: " " [1, 2] " " as asked, in `json`"
           eq_refl eq_refl).
Defined.

(** X4.  When a reply opens a fence tagged json and never closes it, the
    search for the closing fence gives -1 and the slice ends one
    character before the end of the reply: the text handed to
    [json.loads] is the body without its last character, stripped. *)
Theorem unclosed_block_loses_last_character :
  forall pre body : string,
    replies.plain pre = true ->
    replies.plain body = true ->
    ai_service.strip_fence (pre +++ "```json" +++ body)
    = pystr.strip (pystr.slice body 0 (-1)).
Proof.
  intros pre body Hpre Hbody.
  destruct (open_block "``json" pre body Hpre Hbody) as (Hc & Hs & He & Hsl).
  cbv zeta in Hc, Hs, He, Hsl.
  unfold ai_service.strip_fence, ai_service.json_fence, ai_service.fence in *.
  rewrite Hc, Hs.
  change (pystr.len "```json") with 7 in He, Hsl.
  now rewrite He, Hsl.
Qed.

Lemma unclosed_block_loses_last_character_witness :
  replies.plain "" = true
  /\ replies.plain "{}" = true
  /\ ai_service.strip_fence ("" +++ "```json" +++ "{}") = "{".
Proof.
  split; [reflexivity|]. split; [reflexivity|].
  exact (unclosed_block_loses_last_character "" "{}" eq_refl eq_refl).
Defined.

(** X5.  When a reply holds no fence tagged json and has a fenced block
    after a stretch without backticks, closed after a body without
    backticks, the text handed to [json.loads] is the body, stripped. *)
Theorem untagged_block_is_cut_out :
  forall pre body post : string,
    replies.plain pre = true ->
    replies.plain body = true ->
    pystr.contains "```json" (pre +++ "```" +++ body +++ "```" +++ post) = false ->
    ai_service.strip_fence (pre +++ "```" +++ body +++ "```" +++ post)
    = pystr.strip body.
Proof.
  intros pre body post Hpre Hbody Hno.
  destruct (closed_block "``" pre body post Hpre Hbody) as (Hc & Hs & He & Hsl).
  cbv zeta in Hc, Hs, He, Hsl.
  unfold ai_service.strip_fence, ai_service.json_fence, ai_service.fence in *.
  rewrite Hno, Hc, Hs.
  change (pystr.len "```") with 3 in He, Hsl.
  now rewrite He, Hsl.
Qed.

Lemma untagged_block_is_cut_out_witness :
  replies.plain "Result: " = true
  /\ replies.plain " {} " = true
  /\ pystr.contains "```json" ("Result: " +++ "```" +++ " {} " +++ "```" +++ "") = false
  /\ ai_service.strip_fence ("Result: " +++ "```" +++ " {} " +++ "```" +++ "") = "{}".
Proof.
  split; [reflexivity|]. split; [reflexivity|]. split; [reflexivity|].
  exact (untagged_block_is_cut_out "Result: " " {} " "" eq_refl eq_refl eq_refl).
Defined.

(** ** Hosts *)

Section Hosts.

Lemma find_at_app_some sub pre post : forall i,
  pystr.find_at sub (pre +++ sub +++ post) i <> None.
Proof.
  induction pre as [|c pre IH]; intros i; cbn [String.append].
  - rewrite find_at_here. discriminate.
  - rewrite (find_at_eq sub (String c (pre +++ sub +++ post)) i).
    destruct (String.prefix sub (String c (pre +++ sub +++ post)));
      [discriminate|apply IH].
Qed.

(** [sub in pre + sub + post] *)
Lemma contains_app sub pre post : pystr.contains sub (pre +++ sub +++ post) = true.
Proof.
  unfold pystr.contains.
  pose proof (find_at_app_some sub pre post 0) as H.
  destruct (pystr.find_at sub (pre +++ sub +++ post) 0); [reflexivity|contradiction].
Qed.

End Hosts.

(** X6.  The host is matched by substring: a URL whose host, as
    [urlparse] reads it off the lower-cased URL, has [twitter.com] or
    [x.com] anywhere inside it is typed twitter and handed to the Twitter
    extractor, whatever stands before and after the match in the host. *)
Theorem host_substring_routes_to_twitter :
  forall (lib : library) (source pre post needle : string),
    needle = "twitter.com" \/ needle = "x.com" ->
    urlparse_netloc lib (pystr.lower source) = Ok (pre +++ needle +++ post) ->
    url_parser.detect_content_type lib source = Ok url_parser.twitter
    /\ factory.get_extractor lib source false = Ok extractors.TwitterExtractor.
Proof.
  intros lib source pre post needle Hneedle Hhost.
  assert (Hty : url_parser.detect_content_type lib source = Ok url_parser.twitter).
  { unfold url_parser.detect_content_type. rewrite Hhost. cbn [rbind].
    destruct Hneedle as [-> | ->]; rewrite contains_app.
    - reflexivity.
    - now rewrite orb_true_r. }
  split; [exact Hty|].
  rewrite get_extractor_table. now rewrite Hty.
Qed.

(** The host [www.dropbox.com] holds [x.com]. *)
Lemma host_substring_routes_to_twitter_witness :
  ("x.com" = "twitter.com" \/ "x.com" = "x.com")
  /\ urlparse_netloc samples.lib (pystr.lower "https://www.dropbox.com/s/abc")
     = Ok ("www.dropbo" +++ "x.com" +++ "")
  /\ factory.get_extractor samples.lib "https://www.dropbox.com/s/abc" false
     = Ok extractors.TwitterExtractor.
Proof.
  split; [now right|]. split; [reflexivity|].
  exact (proj2 (host_substring_routes_to_twitter
                  samples.lib "https://www.dropbox.com/s/abc" "www.dropbo" "" "x.com"
                  (or_intror eq_refl) eq_refl)).
Defined.

(** ** File names *)

Section Paths.
Import posixpath file_handler paths.

Lemma take_drop n s : pystr.take n s +++ pystr.drop n s = s.
Proof.
  revert s. induction n as [|n IH]; intros [|c s]; simpl; try reflexivity.
  now rewrite IH.
Qed.

(** [root + ext == p] *)
Lemma splitext_joins p : fst (splitext p) +++ snd (splitext p) = p.
Proof.
  unfold splitext.
  destruct (rfind "/" p <? rfind "." p).
  - destruct (all_dots _); simpl.
    + clear. induction p as [|c p IH]; simpl; [reflexivity|now rewrite IH].
    + apply take_drop.
  - simpl. clear. induction p as [|c p IH]; simpl; [reflexivity|now rewrite IH].
Qed.

Lemma endswith_app a p : pystr.endswith p (a +++ p) = true.
Proof.
  unfold pystr.endswith. rewrite append_length.
  replace (String.length a + String.length p - String.length p)%nat
    with (String.length a) by lia.
  rewrite drop_app_length, String.eqb_refl, andb_true_r.
  apply Nat.leb_le. lia.
Qed.

Lemma join_ends a b : exists x, join a b = x +++ b.
Proof.
  unfold join.
  destruct (pystr.startswith "/" b); [now exists EmptyString|].
  destruct (pystr.is_empty a || pystr.endswith "/" a).
  - now exists a.
  - exists (a +++ "/"). now rewrite append_assoc_l.
Qed.

(** A path that ends with an extension [.pdf] in any letter case is one
    the PDF extractor takes. *)
Lemma pdf_suffix_handled (lib : library) x ext :
  pystr.lower ext = ".pdf" ->
  extractors.can_handle lib extractors.PDFExtractor (x +++ ext) true = Ok true.
Proof.
  intros Hext. cbn [extractors.can_handle negb].
  now rewrite lower_app, Hext, endswith_app.
Qed.

Lemma allowed_pdf filename :
  is_allowed_file_type filename pdf_only = true ->
  pystr.lower (snd (splitext filename)) = ".pdf".
Proof.
  unfold is_allowed_file_type, pdf_only, get_file_extension.
  cbn [existsb]. rewrite orb_false_r. apply String.eqb_eq.
Qed.

Lemma rfind_lower_bound c s : -1 <= rfind c s.
Proof.
  induction s as [|d s IH]; cbn [rfind]; [lia|].
  destruct (0 <=? rfind c s) eqn:E; [apply Z.leb_le in E; lia|].
  destruct (Ascii.eqb d c); lia.
Qed.

Lemma rfind_none c s : rfind c s < 0 -> lacks c s = true.
Proof.
  induction s as [|d s IH]; cbn [rfind lacks]; [reflexivity|].
  destruct (0 <=? rfind c s) eqn:E.
  - apply Z.leb_le in E. lia.
  - apply Z.leb_gt in E. destruct (Ascii.eqb d c); [lia|].
    intros _. now rewrite IH.
Qed.

Lemma lacks_rfind c s : lacks c s = true -> rfind c s = -1.
Proof.
  induction s as [|d s IH]; cbn [rfind lacks]; [reflexivity|].
  intros H. apply andb_true_iff in H. destruct H as (Hd & Hs).
  apply negb_true_iff in Hd. rewrite (IH Hs), Hd. reflexivity.
Qed.

(** The text splits at the index [rfind] gives, and what follows that
    index holds the character no more. *)
Lemma rfind_cut c s :
  0 <= rfind c s ->
  exists pre rest,
    s = pre +++ String c rest
    /\ pystr.len pre = rfind c s
    /\ lacks c rest = true.
Proof.
  induction s as [|d s IH]; cbn [rfind]; [lia|].
  destruct (0 <=? rfind c s) eqn:E.
  - apply Z.leb_le in E. intros _.
    destruct (IH E) as (pre & rest & Hs & Hl & Hr).
    exists (String d pre), rest. split; [simpl; now rewrite <- Hs|].
    split; [|exact Hr].
    unfold pystr.len in *. simpl String.length. lia.
  - apply Z.leb_gt in E. destruct (Ascii.eqb d c) eqn:Ed; [|lia].
    intros _. apply Ascii.eqb_eq in Ed. subst d.
    exists EmptyString, s. split; [reflexivity|]. split; [reflexivity|].
    now apply rfind_none.
Qed.

Lemma rfind_app_r c a b :
  0 <= rfind c b -> rfind c (a +++ b) = pystr.len a + rfind c b.
Proof.
  intros Hb. induction a as [|d a IH]; cbn [String.append rfind].
  - unfold pystr.len. simpl. lia.
  - rewrite IH. pose proof (len_nonneg a).
    destruct (0 <=? pystr.len a + rfind c b) eqn:E; [|apply Z.leb_gt in E; lia].
    unfold pystr.len. simpl String.length. lia.
Qed.

Lemma rfind_app_l c a b : lacks c b = true -> rfind c (a +++ b) = rfind c a.
Proof.
  intros Hb. induction a as [|d a IH]; cbn [String.append rfind].
  - now apply lacks_rfind.
  - now rewrite IH.
Qed.

Lemma lower_char_dot d : Ascii.eqb (pystr.lower_char d) "." = Ascii.eqb d ".".
Proof. destruct d as [[] [] [] [] [] [] [] []]; reflexivity. Qed.

Lemma lower_char_slash d : Ascii.eqb (pystr.lower_char d) "/" = Ascii.eqb d "/".
Proof. destruct d as [[] [] [] [] [] [] [] []]; reflexivity. Qed.

Lemma lacks_lower c s :
  (forall d, Ascii.eqb (pystr.lower_char d) c = Ascii.eqb d c) ->
  lacks c (pystr.lower s) = lacks c s.
Proof.
  intros Hc. induction s as [|d s IH]; simpl; [reflexivity|].
  now rewrite Hc, IH.
Qed.

(** The extension [splitext] gives is empty, or a dot followed by
    characters none of which is a dot or a slash. *)
Lemma splitext_ext p :
  snd (splitext p) = EmptyString
  \/ exists rest, snd (splitext p) = String "." rest
                  /\ lacks "." rest = true /\ lacks "/" rest = true.
Proof.
  unfold splitext.
  destruct (rfind "/" p <? rfind "." p) eqn:E; [|now left].
  destruct (all_dots _); [now left|]. right. cbn [snd].
  apply Z.ltb_lt in E. pose proof (rfind_lower_bound "/" p) as Hsep.
  destruct (rfind_cut "." p) as (pre & rest & Hp & Hl & Hr); [lia|].
  exists rest.
  assert (Hdrop : pystr.drop (Z.to_nat (rfind "." p)) p = String "." rest).
  { rewrite <- Hl. unfold pystr.len. rewrite Nat2Z.id.
    rewrite Hp at 1. apply drop_app_length. }
  split; [exact Hdrop|]. split; [exact Hr|].
  destruct (rfind "/" rest <? 0) eqn:Es.
  - apply Z.ltb_lt in Es. now apply rfind_none.
  - apply Z.ltb_ge in Es. exfalso.
    assert (Hs : rfind "/" (String "." rest) = rfind "/" rest + 1).
    { cbn [rfind]. destruct (0 <=? rfind "/" rest) eqn:E0; [reflexivity|].
      apply Z.leb_gt in E0. lia. }
    assert (Hsl : rfind "/" p = pystr.len pre + (rfind "/" rest + 1)).
    { rewrite Hp at 1. rewrite rfind_app_r; rewrite Hs; [reflexivity|lia]. }
    lia.
Qed.

End Paths.

(** X7.  An upload whose name [is_allowed_file_type] accepts, with the
    default list, is saved under a path the router hands to the PDF
    extractor, whatever the upload directory and the digest of the bytes
    are: processing the saved file cannot fail for want of an extractor.
    The name itself is one the PDF extractor takes as well. *)
Theorem allowed_upload_reaches_pdf_extractor :
  forall (lib : library) (settings : config.Settings) (md5_hexdigest : list N -> string)
         (content : list N) (filename : string) (files files' : file_handler.disk)
         (file_path : string),
    file_handler.is_allowed_file_type filename file_handler.pdf_only = true ->
    file_handler.save_upload_file settings md5_hexdigest content filename files
    = (Ok file_path, files') ->
    extractors.can_handle lib extractors.PDFExtractor filename true = Ok true
    /\ factory.get_extractor lib file_path true = Ok extractors.PDFExtractor
    /\ files' = (file_path, content) :: files.
Proof.
  intros lib settings md5_hexdigest content filename files files' file_path Hok Hsave.
  apply allowed_pdf in Hok.
  split.
  - rewrite <- (splitext_joins filename). now apply pdf_suffix_handled.
  - unfold file_handler.save_upload_file in Hsave.
    destruct (config.MAX_FILE_SIZE settings <? Z.of_nat (List.length content));
      [discriminate|].
    injection Hsave as <- <-. split; [|reflexivity].
    destruct (join_ends (config.UPLOAD_DIR settings)
                (md5_hexdigest content +++ snd (posixpath.splitext filename)))
      as (x & ->).
    rewrite <- append_assoc_l.
    pose proof (pdf_suffix_handled lib (x +++ md5_hexdigest content) _ Hok) as Hh.
    rewrite get_extractor_table.
    cbn [extractors.can_handle negb] in Hh. injection Hh as ->. reflexivity.
Qed.

Lemma allowed_upload_reaches_pdf_extractor_witness :
  file_handler.is_allowed_file_type "Paper.PDF" file_handler.pdf_only = true
  /\ file_handler.save_upload_file config.defaults
       (fun _ => "d41d8cd98f00b204e9800998ecf8427e") [] "Paper.PDF" []
     = (Ok "./uploads/d41d8cd98f00b204e9800998ecf8427e.PDF",
        [("./uploads/d41d8cd98f00b204e9800998ecf8427e.PDF", [])])
  /\ factory.get_extractor samples.lib
       "./uploads/d41d8cd98f00b204e9800998ecf8427e.PDF" true
     = Ok extractors.PDFExtractor.
Proof.
  split; [reflexivity|]. split; [reflexivity|].
  exact (proj1 (proj2 (allowed_upload_reaches_pdf_extractor
                         samples.lib config.defaults
                         (fun _ => "d41d8cd98f00b204e9800998ecf8427e") [] "Paper.PDF"
                         [] _ _ eq_refl eq_refl))).
Defined.

(** X8.  The extension [get_file_extension] returns is in lower case and
    ends the lower-cased name; it is empty, or it is a dot followed by
    characters none of which is a dot or a slash. *)
Theorem file_extension_shape :
  forall filename : string,
    let ext := file_handler.get_file_extension filename in
    pystr.endswith ext (pystr.lower filename) = true
    /\ pystr.lower ext = ext
    /\ (ext = EmptyString
        \/ exists rest, ext = String "." rest
                        /\ paths.lacks "." rest = true
                        /\ paths.lacks "/" rest = true).
Proof.
  intros filename ext. unfold ext, file_handler.get_file_extension.
  split; [|split].
  - rewrite <- (splitext_joins filename) at 2. rewrite lower_app. apply endswith_app.
  - apply lower_idem.
  - destruct (splitext_ext filename) as [-> | (rest & -> & Hd & Hs)]; [now left|].
    right. exists (pystr.lower rest). split; [reflexivity|].
    rewrite (lacks_lower "." rest lower_char_dot), (lacks_lower "/" rest lower_char_slash).
    now split.
Qed.

(** X9.  A file name that is a dot followed by a stem without dots, in
    any directory, has no extension: [is_allowed_file_type] refuses it
    with the default list, also when the stem is [pdf] in any letter case
    and the PDF extractor would take the name. *)
Theorem dot_file_has_no_extension :
  forall (lib : library) (dir stem : string),
    paths.lacks "." stem = true ->
    paths.lacks "/" stem = true ->
    file_handler.get_file_extension (dir +++ "/." +++ stem) = EmptyString
    /\ file_handler.get_file_extension ("." +++ stem) = EmptyString
    /\ file_handler.is_allowed_file_type (dir +++ "/." +++ stem) file_handler.pdf_only
       = false
    /\ (pystr.lower stem = "pdf" ->
        extractors.can_handle lib extractors.PDFExtractor (dir +++ "/." +++ stem) true
        = Ok true).
Proof.
  intros lib dir stem Hdot Hslash.
  assert (Hd0 : posixpath.rfind "." (String "." stem) = 0).
  { cbn [posixpath.rfind]. now rewrite (lacks_rfind _ _ Hdot). }
  assert (Hs0 : paths.lacks "/" (String "." stem) = true) by exact Hslash.
  assert (H1 : snd (posixpath.splitext (dir +++ "/." +++ stem)) = EmptyString).
  { unfold posixpath.splitext.
    change (dir +++ "/." +++ stem) with (dir +++ "/" +++ String "." stem).
    rewrite <- (append_assoc_l dir "/" (String "." stem)).
    rewrite (rfind_app_r "." (dir +++ "/") (String "." stem)) by (rewrite Hd0; lia).
    rewrite (rfind_app_l "/" (dir +++ "/") (String "." stem) Hs0).
    rewrite (rfind_app_r "/" dir "/") by (cbn; lia).
    rewrite Hd0, len_app. change (posixpath.rfind "/" "/") with 0.
    change (pystr.len "/") with 1.
    replace (pystr.len dir + 0 + 1) with (pystr.len dir + 1 + 0) by lia.
    pose proof (len_nonneg dir).
    destruct (pystr.len dir + 0 <? pystr.len dir + 1 + 0) eqn:E;
      [|apply Z.ltb_ge in E; lia].
    unfold pystr.slice. rewrite Z.sub_diag. reflexivity. }
  assert (H2 : snd (posixpath.splitext ("." +++ stem)) = EmptyString).
  { unfold posixpath.splitext. change ("." +++ stem) with (String "." stem).
    rewrite Hd0, (lacks_rfind _ _ Hs0). cbn [Z.ltb Z.compare].
    unfold pystr.slice. rewrite Z.sub_diag. reflexivity. }
  unfold file_handler.is_allowed_file_type, file_handler.get_file_extension.
  rewrite H1, H2.
  split; [reflexivity|]. split; [reflexivity|]. split; [reflexivity|].
  intros Hpdf.
  change (dir +++ "/." +++ stem) with (dir +++ "/" +++ String "." stem).
  rewrite <- (append_assoc_l dir "/" (String "." stem)).
  apply pdf_suffix_handled. cbn [pystr.lower]. now rewrite Hpdf.
Qed.

Lemma dot_file_has_no_extension_witness :
  paths.lacks "." "pdf" = true
  /\ paths.lacks "/" "pdf" = true
  /\ file_handler.is_allowed_file_type ("uploads" +++ "/." +++ "pdf")
       file_handler.pdf_only = false
  /\ extractors.can_handle samples.lib extractors.PDFExtractor
       ("uploads" +++ "/." +++ "pdf") true = Ok true.
Proof.
  split; [reflexivity|]. split; [reflexivity|].
  destruct (dot_file_has_no_extension samples.lib "uploads" "pdf" eq_refl eq_refl)
    as (_ & _ & H3 & H4).
  split; [exact H3|exact (H4 eq_refl)].
Defined.

(** ** What a submission writes *)

Section Ledger.
Import pipeline content_processor ledger.

(** A run of [ingest] whose summary is returned: the content row, the
    summary row, the categorization, the commit, the read. *)
Lemma ingest_run lib env s extracted w x reply sd :
  factory.get_extractor lib (source s) (is_file s) = Ok x ->
  summary_reply env = Ok reply ->
  ai_service.summary_of_reply lib "comprehensive" reply = Ok sd ->
  let c := content_row env x s extracted (database.next_content (database.seqs (db w))) in
  let row := summary_row sd (database.next_summary (database.seqs (db w))) (Content.id c) in
  let w2 := with_summary row (logged GenerateSummary (with_content c w)) in
  ingest lib env (source s) (is_file s) (url_column s) (path_column s) extracted
         (digest s extracted) w
  = _get_content_details (Content.id c)
      (after_commit (snd (theme_service.categorize_content lib env (Content.id c) sd w2))).
Proof.
  intros Hx Hreply Hsd c row w2.
  unfold ingest. rewrite (bind_lift_ok _ _ _ _ Hx).
  assert (Hadd : add_content env (extractors.get_source_type x) (url_column s)
                   (path_column s) extracted (digest s extracted) w
                 = (Ok c, with_content c w)) by reflexivity.
  rewrite (bind_ok _ _ _ _ _ Hadd).
  assert (Hgen : ai_service.generate_summary lib env "comprehensive" (with_content c w)
                 = (Ok sd, logged GenerateSummary (with_content c w))).
  { rewrite generate_summary_run, Hreply. simpl rbind. now rewrite Hsd. }
  rewrite (bind_ok _ _ _ _ _ Hgen).
  destruct (summary_of_reply_shape lib reply sd Hsd) as (kv & Hkv & Hov).
  destruct (py.lookup kv "overview") as [o|] eqn:Ho; [|contradiction].
  assert (Hget : py.getitem sd "overview" = Ok o) by (rewrite Hkv; simpl; now rewrite Ho).
  rewrite (bind_lift_ok _ _ _ _ Hget).
  assert (Hrow : row = {| Summary.id := database.next_summary (database.seqs (db w));
                          Summary.content_id := Content.id c;
                          Summary.overview := o;
                          Summary.key_insights := taxonomy.field sd "key_insights" (JArr []);
                          Summary.implications := taxonomy.field sd "implications" JNull;
                          Summary.model_version := taxonomy.field sd "model_version" JNull;
                          Summary.token_count := taxonomy.field sd "token_count" JNull |}).
  { unfold row, summary_row. f_equal. rewrite Hkv. simpl. now rewrite Ho. }
  subst sd. rewrite !bind_get_dict.
  assert (Hsum : add_summary (Content.id c) o
                   (taxonomy.field (JObj kv) "key_insights" (JArr []))
                   (taxonomy.field (JObj kv) "implications" JNull)
                   (taxonomy.field (JObj kv) "model_version" JNull)
                   (taxonomy.field (JObj kv) "token_count" JNull)
                   (logged GenerateSummary (with_content c w))
                 = (Ok tt, w2)).
  { unfold w2. rewrite Hrow. reflexivity. }
  change (match py.lookup kv "key_insights" with Some x0 => x0 | None => JArr [] end)
    with (taxonomy.field (JObj kv) "key_insights" (JArr [])).
  change (match py.lookup kv "implications" with Some x0 => x0 | None => JNull end)
    with (taxonomy.field (JObj kv) "implications" JNull).
  change (match py.lookup kv "model_version" with Some x0 => x0 | None => JNull end)
    with (taxonomy.field (JObj kv) "model_version" JNull).
  change (match py.lookup kv "token_count" with Some x0 => x0 | None => JNull end)
    with (taxonomy.field (JObj kv) "token_count" JNull).
  rewrite (bind_ok _ _ _ _ _ Hsum).
  unfold bind at 1.
  destruct (categorize_content_returns lib env (Content.id c) (JObj kv) w2) as (ids & Hids).
  destruct (theme_service.categorize_content lib env (Content.id c) (JObj kv) w2)
    as [r3 w3].
  simpl in Hids. subst r3. reflexivity.
Qed.

(** The details of the row that was added last, in full. *)
Lemma details_of_new_full w c contents0 row summaries0 :
  database.contents (database.current (db w)) = contents0 ++ [c] ->
  Forall (fun x => Content.id x < Content.id c) contents0 ->
  database.summaries (database.current (db w)) = summaries0 ++ [row] ->
  Summary.content_id row = Content.id c ->
  Forall (fun r => Summary.content_id r < Content.id c) summaries0 ->
  _get_content_details (Content.id c) w
  = (Ok {| content_id := Content.id c;
           title := Content.title c;
           author := Content.author c;
           source_type := Content.source_type c;
           source_url := Content.source_url c;
           created_at := Some (Content.created_at c);
           summary := Some (view row);
           themes := map (fun ct => {| theme_id := ContentTheme.theme_id ct;
                                       confidence := ContentTheme.confidence ct |})
                         (filter (fun ct => ContentTheme.content_id ct =? Content.id c)
                                 (database.content_themes (database.current (db w)))) |},
     w).
Proof.
  intros Hc Hold Hs Hrow Holds.
  unfold _get_content_details, bind, get_tables, lift, ret.
  rewrite Hc, Hs, !filter_app, (filter_below Content.id), (filter_below Summary.content_id)
    by assumption.
  simpl. rewrite Hrow, Z.eqb_refl. reflexivity.
Qed.

(** A submission that is extracted, is no duplicate and gets its summary:
    what it commits and what it returns. *)
Lemma submit_stores lib env s w extracted x reply sd :
  keys_fresh w ->
  extract lib env (source s) (is_file s) = Ok extracted ->
  factory.get_extractor lib (source s) (is_file s) = Ok x ->
  with_hash (digest s extracted) w = [] ->
  summary_reply env = Ok reply ->
  ai_service.summary_of_reply lib "comprehensive" reply = Ok sd ->
  let c := content_row env x s extracted (database.next_content (database.seqs (db w))) in
  let row := summary_row sd (database.next_summary (database.seqs (db w))) (Content.id c) in
  exists d w1,
    submit lib env s w = (Ok d, w1)
    /\ database.contents (database.committed (db w1))
       = database.contents (database.current (db w)) ++ [c]
    /\ database.summaries (database.committed (db w1))
       = database.summaries (database.current (db w)) ++ [row]
    /\ database.current (db w1) = database.committed (db w1)
    /\ database.next_content (database.seqs (db w1)) = Content.id c + 1
    /\ content_id d = Content.id c
    /\ title d = Extracted.title extracted
    /\ source_type d = extractors.get_source_type x
    /\ summary d = Some (view row).
Proof.
  intros ((Hkc & Hks) & _) Hext Hx Hnew Hreply Hsd c row.
  pose proof (attempt_cases lib env s w) as Hcases.
  rewrite Hext, Hnew in Hcases.
  rewrite (ingest_run lib env s extracted w x reply sd Hx Hreply Hsd) in Hcases.
  fold c row in Hcases.
  set (w2 := with_summary row (logged GenerateSummary (with_content c w))) in *.
  pose proof (keeps_categorize_content lib env (Content.id c) sd w2) as Hk.
  set (w3 := snd (theme_service.categorize_content lib env (Content.id c) sd w2)) in *.
  destruct Hk as (Hm3 & Hc3 & Hs3 & Hn3 & _).
  assert (Hcw : database.contents (database.current (db (after_commit w3)))
                = database.contents (database.current (db w)) ++ [c])
    by (simpl; rewrite Hc3; reflexivity).
  assert (Hsw : database.summaries (database.current (db (after_commit w3)))
                = database.summaries (database.current (db w)) ++ [row])
    by (simpl; rewrite Hs3; reflexivity).
  pose proof (details_of_new_full (after_commit w3) c _ row _ Hcw Hkc Hsw eq_refl Hks)
    as Hd.
  rewrite Hd in Hcases.
  eexists. exists (after_commit w3).
  split; [apply submit_ok; exact Hcases|].
  split; [exact Hcw|]. split; [exact Hsw|]. split; [reflexivity|].
  split; [simpl; rewrite Hn3; reflexivity|].
  repeat split.
Qed.

(** A run of [ingest] whose summary fails: the content row was added and
    the one call was made when the error comes back. *)
Lemma ingest_summary_failure lib env s extracted w x e0 :
  factory.get_extractor lib (source s) (is_file s) = Ok x ->
  rbind (summary_reply env) (ai_service.summary_of_reply lib "comprehensive") = Raise e0 ->
  let c := content_row env x s extracted (database.next_content (database.seqs (db w))) in
  ingest lib env (source s) (is_file s) (url_column s) (path_column s) extracted
         (digest s extracted) w
  = (Raise (ai_service.wrap "Failed to generate summary: " e0),
     logged GenerateSummary (with_content c w)).
Proof.
  intros Hx He0 c.
  unfold ingest. rewrite (bind_lift_ok _ _ _ _ Hx).
  assert (Hadd : add_content env (extractors.get_source_type x) (url_column s)
                   (path_column s) extracted (digest s extracted) w
                 = (Ok c, with_content c w)) by reflexivity.
  rewrite (bind_ok _ _ _ _ _ Hadd).
  apply bind_raise. now rewrite generate_summary_run, He0.
Qed.

(** A submission that is extracted and is no duplicate, and whose summary
    fails. *)
Lemma submit_summary_failure lib env s w extracted e0 :
  extract lib env (source s) (is_file s) = Ok extracted ->
  with_hash (digest s extracted) w = [] ->
  rbind (summary_reply env) (ai_service.summary_of_reply lib "comprehensive") = Raise e0 ->
  exists w1,
    submit lib env s w
    = (Raise (mk_exn Exception
                (failure_prefix s +++ "Failed to generate summary: " +++ exn_msg e0)),
       w1)
    /\ database.committed (db w1) = database.committed (db w)
    /\ database.current (db w1) = database.committed (db w)
    /\ database.next_content (database.seqs (db w1))
       = database.next_content (database.seqs (db w)) + 1
    /\ database.next_summary (database.seqs (db w1))
       = database.next_summary (database.seqs (db w))
    /\ calls w1 = GenerateSummary :: calls w.
Proof.
  intros Hext Hnew He0.
  destruct (extract_needs_extractor _ _ _ _ _ Hext) as (x & Hx).
  pose proof (attempt_cases lib env s w) as Hcases.
  rewrite Hext, Hnew in Hcases.
  rewrite (ingest_summary_failure lib env s extracted w x e0 Hx He0) in Hcases.
  eexists. split.
  - rewrite submit_eq. unfold try_except. rewrite Hcases.
    unfold failed, bind, db_rollback, raise. reflexivity.
  - repeat split.
Qed.

End Ledger.





(** X12.  When a submission is extracted and carries a digest no stored
    row has, and the summary fails, in the request or in the validation
    of the reply, the submission raises the one error whose message is
    the prefix of the entry point, [Failed to generate summary: ] and the
    message of the cause.  Nothing is committed and the open transaction
    is back at what is committed; the call has spent one content key and
    one call to the language model, and it has spent no summary key and
    made no categorization call. *)
Theorem summary_failure_spends_key_and_call :
  forall (lib : library) (env : environment) (s : pipeline.submission) (w : world)
         (extracted : Extracted.t) (e0 : exn),
    content_processor.extract lib env (pipeline.source s) (pipeline.is_file s)
    = Ok extracted ->
    pipeline.with_hash (pipeline.digest s extracted) w = [] ->
    rbind (summary_reply env) (ai_service.summary_of_reply lib "comprehensive")
    = Raise e0 ->
    exists w1,
      pipeline.submit lib env s w
      = (Raise (mk_exn Exception
                  (pipeline.failure_prefix s +++ "Failed to generate summary: "
                   +++ exn_msg e0)),
         w1)
      /\ database.committed (db w1) = database.committed (db w)
      /\ database.current (db w1) = database.committed (db w)
      /\ database.next_content (database.seqs (db w1))
         = database.next_content (database.seqs (db w)) + 1
      /\ database.next_summary (database.seqs (db w1))
         = database.next_summary (database.seqs (db w))
      /\ calls w1 = GenerateSummary :: calls w.
Proof.
  intros lib env s w extracted e0 Hext Hnew He0.
  exact (submit_summary_failure lib env s w extracted e0 Hext Hnew He0).
Qed.

Lemma summary_failure_spends_key_and_call_witness :
  exists w1,
    pipeline.submit samples.lib samples.env_down samples.page samples.empty_world
    = (Raise (mk_exn Exception
                "Failed to process URL: Failed to generate summary: Connection error."),
       w1)
    /\ database.next_content (database.seqs (db w1)) = 2
    /\ calls w1 = [GenerateSummary].
Proof.
  destruct (summary_failure_spends_key_and_call samples.lib samples.env_down samples.page
              samples.empty_world samples.article
              (mk_exn Exception "Connection error.") eq_refl eq_refl eq_refl)
    as (w1 & Hsub & _ & _ & Hn & _ & Hcalls).
  exists w1. split; [exact Hsub|]. split; [exact Hn|exact Hcalls].
Defined.

(** X13.  A reply that parses to a dictionary without [overview], or with
    [overview] and without [key_insights], is refused where unparseable
    prose is accepted: the submission raises the error that names the
    missing key, and nothing of it is committed or left in the open
    transaction. *)
Theorem incomplete_summary_is_rejected :
  forall (lib : library) (env : environment) (s : pipeline.submission) (w : world)
         (extracted : Extracted.t) (reply : llm_reply) (kv : list (string * json))
         (missing : string),
    content_processor.extract lib env (pipeline.source s) (pipeline.is_file s)
    = Ok extracted ->
    pipeline.with_hash (pipeline.digest s extracted) w = [] ->
    summary_reply env = Ok reply ->
    json_loads lib (ai_service.strip_fence (reply_text reply)) = Some (JObj kv) ->
    (py.lookup kv "overview" = None /\ missing = "overview")
    \/ (py.lookup kv "overview" <> None /\ py.lookup kv "key_insights" = None
        /\ missing = "key_insights") ->
    exists w1,
      pipeline.submit lib env s w
      = (Raise (mk_exn Exception
                  (pipeline.failure_prefix s
                   +++ "Failed to generate summary: Missing '" +++ missing
                   +++ "' in summary")),
         w1)
      /\ database.committed (db w1) = database.committed (db w)
      /\ database.current (db w1) = database.committed (db w).
Proof.
  intros lib env s w extracted reply kv missing Hext Hnew Hreply Hparse Hmiss.
  assert (He0 : rbind (summary_reply env) (ai_service.summary_of_reply lib "comprehensive")
                = Raise (mk_exn ValueError ("Missing '" +++ missing +++ "' in summary"))).
  { rewrite Hreply. cbn [rbind]. unfold ai_service.summary_of_reply.
    change (String.eqb "comprehensive" "comprehensive") with true. cbv iota.
    rewrite Hparse. cbn [py.contains rbind].
    destruct Hmiss as [(Ho & ->) | (Ho & Hk & ->)].
    - now rewrite Ho.
    - destruct (py.lookup kv "overview"); [|contradiction].
      cbn [negb]. now rewrite Hk. }
  destruct (submit_summary_failure lib env s w extracted _ Hext Hnew He0)
    as (w1 & Hsub & Hc & Hcur & _).
  exists w1. split; [|split; assumption].
  rewrite Hsub. reflexivity.
Qed.

(** The reply [{"overview": "o"}] has no key insights. *)
Lemma incomplete_summary_is_rejected_witness :
  let text := "{" +++ samples.quoted "overview" +++ ": " +++ samples.quoted "o" +++ "}" in
  let lib := {| urlparse_netloc := samples.host_of;
                json_loads := fun t => if String.eqb t text
                                       then Some (JObj [("overview", JStr "o")])
                                       else None |} in
  let env := samples.env (samples.reply text 5) samples.unreachable samples.unreachable in
  exists w1,
    pipeline.submit lib env samples.page samples.empty_world
    = (Raise (mk_exn Exception
                ("Failed to process URL: Failed to generate summary: "
                 +++ "Missing 'key_insights' in summary")),
       w1)
    /\ database.committed (db w1) = samples.no_tables
    /\ database.current (db w1) = samples.no_tables.
Proof.
  intros text lib env.
  apply (incomplete_summary_is_rejected lib env samples.page samples.empty_world
           samples.article {| reply_text := text; output_tokens := 5 |}
           [("overview", JStr "o")] "key_insights");
    try reflexivity.
  right. split; [discriminate|]. split; reflexivity.
Defined.

(** ** Digests stay unique *)

Section Uniqueness.
Import pipeline content_processor ledger.

Lemma NoDup_snoc {A} (l : list A) (a : A) : NoDup l -> ~ In a l -> NoDup (l ++ [a]).
Proof.
  induction 1 as [|x l Hx Hl IH]; intros Ha; simpl.
  - constructor; [intros []|constructor].
  - constructor.
    + rewrite in_app_iff. intros [H | [H | []]]; [contradiction|].
      subst. apply Ha. now left.
    + apply IH. intros H. apply Ha. now right.
Qed.

Lemma no_row_no_hash h l :
  filter (has_hash h) l = [] -> ~ In h (map Content.content_hash l).
Proof.
  intros Hf Hin. apply in_map_iff in Hin. destruct Hin as (c & Hc & Hl).
  assert (Hin : In c (filter (has_hash h) l)).
  { apply filter_In. split; [exact Hl|]. unfold has_hash. now apply String.eqb_eq. }
  rewrite Hf in Hin. contradiction.
Qed.

Lemma grown_unique w l' :
  hashes_unique (database.current (db w)) -> grown_by_new w l' ->
  NoDup (map Content.content_hash l').
Proof.
  intros Hu [-> | (c & -> & Hnew)]; [exact Hu|].
  rewrite map_app. apply NoDup_snoc; [exact Hu|].
  now apply no_row_no_hash.
Qed.

Lemma rbind_ok {A B} (r : result A) (f : A -> result B) b :
  rbind r f = Ok b -> exists a, r = Ok a /\ f a = Ok b.
Proof. destruct r as [a|e]; simpl; [eauto|discriminate]. Qed.

(** Where the [try] block of a submission leaves the contents: what is
    committed is what was, or what the session showed, grown by the new
    row; what the session shows is what it showed, grown at most by the
    new row. *)
Lemma attempt_contents lib env s w r wa :
  attempt lib env s w = (r, wa) ->
  (database.contents (database.committed (db wa))
   = database.contents (database.committed (db w))
   \/ grown_by_new w (database.contents (database.committed (db wa))))
  /\ grown_by_new w (database.contents (database.current (db wa))).
Proof.
  intros Ha. pose proof (attempt_cases lib env s w) as Hcases.
  destruct (extract lib env (source s) (is_file s)) as [extracted|e] eqn:Hext.
  - destruct (with_hash (digest s extracted) w) as [|c0 [|c1 rest]] eqn:Hnew.
    + rewrite Hcases in Ha. clear Hcases.
      destruct (factory.get_extractor lib (source s) (is_file s)) as [x|e] eqn:Hx.
      * destruct (rbind (summary_reply env)
                        (ai_service.summary_of_reply lib "comprehensive"))
          as [sd|e0] eqn:Hsum.
        -- destruct (rbind_ok _ _ _ Hsum) as (reply & Hreply & Hsd).
           rewrite (ingest_run lib env s extracted w x reply sd Hx Hreply Hsd) in Ha.
           rewrite details_run in Ha. injection Ha as _ <-.
           match goal with
           | |- context [theme_service.categorize_content ?l ?e ?i ?d ?w2] =>
               pose proof (keeps_categorize_content l e i d w2) as Hk
           end.
           destruct Hk as (_ & Hc3 & _).
           split; [right|];
             (right; eexists; split; [simpl; rewrite Hc3; reflexivity|exact Hnew]).
        -- rewrite (ingest_summary_failure lib env s extracted w x e0 Hx Hsum) in Ha.
           injection Ha as _ <-. split; [now left|].
           right. eexists. split; [reflexivity|exact Hnew].
      * pose proof (ingest_outcome lib env (source s) (is_file s) (url_column s)
                      (path_column s) extracted (digest s extracted) w) as Hin.
        rewrite Hx in Hin. rewrite Hin in Ha. injection Ha as _ <-.
        split; left; reflexivity.
    + rewrite Hcases, details_run in Ha. injection Ha as _ <-.
      split; left; reflexivity.
    + destruct Hcases as (e & He). rewrite He in Ha. injection Ha as _ <-.
      split; left; reflexivity.
  - rewrite Hcases in Ha. injection Ha as _ <-. split; left; reflexivity.
Qed.

End Uniqueness.

(** X14.  No two content rows come to carry the same digest: when the
    digests are unique in what is committed and in what the session
    shows, they are unique in both after a submission, whether it
    returned a new row, returned a stored one or failed. *)
Theorem content_hashes_stay_unique :
  forall (lib : library) (env : environment) (s : pipeline.submission) (w : world),
    ledger.hashes_unique (database.current (db w)) ->
    ledger.hashes_unique (database.committed (db w)) ->
    let w1 := snd (pipeline.submit lib env s w) in
    ledger.hashes_unique (database.current (db w1))
    /\ ledger.hashes_unique (database.committed (db w1)).
Proof.
  intros lib env s w Hcur Hcom w1. unfold w1. clear w1.
  rewrite submit_eq. unfold try_except.
  destruct (pipeline.attempt lib env s w) as [[d|cause] wa] eqn:Ha;
    destruct (attempt_contents lib env s w _ wa Ha) as (Hm & Hc).
  - cbn [snd]. split.
    + exact (grown_unique w _ Hcur Hc).
    + destruct Hm as [Hm | Hm]; [unfold ledger.hashes_unique; now rewrite Hm|].
      exact (grown_unique w _ Hcur Hm).
  - unfold content_processor.failed, bind, db_rollback, raise. cbn [snd db].
    unfold database.rollback. cbn [database.current database.committed].
    assert (Hu : ledger.hashes_unique (database.committed (db wa))).
    { destruct Hm as [Hm | Hm]; [unfold ledger.hashes_unique; now rewrite Hm|].
      exact (grown_unique w _ Hcur Hm). }
    split; exact Hu.
Qed.

(** The second of two submissions of one page finds the digest stored. *)
Lemma content_hashes_stay_unique_witness :
  let w := snd (pipeline.submit samples.lib samples.env_ok samples.page
                  samples.empty_world) in
  ledger.hashes_unique (database.current (db w))
  /\ ledger.hashes_unique (database.committed (db w))
  /\ ledger.hashes_unique
       (database.committed
          (db (snd (pipeline.submit samples.lib samples.env_ok samples.page w)))).
Proof.
  intros w.
  assert (H0 : ledger.hashes_unique samples.no_tables) by constructor.
  destruct (content_hashes_stay_unique samples.lib samples.env_ok samples.page
              samples.empty_world H0 H0) as (H1 & H2).
  split; [exact H1|]. split; [exact H2|].
  exact (proj2 (content_hashes_stay_unique samples.lib samples.env_ok samples.page
                  w H1 H2)).
Defined.

(** ** The requests a categorization sends *)

Section Requests.
Import theme_service catalogue.

Lemma silent_ret {A} (a : A) : silent (ret a).
Proof. intros w. reflexivity. Qed.

Lemma silent_lift {A} (r : result A) : silent (lift r).
Proof. intros w. reflexivity. Qed.

Lemma silent_bind {A B} (m : M A) (k : A -> M B) :
  silent m -> (forall a, silent (k a)) -> silent (bind m k).
Proof.
  intros Hm Hk w. unfold bind. specialize (Hm w).
  destruct (m w) as [[a|e] w1]; simpl in *; [|exact Hm].
  now rewrite Hk.
Qed.

(** After a computation, a silent continuation leaves the record of the
    calls as the computation left it. *)
Lemma calls_bind {A B} (m : M A) (k : A -> M B) w :
  (forall a, silent (k a)) -> calls (snd (bind m k w)) = calls (snd (m w)).
Proof.
  intros Hk. unfold bind. destruct (m w) as [[a|e] w1]; simpl; [apply Hk|reflexivity].
Qed.

Lemma calls_try_ret {A} (m : M A) (a : A) w :
  calls (snd (try_except m (fun _ => ret a) w)) = calls (snd (m w)).
Proof. unfold try_except. destruct (m w) as [[x|e] w1]; reflexivity. Qed.

Lemma silent_create_theme env name description : silent (_create_theme env name description).
Proof. intros w. reflexivity. Qed.

Lemma silent_add_content_theme content_id theme_id confidence :
  silent (add_content_theme content_id theme_id confidence).
Proof. intros w. reflexivity. Qed.

Lemma silent_increment theme_id : silent (increment_content_count theme_id).
Proof. intros w. reflexivity. Qed.

Lemma silent_create_proposed env proposed : silent (create_proposed env proposed).
Proof.
  induction proposed as [|theme_data rest IH]; simpl; [apply silent_ret|].
  apply silent_bind; [apply silent_lift|]. intros name.
  apply silent_bind; [apply silent_lift|]. intros description.
  apply silent_bind; [apply silent_create_theme|]. intros _. exact IH.
Qed.

Lemma silent_create_suggested env content_id names : forall assigned,
  silent (create_suggested env content_id names assigned).
Proof.
  induction names as [|theme_name rest IH]; intros assigned; simpl; [apply silent_ret|].
  apply silent_bind; [apply silent_create_theme|]. intros theme.
  apply silent_bind; [apply silent_add_content_theme|]. intros _. apply IH.
Qed.

Lemma silent_process_matches content_id matches : forall assigned,
  silent (process_matches content_id matches assigned).
Proof.
  induction matches as [|m rest IH]; intros assigned; simpl; [apply silent_ret|].
  apply silent_bind; [apply silent_lift|]. intros theme_id.
  apply silent_bind; [apply silent_lift|]. intros confidence.
  apply silent_bind; [apply silent_lift|]. intros above.
  destruct (above && py.truthy theme_id); [|apply IH].
  apply silent_bind; [apply silent_add_content_theme|]. intros _.
  apply silent_bind; [apply silent_increment|]. intros _. apply IH.
Qed.

(** One run of [bootstrap_themes]: the call is recorded, and an error of
    the prompt, of the request or of the log line comes back wrapped. *)
Lemma bootstrap_run lib env summaries w :
  ai_service.bootstrap_themes lib env summaries w
  = (match rbind (prompts.get_theme_bootstrap_prompt summaries)
                 (fun _ => rbind (bootstrap_reply env) (ai_service.themes_of_reply lib)) with
     | Ok t => Ok t
     | Raise e => Raise (ai_service.wrap "Failed to bootstrap themes: " e)
     end, logged BootstrapThemes w).
Proof.
  unfold ai_service.bootstrap_themes, bind, try_except, record_call, lift, raise,
    logged, rbind.
  destruct (prompts.get_theme_bootstrap_prompt summaries); [|reflexivity].
  destruct (bootstrap_reply env) as [reply|e]; [|reflexivity].
  destruct (ai_service.themes_of_reply lib reply); reflexivity.
Qed.

(** The bootstrap asks the language model once when there is a summary to
    show it, and not at all when there is none. *)
Lemma bootstrap_calls lib env w :
  calls (snd (_bootstrap_themes lib env w))
  = if is_nil (recent_summaries (database.current (db w)))
    then calls w else BootstrapThemes :: calls w.
Proof.
  unfold _bootstrap_themes. rewrite calls_try_ret.
  unfold bootstrap_body. unfold bind at 1. unfold get_tables at 1.
  destruct (recent_summaries (database.current (db w))) as [|s0 rest]; [reflexivity|].
  cbn [is_nil]. rewrite calls_bind.
  - now rewrite bootstrap_run.
  - intros themes. apply silent_bind; [apply silent_lift|].
    intros proposed. apply silent_create_proposed.
Qed.

Lemma load_themes_idle lib env w :
  bootstrap_due (database.current (db w)) = false ->
  load_themes lib env w = (Ok (database.themes (database.current (db w))), w).
Proof.
  unfold bootstrap_due, load_themes, bind, get_tables, ret. intros H.
  destruct (Z.of_nat (List.length (database.themes (database.current (db w)))) <? 5);
    [|reflexivity].
  simpl in H. now rewrite H.
Qed.

Lemma load_themes_due lib env w :
  bootstrap_due (database.current (db w)) = true ->
  load_themes lib env w
  = (Ok (database.themes (database.current (db (snd (_bootstrap_themes lib env w))))),
     snd (_bootstrap_themes lib env w)).
Proof.
  unfold bootstrap_due, load_themes. intros H. apply andb_true_iff in H.
  destruct H as (H1 & H2). unfold bind at 1. unfold get_tables at 1.
  rewrite H1, H2. unfold bind at 1. rewrite bootstrap_outcome. reflexivity.
Qed.

(** What the [try] block of [categorize_content] adds to the record of
    the calls, after the themes were loaded. *)
Lemma categorize_body_calls lib env content_id summary w existing w1 :
  load_themes lib env w = (Ok existing, w1) ->
  calls (snd (categorize_body lib env content_id summary w))
  = if is_nil existing then calls w1 else CategorizeContent :: calls w1.
Proof.
  intros Hload. unfold categorize_body. rewrite (bind_ok _ _ _ _ _ Hload).
  destruct (is_nil existing).
  - assert (Hs : silent (suggested_themes <- lift (py.get summary "suggested_themes"
                                                          (JArr [])) ;;
                         first3 <- lift (py.upto 3 suggested_themes) ;;
                         names <- lift (py.iter first3) ;;
                         create_suggested env content_id names [])).
    { apply silent_bind; [apply silent_lift|]. intros suggested.
      apply silent_bind; [apply silent_lift|]. intros first3.
      apply silent_bind; [apply silent_lift|]. intros names.
      apply silent_create_suggested. }
    apply Hs.
  - rewrite calls_bind; [now rewrite categorize_run|].
    intros categorization.
    apply silent_bind; [apply silent_lift|]. intros theme_matches.
    apply silent_bind; [apply silent_lift|]. intros matches.
    apply silent_bind; [apply silent_process_matches|]. intros assigned.
    apply silent_bind; [apply silent_lift|]. intros suggestion.
    destruct (py.truthy suggestion && is_nil assigned); [|apply silent_ret].
    apply silent_bind; [apply silent_lift|]. intros name.
    apply silent_bind; [apply silent_lift|]. intros description.
    apply silent_bind; [apply silent_create_theme|]. intros theme.
    apply silent_bind; [apply silent_add_content_theme|]. intros _. apply silent_ret.
Qed.

Lemma categorize_content_world lib env content_id summary w :
  snd (categorize_content lib env content_id summary w)
  = snd (categorize_body lib env content_id summary w).
Proof.
  rewrite categorize_content_outcome.
  destruct (categorize_body lib env content_id summary w) as [[ids|e] w']; reflexivity.
Qed.

End Requests.

(** X15.  One categorization sends at most one bootstrap request and at
    most one categorization request, the bootstrap first.  With five
    themes or more, or with at least one theme and fewer than ten
    associations, it sends exactly the one categorization request; with
    no theme and fewer than ten associations it sends none; with fewer
    than five themes, at least ten associations and a summary in the
    table it sends the bootstrap request. *)
Theorem categorization_request_budget :
  forall (lib : library) (env : environment) (content_id : Z) (summary : json) (w : world),
    let w' := snd (theme_service.categorize_content lib env content_id summary w) in
    let t := database.current (db w) in
    let n_themes := Z.of_nat (List.length (database.themes t)) in
    let n_links := Z.of_nat (List.length (database.content_themes t)) in
    (exists made,
        calls w' = made ++ calls w
        /\ (made = [] \/ made = [CategorizeContent] \/ made = [BootstrapThemes]
            \/ made = [CategorizeContent; BootstrapThemes]))
    /\ (5 <= n_themes -> calls w' = CategorizeContent :: calls w)
    /\ (1 <= n_themes -> n_links < 10 -> calls w' = CategorizeContent :: calls w)
    /\ (n_themes = 0 -> n_links < 10 -> calls w' = calls w)
    /\ (n_themes < 5 -> 10 <= n_links -> database.summaries t <> [] ->
        exists made,
          calls w' = made ++ BootstrapThemes :: calls w
          /\ (made = [] \/ made = [CategorizeContent])).
Proof.
  intros lib env content_id summary w w' t n_themes n_links.
  unfold w'. rewrite categorize_content_world.
  assert (Hidle : catalogue.bootstrap_due t = false ->
                  calls (snd (theme_service.categorize_body lib env content_id summary w))
                  = if theme_service.is_nil (database.themes t)
                    then calls w else CategorizeContent :: calls w).
  { intros Hd.
    exact (categorize_body_calls lib env content_id summary w _ w
             (load_themes_idle lib env w Hd)). }
  assert (Hdue : catalogue.bootstrap_due t = true ->
                 exists made,
                   calls (snd (theme_service.categorize_body lib env content_id summary w))
                   = made ++ calls (snd (theme_service._bootstrap_themes lib env w))
                   /\ (made = [] \/ made = [CategorizeContent])).
  { intros Hd.
    rewrite (categorize_body_calls lib env content_id summary w _ _
               (load_themes_due lib env w Hd)).
    match goal with
    | |- context [theme_service.is_nil ?l] => destruct (theme_service.is_nil l)
    end; [exists []|exists [CategorizeContent]]; (split; [reflexivity|tauto]). }
  pose proof (bootstrap_calls lib env w) as Hboot. fold t in Hboot.
  assert (Hnil : theme_service.is_nil (database.themes t) = true -> n_themes = 0).
  { unfold n_themes. destruct (database.themes t); [reflexivity|discriminate]. }
  assert (Hcons : theme_service.is_nil (database.themes t) = false -> 1 <= n_themes).
  { unfold n_themes. destruct (database.themes t); [discriminate|].
    intros _. simpl List.length. lia. }
  split; [|split; [|split; [|split]]].
  - destruct (catalogue.bootstrap_due t) eqn:Hd.
    + destruct (Hdue eq_refl) as (made & Hc & Hm). rewrite Hc, Hboot.
      destruct (theme_service.is_nil (theme_service.recent_summaries t)).
      * exists made. split; [reflexivity|]. destruct Hm as [-> | ->]; tauto.
      * exists (made ++ [BootstrapThemes]). rewrite <- app_assoc.
        split; [reflexivity|]. destruct Hm as [-> | ->]; simpl; tauto.
    + rewrite (Hidle eq_refl).
      destruct (theme_service.is_nil (database.themes t));
        [exists []|exists [CategorizeContent]]; (split; [reflexivity|tauto]).
  - intros H5.
    assert (Hd : catalogue.bootstrap_due t = false).
    { unfold catalogue.bootstrap_due. fold n_themes.
      destruct (n_themes <? 5) eqn:E; [apply Z.ltb_lt in E; lia|reflexivity]. }
    rewrite (Hidle Hd).
    destruct (theme_service.is_nil (database.themes t)) eqn:En; [|reflexivity].
    specialize (Hnil eq_refl). lia.
  - intros H1 Hfew.
    assert (Hd : catalogue.bootstrap_due t = false).
    { unfold catalogue.bootstrap_due, theme_service.BOOTSTRAP_COUNT. fold n_links.
      destruct (10 <=? n_links) eqn:E; [apply Z.leb_le in E; lia|apply andb_false_r]. }
    rewrite (Hidle Hd).
    destruct (theme_service.is_nil (database.themes t)) eqn:En; [|reflexivity].
    specialize (Hnil eq_refl). lia.
  - intros H0 Hfew.
    assert (Hd : catalogue.bootstrap_due t = false).
    { unfold catalogue.bootstrap_due, theme_service.BOOTSTRAP_COUNT. fold n_links.
      destruct (10 <=? n_links) eqn:E; [apply Z.leb_le in E; lia|apply andb_false_r]. }
    rewrite (Hidle Hd).
    destruct (theme_service.is_nil (database.themes t)) eqn:En; [reflexivity|].
    specialize (Hcons eq_refl). lia.
  - intros Hlt Hmany Hsum.
    assert (Hd : catalogue.bootstrap_due t = true).
    { unfold catalogue.bootstrap_due, theme_service.BOOTSTRAP_COUNT.
      fold n_themes n_links. apply andb_true_iff.
      split; [now apply Z.ltb_lt|now apply Z.leb_le]. }
    destruct (Hdue Hd) as (made & Hc & Hm). exists made. split; [|exact Hm].
    rewrite Hc, Hboot.
    assert (Hrs : theme_service.is_nil (theme_service.recent_summaries t) = false).
    { unfold theme_service.recent_summaries.
      destruct (database.summaries t) as [|s0 l] eqn:Hs; [contradiction|].
      destruct (rev (s0 :: l)) as [|r0 l'] eqn:Hr; [|reflexivity].
      apply (f_equal (@List.length _)) in Hr. rewrite length_rev in Hr.
      discriminate. }
    now rewrite Hrs.
Qed.

(** ** What a bootstrap leaves *)

Section Bootstrap.
Import theme_service catalogue taxonomy.

Lemma getitem_named theme_data name :
  py.getitem theme_data "name" = Ok name -> named theme_data.
Proof.
  destruct theme_data as [| | | | |kv]; try discriminate.
  cbn [py.getitem]. destruct (py.lookup kv "name") as [n|] eqn:E; [|discriminate].
  intros _. now exists kv, n.
Qed.

Lemma named_getitem theme_data :
  named theme_data ->
  exists name description,
    py.getitem theme_data "name" = Ok name
    /\ py.get theme_data "description" JNull = Ok description
    /\ field theme_data "name" JNull = name.
Proof.
  intros (kv & name & -> & Hn). exists name. eexists.
  cbn [py.getitem py.get field]. rewrite Hn. repeat split.
Qed.

Lemma proposed_themes_count env proposed : forall first,
  Forall (fun th => Theme.content_count th = 1) (proposed_themes env first proposed).
Proof.
  induction proposed as [|theme_data rest IH]; intros first; cbn [proposed_themes];
    [constructor|].
  destruct (py.getitem theme_data "name"); [|constructor].
  destruct (py.get theme_data "description" JNull); [|constructor].
  constructor; [reflexivity|apply IH].
Qed.

Lemma proposed_themes_prefix env good bad rest : forall first,
  Forall named good -> ~ named bad ->
  map Theme.name (proposed_themes env first (good ++ bad :: rest))
  = map (fun theme_data => field theme_data "name" JNull) good.
Proof.
  induction good as [|g good IH]; intros first Hgood Hbad.
  - cbn [app proposed_themes map].
    destruct (py.getitem bad "name") as [name|e] eqn:E; [|reflexivity].
    exfalso. apply Hbad. exact (getitem_named _ _ E).
  - inversion Hgood as [|? ? Hg Hgood']; subst.
    destruct (named_getitem g Hg) as (name & description & Hn & Hd & Hf).
    cbn [app proposed_themes]. rewrite Hn, Hd. cbn [map Theme.name theme_from].
    now rewrite Hf, IH.
Qed.

Lemma proposed_themes_all env proposed : forall first,
  Forall named proposed ->
  List.length (proposed_themes env first proposed) = List.length proposed.
Proof.
  induction proposed as [|g rest IH]; intros first Hall; [reflexivity|].
  inversion Hall as [|? ? Hg Hrest]; subst.
  destruct (named_getitem g Hg) as (name & description & Hn & Hd & _).
  cbn [proposed_themes]. rewrite Hn, Hd. simpl. now rewrite IH.
Qed.

(** The loop of the bootstrap: it creates the themes of the entries it
    can read and stops, raising, at the first it cannot. *)
Lemma create_proposed_spec env proposed : forall w,
  exists r w',
    create_proposed env proposed w = (r, w')
    /\ database.themes (database.current (db w'))
       = database.themes (database.current (db w))
         ++ proposed_themes env (database.next_theme (database.seqs (db w))) proposed
    /\ database.content_themes (database.current (db w'))
       = database.content_themes (database.current (db w))
    /\ database.committed (db w') = database.committed (db w)
    /\ calls w' = calls w.
Proof.
  induction proposed as [|theme_data rest IH]; intros w.
  - exists (Ok tt), w. simpl. rewrite app_nil_r. repeat split.
  - cbn [create_proposed proposed_themes].
    destruct (py.getitem theme_data "name") as [name|e] eqn:Hn.
    + rewrite (bind_lift_ok _ _ _ _ eq_refl).
      destruct (py.get theme_data "description" JNull) as [description|e] eqn:Hd.
      * rewrite (bind_lift_ok _ _ _ _ eq_refl).
        destruct (create_theme_spec env name description w)
          as (w1 & Hct & Ht1 & Hl1 & Hn1 & _ & Hc1).
        pose proof (keeps_create_theme env name description w) as Hk.
        rewrite Hct in Hk. destruct Hk as (Hm1 & _).
        rewrite (bind_ok _ _ _ _ _ Hct).
        destruct (IH w1) as (r & w' & Hrun & Ht & Hl & Hm & Hc).
        exists r, w'. rewrite Hrun, Ht, Hl, Hm, Hc, Ht1, Hl1, Hn1, Hc1.
        cbn [snd] in Hm1. rewrite Hm1, <- app_assoc. repeat split.
      * rewrite (bind_lift_raise _ _ _ _ eq_refl).
        eexists. exists w. rewrite app_nil_r. repeat split.
    + rewrite (bind_lift_raise _ _ _ _ eq_refl).
      eexists. exists w. rewrite app_nil_r. repeat split.
Qed.

(** A bootstrap that gets the proposed themes from the language model *)
Lemma bootstrap_creates lib env w proposed :
  recent_summaries (database.current (db w)) <> [] ->
  rbind (prompts.get_theme_bootstrap_prompt
           (map summary_dict (recent_summaries (database.current (db w)))))
        (fun _ => rbind (bootstrap_reply env) (ai_service.themes_of_reply lib))
  = Ok (JArr proposed) ->
  exists w',
    _bootstrap_themes lib env w = (Ok tt, w')
    /\ database.themes (database.current (db w'))
       = database.themes (database.current (db w))
         ++ proposed_themes env (database.next_theme (database.seqs (db w))) proposed
    /\ database.content_themes (database.current (db w'))
       = database.content_themes (database.current (db w))
    /\ database.committed (db w') = database.committed (db w)
    /\ calls w' = BootstrapThemes :: calls w.
Proof.
  intros Hsum Hreply.
  rewrite bootstrap_outcome. eexists. split; [reflexivity|].
  unfold bootstrap_body.
  rewrite (bind_ok _ _ _ _ _ (eq_refl : get_tables w = (Ok (database.current (db w)), w))).
  revert Hreply.
  destruct (recent_summaries (database.current (db w))) as [|s0 l]; [contradiction|].
  intros Hreply.
  assert (Hb : ai_service.bootstrap_themes lib env (map summary_dict (s0 :: l)) w
               = (Ok (JArr proposed), logged BootstrapThemes w))
    by (rewrite bootstrap_run, Hreply; reflexivity).
  rewrite (bind_ok _ _ _ _ _ Hb).
  rewrite (bind_lift_ok _ _ _ _ (eq_refl : py.iter (JArr proposed) = Ok proposed)).
  destruct (create_proposed_spec env proposed (logged BootstrapThemes w))
    as (r & w' & Hrun & Ht & Hl & Hm & Hc).
  rewrite Hrun. cbn [snd]. rewrite Ht, Hl, Hm, Hc. repeat split.
Qed.

End Bootstrap.



(** ** The taxonomy only grows *)

Section Growth.
Import theme_service catalogue.

Lemma same_theme_refl a : same_theme a a.
Proof. unfold same_theme. repeat split; lia. Qed.

Lemma same_theme_trans a b c : same_theme a b -> same_theme b c -> same_theme a c.
Proof.
  intros (i1 & n1 & d1 & c1 & k1) (i2 & n2 & d2 & c2 & k2).
  unfold same_theme. repeat split; try congruence. lia.
Qed.

Lemma same_themes_refl l : Forall2 same_theme l l.
Proof. induction l; constructor; [apply same_theme_refl|assumption]. Qed.

Lemma same_themes_trans l1 : forall l2 l3,
  Forall2 same_theme l1 l2 -> Forall2 same_theme l2 l3 -> Forall2 same_theme l1 l3.
Proof.
  induction l1 as [|a l1 IH]; intros l2 l3 H12 H23.
  - inversion H12; subst. inversion H23; subst. constructor.
  - inversion H12 as [|? b ? l2' Hab H12']; subst.
    inversion H23 as [|? c ? l3' Hbc H23']; subst.
    constructor; [exact (same_theme_trans _ _ _ Hab Hbc)|exact (IH _ _ H12' H23')].
Qed.

Lemma same_themes_bump theme_id l : Forall2 same_theme l (map (bump theme_id) l).
Proof.
  induction l as [|a l IH]; simpl; constructor; [|exact IH].
  unfold bump. destruct (id_is theme_id (Theme.id a)); [|apply same_theme_refl].
  unfold same_theme. simpl. repeat split. lia.
Qed.

Lemma grows_refl content_id w : grows content_id w w.
Proof.
  exists (database.themes (database.current (db w))), [], [].
  rewrite !app_nil_r. repeat split; [apply same_themes_refl|constructor].
Qed.

Lemma grows_same_tables content_id w w' :
  database.current (db w') = database.current (db w) -> grows content_id w w'.
Proof.
  intros H. exists (database.themes (database.current (db w))), [], [].
  rewrite H, !app_nil_r. repeat split; [apply same_themes_refl|constructor].
Qed.

Lemma grows_trans content_id w1 w2 w3 :
  grows content_id w1 w2 -> grows content_id w2 w3 -> grows content_id w1 w3.
Proof.
  intros (k1 & n1 & l1 & Ht1 & Hk1 & Hl1 & Hc1) (k2 & n2 & l2 & Ht2 & Hk2 & Hl2 & Hc2).
  rewrite Ht1 in Hk2. apply Forall2_app_inv_l in Hk2.
  destruct Hk2 as (k2a & k2b & Hka & Hkb & ->).
  exists k2a, (k2b ++ n2), (l1 ++ l2).
  split; [rewrite Ht2; now rewrite app_assoc|].
  split; [exact (same_themes_trans _ _ _ Hk1 Hka)|].
  split; [rewrite Hl2, Hl1; now rewrite app_assoc|].
  apply Forall_app. now split.
Qed.

Lemma growing_ret {A} content_id (a : A) : growing content_id (ret a).
Proof. intros w. apply grows_refl. Qed.

Lemma growing_lift {A} content_id (r : result A) : growing content_id (lift r).
Proof. intros w. apply grows_refl. Qed.

Lemma growing_raise {A} content_id (e : exn) : growing content_id (@raise A e).
Proof. intros w. apply grows_refl. Qed.

Lemma growing_bind {A B} content_id (m : M A) (k : A -> M B) :
  growing content_id m -> (forall a, growing content_id (k a)) ->
  growing content_id (bind m k).
Proof.
  intros Hm Hk w. unfold bind. specialize (Hm w).
  destruct (m w) as [[a|e] w1]; simpl in *; [|exact Hm].
  eapply grows_trans; [exact Hm|apply Hk].
Qed.

Lemma growing_try {A} content_id (m : M A) (h : exn -> M A) :
  growing content_id m -> (forall e, growing content_id (h e)) ->
  growing content_id (try_except m h).
Proof.
  intros Hm Hh w. unfold try_except. specialize (Hm w).
  destruct (m w) as [[a|e] w1]; simpl in *; [exact Hm|].
  eapply grows_trans; [exact Hm|apply Hh].
Qed.

Lemma growing_get_tables content_id : growing content_id get_tables.
Proof. intros w. apply grows_refl. Qed.

Lemma growing_record_call content_id c : growing content_id (record_call c).
Proof. intros w. now apply grows_same_tables. Qed.

Lemma growing_create_theme content_id env name description :
  growing content_id (_create_theme env name description).
Proof.
  intros w. destruct (create_theme_spec env name description w)
    as (w1 & Hrun & Ht & Hl & _).
  rewrite Hrun. cbn [snd]. eexists. eexists. exists [].
  split; [exact Ht|]. split; [apply same_themes_refl|].
  split; [now rewrite app_nil_r|constructor].
Qed.

Lemma growing_add_content_theme content_id theme_id confidence :
  growing content_id (add_content_theme content_id theme_id confidence).
Proof.
  intros w. destruct (add_content_theme_spec content_id theme_id confidence w)
    as (w1 & Hrun & Ht & Hl & _).
  rewrite Hrun. cbn [snd]. eexists. exists []. eexists.
  split; [rewrite app_nil_r; exact Ht|]. split; [apply same_themes_refl|].
  split; [exact Hl|]. constructor; [reflexivity|constructor].
Qed.

Lemma growing_increment content_id theme_id :
  growing content_id (increment_content_count theme_id).
Proof.
  intros w. destruct (increment_spec theme_id w) as (w1 & Hrun & Ht & Hl & _).
  rewrite Hrun. cbn [snd]. eexists. exists [], [].
  split; [rewrite app_nil_r; exact Ht|]. split; [apply same_themes_bump|].
  split; [now rewrite app_nil_r|constructor].
Qed.

Lemma growing_ai_categorize content_id lib env summary themes :
  growing content_id (ai_service.categorize_content lib env summary themes).
Proof. intros w. rewrite categorize_run. now apply grows_same_tables. Qed.

Lemma growing_ai_bootstrap content_id lib env summaries :
  growing content_id (ai_service.bootstrap_themes lib env summaries).
Proof. intros w. rewrite bootstrap_run. now apply grows_same_tables. Qed.

Lemma growing_create_proposed content_id env proposed :
  growing content_id (create_proposed env proposed).
Proof.
  induction proposed as [|theme_data rest IH]; simpl; [apply growing_ret|].
  apply growing_bind; [apply growing_lift|]. intros name.
  apply growing_bind; [apply growing_lift|]. intros description.
  apply growing_bind; [apply growing_create_theme|]. intros _. exact IH.
Qed.

Lemma growing_bootstrap_themes content_id lib env :
  growing content_id (_bootstrap_themes lib env).
Proof.
  unfold _bootstrap_themes. apply growing_try; [|intros e; apply growing_ret].
  unfold bootstrap_body.
  apply growing_bind; [apply growing_get_tables|]. intros t.
  destruct (recent_summaries t); [apply growing_ret|].
  apply growing_bind; [apply growing_ai_bootstrap|]. intros themes.
  apply growing_bind; [apply growing_lift|]. intros proposed.
  apply growing_create_proposed.
Qed.

Lemma growing_load_themes content_id lib env : growing content_id (load_themes lib env).
Proof.
  unfold load_themes.
  apply growing_bind; [apply growing_get_tables|]. intros t.
  destruct (Z.of_nat (List.length (database.themes t)) <? 5); [|apply growing_ret].
  destruct (BOOTSTRAP_COUNT <=? Z.of_nat (List.length (database.content_themes t)));
    [|apply growing_ret].
  apply growing_bind; [apply growing_bootstrap_themes|]. intros _.
  apply growing_bind; [apply growing_get_tables|]. intros t'. apply growing_ret.
Qed.

Lemma growing_create_suggested content_id env names : forall assigned,
  growing content_id (create_suggested env content_id names assigned).
Proof.
  induction names as [|theme_name rest IH]; intros assigned; simpl; [apply growing_ret|].
  apply growing_bind; [apply growing_create_theme|]. intros theme.
  apply growing_bind; [apply growing_add_content_theme|]. intros _. apply IH.
Qed.

Lemma growing_process_matches content_id matches : forall assigned,
  growing content_id (process_matches content_id matches assigned).
Proof.
  induction matches as [|m rest IH]; intros assigned; simpl; [apply growing_ret|].
  apply growing_bind; [apply growing_lift|]. intros theme_id.
  apply growing_bind; [apply growing_lift|]. intros confidence.
  apply growing_bind; [apply growing_lift|]. intros above.
  destruct (above && py.truthy theme_id); [|apply IH].
  apply growing_bind; [apply growing_add_content_theme|]. intros _.
  apply growing_bind; [apply growing_increment|]. intros _. apply IH.
Qed.

Lemma growing_categorize_content content_id lib env summary :
  growing content_id (categorize_content lib env content_id summary).
Proof.
  unfold categorize_content. apply growing_try; [|intros e; apply growing_ret].
  unfold categorize_body.
  apply growing_bind; [apply growing_load_themes|]. intros existing.
  destruct (is_nil existing).
  - apply growing_bind; [apply growing_lift|]. intros suggested.
    apply growing_bind; [apply growing_lift|]. intros first3.
    apply growing_bind; [apply growing_lift|]. intros names.
    apply growing_create_suggested.
  - apply growing_bind; [apply growing_ai_categorize|]. intros categorization.
    apply growing_bind; [apply growing_lift|]. intros theme_matches.
    apply growing_bind; [apply growing_lift|]. intros matches.
    apply growing_bind; [apply growing_process_matches|]. intros assigned.
    apply growing_bind; [apply growing_lift|]. intros suggestion.
    destruct (py.truthy suggestion && is_nil assigned); [|apply growing_ret].
    apply growing_bind; [apply growing_lift|]. intros name.
    apply growing_bind; [apply growing_lift|]. intros description.
    apply growing_bind; [apply growing_create_theme|]. intros theme.
    apply growing_bind; [apply growing_add_content_theme|]. intros _.
    apply growing_ret.
Qed.

End Growth.

(** X17.  A categorization only adds to the taxonomy, whatever the
    language model answers and whether or not its [try] block raises:
    every theme that was there is still there, in its place, with its
    key, name, description and colour and with a count that is not lower;
    every association that was there is still there, in its place; and
    every association that was added is one of the content at hand. *)
Theorem categorization_only_adds :
  forall (lib : library) (env : environment) (content_id : Z) (summary : json) (w : world),
    let w' := snd (theme_service.categorize_content lib env content_id summary w) in
    exists kept new_themes new_links,
      database.themes (database.current (db w')) = kept ++ new_themes
      /\ Forall2 catalogue.same_theme (database.themes (database.current (db w))) kept
      /\ database.content_themes (database.current (db w'))
         = database.content_themes (database.current (db w)) ++ new_links
      /\ Forall (fun l => ContentTheme.content_id l = content_id) new_links.
Proof.
  intros lib env content_id summary w.
  exact (growing_categorize_content content_id lib env summary w).
Qed.

(** ** A match that cannot be read *)

Section BrokenMatch.
Import theme_service taxonomy.

(** The loop over the matches, when a match that is no dictionary comes
    after matches that can be read: it raises there, with the
    associations and the counts of the matches accepted before it in the
    session. *)
Lemma process_matches_broken content_id good bad rest :
  Forall well_formed good ->
  (forall kv, bad <> JObj kv) ->
  forall assigned w,
  exists e w',
    process_matches content_id (good ++ bad :: rest) assigned w = (Raise e, w')
    /\ database.themes (database.current (db w'))
       = map (credited (filter accepted good))
             (database.themes (database.current (db w)))
    /\ database.content_themes (database.current (db w'))
       = database.content_themes (database.current (db w))
         ++ match_links content_id (database.next_content_theme (database.seqs (db w)))
                        (filter accepted good)
    /\ calls w' = calls w.
Proof.
  intros Hgood Hbad. induction Hgood as [|m good Hm _ IH]; intros assigned w.
  - cbn [app process_matches].
    destruct bad as [| | | | |kv]; try (now (exfalso; apply (Hbad kv)));
      (eexists; exists w; split; [reflexivity|]);
      cbn [filter match_links]; rewrite map_credited_nil, app_nil_r; repeat split.
  - destruct Hm as ((kv & ->) & Hnum).
    destruct (number (confidence_of (JObj kv))) as [q|] eqn:Hq; [|contradiction].
    cbn [app process_matches]. rewrite !bind_get_dict.
    change (match py.lookup kv "theme_id" with Some x => x | None => JNull end)
      with (theme_id_of (JObj kv)).
    change (match py.lookup kv "confidence" with Some x => x | None => JNum 0 end)
      with (confidence_of (JObj kv)).
    rewrite (bind_lift_ok _ _ _ _ (ge_number _ _ CONFIDENCE_LOW Hq)).
    cbn [filter].
    assert (Hacc : accepted (JObj kv)
                   = Qle_bool CONFIDENCE_LOW q && py.truthy (theme_id_of (JObj kv)))
      by (unfold accepted; now rewrite Hq).
    rewrite Hacc.
    destruct (Qle_bool CONFIDENCE_LOW q && py.truthy (theme_id_of (JObj kv))).
    + destruct (add_content_theme_spec content_id (theme_id_of (JObj kv))
                  (confidence_of (JObj kv)) w)
        as (w1 & Hadd & Ht1 & Hl1 & Hn1 & Hk1 & Hc1).
      rewrite (bind_ok _ _ _ _ _ Hadd).
      destruct (increment_spec (theme_id_of (JObj kv)) w1)
        as (w2 & Hinc & Ht2 & Hl2 & Hs2 & Hc2).
      rewrite (bind_ok _ _ _ _ _ Hinc).
      destruct (IH (assigned ++ [theme_id_of (JObj kv)]) w2)
        as (e & w' & Hrun & Ht & Hl & Hc).
      exists e, w'. rewrite Hrun, Ht, Hl, Hc.
      rewrite Ht2, Ht1, Hl2, Hl1, Hs2, Hk1, Hc2, Hc1.
      rewrite map_credited_cons. simpl.
      rewrite <- !app_assoc. simpl. repeat split.
    + apply IH.
Qed.

End BrokenMatch.



(** ** Text of a PDF *)

Section PdfText.
Import pdf.

Lemma filled_nonblank text :
  Forall (fun s => pystr.is_empty s = false) (filled text).
Proof.
  destruct text as [t|]; cbn [filled]; [|constructor].
  destruct (pystr.is_empty t) eqn:E; constructor; [exact E|constructor].
Qed.

Lemma page_parts_nonblank p :
  Forall (fun s => pystr.is_empty s = false) (page_parts p).
Proof.
  unfold page_parts. destruct (extract_text p) as [text|]; [|constructor].
  destruct (extract_tables p) as [tables|]; [|apply filled_nonblank].
  apply Forall_app. split; [apply filled_nonblank|].
  apply Forall_forall. intros s Hs. apply in_map_iff in Hs.
  destruct Hs as (t & <- & _). reflexivity.
Qed.

Lemma parts_nonblank ps :
  Forall (fun s => pystr.is_empty s = false) (flat_map page_parts ps).
Proof.
  induction ps as [|p ps IH]; [constructor|].
  cbn [flat_map]. apply Forall_app. split; [apply page_parts_nonblank|exact IH].
Qed.

Lemma join_nonblank sep x l :
  pystr.is_empty x = false -> pystr.is_empty (pystr.join sep (x :: l)) = false.
Proof.
  intros Hx. destruct x as [|c x]; [discriminate|].
  destruct l; reflexivity.
Qed.

Lemma rstrip_rstrip s : pystr.rstrip (pystr.rstrip s) = pystr.rstrip s.
Proof.
  induction s as [|c s IH]; [reflexivity|].
  cbn [pystr.rstrip].
  destruct (pystr.is_empty (pystr.rstrip s) && pystr.isspace c) eqn:E; [reflexivity|].
  cbn [pystr.rstrip]. rewrite IH, E. reflexivity.
Qed.

Lemma lstrip_fixed s :
  match s with String c _ => pystr.isspace c = false | EmptyString => True end ->
  pystr.lstrip s = s.
Proof.
  destruct s as [|c s]; [reflexivity|]. intros E. cbn [pystr.lstrip]. now rewrite E.
Qed.

Lemma lstrip_head s :
  match pystr.lstrip s with
  | String c _ => pystr.isspace c = false
  | EmptyString => True
  end.
Proof.
  induction s as [|c s IH]; [exact I|].
  cbn [pystr.lstrip]. destruct (pystr.isspace c) eqn:E; [exact IH|exact E].
Qed.

Lemma rstrip_head s :
  match s with String c _ => pystr.isspace c = false | EmptyString => True end ->
  match pystr.rstrip s with
  | String c _ => pystr.isspace c = false
  | EmptyString => True
  end.
Proof.
  destruct s as [|c s]; [intros _; exact I|]. intros E.
  cbn [pystr.rstrip]. rewrite E, andb_false_r. exact E.
Qed.

Lemma strip_strip s : pystr.strip (pystr.strip s) = pystr.strip s.
Proof.
  unfold pystr.strip.
  rewrite (lstrip_fixed _ (rstrip_head _ (lstrip_head s))).
  apply rstrip_rstrip.
Qed.

Lemma lacks_lstrip c s : paths.lacks c s = true -> paths.lacks c (pystr.lstrip s) = true.
Proof.
  induction s as [|d s IH]; [reflexivity|]. intros H.
  cbn [pystr.lstrip]. destruct (pystr.isspace d); [|exact H].
  cbn [paths.lacks] in H. apply andb_true_iff in H. apply IH, H.
Qed.

Lemma lacks_rstrip c s : paths.lacks c s = true -> paths.lacks c (pystr.rstrip s) = true.
Proof.
  induction s as [|d s IH]; [reflexivity|]. intros H.
  cbn [paths.lacks] in H. apply andb_true_iff in H. destruct H as (Hd & Hs).
  cbn [pystr.rstrip].
  destruct (pystr.is_empty (pystr.rstrip s) && pystr.isspace d); [reflexivity|].
  cbn [paths.lacks]. now rewrite Hd, (IH Hs).
Qed.

Lemma lacks_snoc c s d :
  paths.lacks c s = true -> Ascii.eqb d c = false ->
  paths.lacks c (s +++ String d EmptyString) = true.
Proof.
  intros Hs Hd. induction s as [|e s IH].
  - cbn [String.append paths.lacks]. now rewrite Hd.
  - cbn [String.append paths.lacks] in *. apply andb_true_iff in Hs.
    destruct Hs as (He & Hs). now rewrite He, (IH Hs).
Qed.

Lemma split_sep_from_lacks c s :
  forall cur, paths.lacks c cur = true ->
  Forall (fun piece => paths.lacks c piece = true) (pystr.split_sep_from c cur s).
Proof.
  induction s as [|d s IH]; intros cur Hcur.
  - constructor; [exact Hcur|constructor].
  - cbn [pystr.split_sep_from]. destruct (Ascii.eqb d c) eqn:E.
    + constructor; [exact Hcur|]. apply IH. reflexivity.
    + apply IH. now apply lacks_snoc.
Qed.

(** Every entry of [lines] is one line, stripped, and is not blank. *)
Lemma lines_shape full_text :
  Forall (fun line => paths.lacks LF line = true
                      /\ pystr.strip line = line
                      /\ pystr.is_empty line = false)
         (lines full_text).
Proof.
  unfold lines. apply Forall_forall. intros line H.
  apply in_map_iff in H. destruct H as (piece & <- & H).
  apply filter_In in H. destruct H as (Hin & Hnb).
  pose proof (split_sep_from_lacks LF full_text EmptyString eq_refl) as Hall.
  rewrite Forall_forall in Hall. specialize (Hall piece Hin).
  split; [|split].
  - unfold pystr.strip. now apply lacks_rstrip, lacks_lstrip.
  - apply strip_strip.
  - now apply negb_true_iff in Hnb.
Qed.

End PdfText.

(** X19.  [PDFExtractor.extract] never returns a blank text or a blank
    title, whatever the file holds: it returns only when some page gave a
    text or a table, and then the text is not empty and the title counts
    as true.  Each failure is an [Exception] whose message starts with
    [Failed to extract PDF: ] and names the cause: the missing file, the
    error of opening the file, or that no page gave anything. *)
Theorem pdf_extraction_is_never_blank :
  forall (file_exists : bool) (opened : result pdf.document)
         (parse_date : json -> option string) (source : string),
    match pdf.extract file_exists opened parse_date source with
    | Ok r =>
        pystr.is_empty (pdf.content r) = false
        /\ py.truthy (pdf.title r) = true
        /\ exists doc, file_exists = true /\ opened = Ok doc
                       /\ pdf.content r
                          = pystr.join (pdf.newline +++ pdf.newline)
                                       (flat_map pdf.page_parts (pdf.pages doc))
                       /\ pdf.page_count r = Z.of_nat (List.length (pdf.pages doc))
    | Raise e =>
        exn_cls e = Exception
        /\ ((file_exists = false
             /\ exn_msg e = "Failed to extract PDF: PDF file not found: " +++ source)
            \/ (file_exists = true
                /\ exists e0, opened = Raise e0
                              /\ exn_msg e = "Failed to extract PDF: " +++ str_of_exn e0)
            \/ (file_exists = true
                /\ exists doc, opened = Ok doc
                               /\ Forall (fun p => pdf.page_parts p = []) (pdf.pages doc)
                               /\ exn_msg e
                                  = "Failed to extract PDF: No text could be extracted from PDF"))
    end.
Proof.
  intros file_exists opened parse_date source. unfold pdf.extract.
  destruct file_exists; cbn [negb].
  2: { split; [reflexivity|]. left. split; reflexivity. }
  destruct opened as [doc|e0].
  2: { split; [reflexivity|]. right. left. split; [reflexivity|].
       exists e0. split; reflexivity. }
  pose proof (parts_nonblank (pdf.pages doc)) as Hparts.
  destruct (flat_map pdf.page_parts (pdf.pages doc)) as [|x l] eqn:Ex.
  - split; [reflexivity|]. right. right. split; [reflexivity|].
    exists doc. split; [reflexivity|]. split; [|reflexivity].
    clear Hparts. induction (pdf.pages doc) as [|p ps IH]; [constructor|].
    cbn [flat_map] in Ex. apply app_eq_nil in Ex. destruct Ex as (Hp & Hps).
    constructor; [exact Hp|exact (IH Hps)].
  - inversion Hparts as [|? ? Hx _]; subst.
    pose proof (join_nonblank (pdf.newline +++ pdf.newline) x l Hx) as Hfull.
    cbn [pdf.content pdf.title pdf.page_count].
    split; [exact Hfull|]. split.
    2: { exists doc. rewrite Ex. repeat split. }
    rewrite Hfull. cbn [negb]. rewrite andb_true_r.
    destruct (py.truthy (pdf.get_or _ "Title" "title")) eqn:Et; cbn [negb].
    + rewrite Et. exact Et.
    + pose proof (lines_shape (pystr.join (pdf.newline +++ pdf.newline) (x :: l))) as Hl.
      destruct (pdf.lines _) as [|first rest]; [reflexivity|].
      inversion Hl as [|? ? (_ & _ & Hne) _]; subst.
      cbn [py.truthy]. rewrite Hne. cbn [negb py.truthy]. now rewrite Hne.
Qed.

(** X20.  When the metadata of the PDF carry no title that counts as
    true, the title [PDFExtractor.extract] returns is a text of one line:
    it holds no line feed, has no white space at either end and is not
    empty (the first line of the text that is not blank, stripped, or
    [Untitled PDF]). *)
Theorem pdf_title_without_metadata_is_one_line :
  forall (doc : pdf.document) (parse_date : json -> option string) (source : string)
         (r : pdf.extraction),
    py.truthy (pdf.get_or match pdf.metadata doc with Some d => d | None => [] end
                          "Title" "title") = false ->
    pdf.extract true (Ok doc) parse_date source = Ok r ->
    exists line,
      pdf.title r = JStr line
      /\ paths.lacks pdf.LF line = true
      /\ pystr.strip line = line
      /\ pystr.is_empty line = false
      /\ (line = "Untitled PDF" \/ In line (pdf.lines (pdf.content r))).
Proof.
  intros doc parse_date source r Et.
  unfold pdf.extract. cbn [negb].
  pose proof (parts_nonblank (pdf.pages doc)) as Hparts.
  destruct (flat_map pdf.page_parts (pdf.pages doc)) as [|x l]; [discriminate|].
  inversion Hparts as [|? ? Hx _]; subst.
  pose proof (join_nonblank (pdf.newline +++ pdf.newline) x l Hx) as Hfull.
  rewrite Et, Hfull. cbn [negb andb].
  pose proof (lines_shape (pystr.join (pdf.newline +++ pdf.newline) (x :: l))) as Hl.
  intros [= <-]. cbn [pdf.title pdf.content].
  destruct (pdf.lines _) as [|first rest].
  - exists "Untitled PDF". repeat split; try reflexivity. now left.
  - inversion Hl as [|? ? (H1 & H2 & H3) _]; subst.
    exists first. cbn [py.truthy]. rewrite H3. cbn [negb].
    repeat split; try assumption. right. now left.
Qed.

Lemma pdf_title_without_metadata_is_one_line_witness :
  exists r line,
    pdf.extract true (Ok samples.scan) samples.no_date "uploads/scan.pdf" = Ok r
    /\ pdf.title r = JStr line
    /\ paths.lacks pdf.LF line = true
    /\ pystr.strip line = line
    /\ pystr.is_empty line = false.
Proof.
  assert (Hr : exists r, pdf.extract true (Ok samples.scan) samples.no_date
                           "uploads/scan.pdf" = Ok r)
    by (eexists; vm_compute; reflexivity).
  destruct Hr as (r & Hr).
  destruct (pdf_title_without_metadata_is_one_line samples.scan samples.no_date
              "uploads/scan.pdf" r eq_refl Hr) as (line & H1 & H2 & H3 & H4 & _).
  exists r, line. repeat split; assumption.
Defined.

(** ** Pages of a listing *)

Section Listing.
Import content_routes.

Lemma window_length {A} (rows : list A) (off size : nat) :
  List.length (firstn size (skipn off rows)) = Nat.min size (List.length rows - off).
Proof. now rewrite length_firstn, length_skipn. Qed.

(** The count of pages is the total divided by the size of a page,
    rounded up. *)
Lemma pages_ceiling (total size : Z) :
  1 <= size -> 0 <= total ->
  ((total + size - 1) / size - 1) * size < total <= (total + size - 1) / size * size.
Proof.
  intros Hs Ht.
  pose proof (Z.mul_div_le (total + size - 1) size ltac:(lia)).
  pose proof (Z.mul_succ_div_gt (total + size - 1) size ltac:(lia)).
  nia.
Qed.

Lemma build_items_length {A B} (build : A -> result B) (contents : list A) :
  forall items, build_items build contents = Ok items ->
                List.length items = List.length contents.
Proof.
  induction contents as [|c rest IH]; intros items H.
  - injection H as <-. reflexivity.
  - cbn [build_items] in H. destruct (build c) as [item|e]; [|discriminate].
    cbn [rbind] in H.
    destruct (build_items build rest) as [items'|e]; [|discriminate].
    cbn [rbind] in H. injection H as <-. cbn [List.length]. now rewrite (IH items').
Qed.

End Listing.



(** ** Deleting a content *)

Section Deleting.
Import content_routes.

Lemma filter_other {A} (key : A -> Z) (a b : Z) (l : list A) :
  a <> b ->
  filter (fun x => key x =? a) (filter (fun x => negb (key x =? b)) l)
  = filter (fun x => key x =? a) l.
Proof.
  intros Hab. induction l as [|x l IH]; [reflexivity|].
  cbn [filter]. destruct (key x =? b) eqn:Eb; cbn [negb filter].
  - apply Z.eqb_eq in Eb. destruct (key x =? a) eqn:Ea; [|exact IH].
    apply Z.eqb_eq in Ea. congruence.
  - now rewrite IH.
Qed.

Lemma filter_same {A} (key : A -> Z) (b : Z) (l : list A) :
  filter (fun x => key x =? b) (filter (fun x => negb (key x =? b)) l) = [].
Proof.
  induction l as [|x l IH]; [reflexivity|].
  cbn [filter]. destruct (key x =? b) eqn:Eb; cbn [negb filter]; [exact IH|].
  now rewrite Eb.
Qed.

(** What [delete_content] does when the key names one content row *)
Lemma delete_content_found os_remove content_id s c :
  filter (fun c => Content.id c =? content_id)
         (database.contents (database.current (db (session s)))) = [c] ->
  delete_content os_remove content_id s
  = (Sent tt,
     {| session :=
          {| db := {| database.committed :=
                        delete_rows content_id (database.current (db (session s)));
                      database.current :=
                        delete_rows content_id (database.current (db (session s)));
                      database.seqs := database.seqs (db (session s)) |};
             calls := calls (session s) |};
        files := match given (Content.file_path c) with
                 | Some path => snd (delete_file os_remove path (files s))
                 | None => files s
                 end |}).
Proof. intros H. unfold delete_content. rewrite H. reflexivity. Qed.

(** [delete_content] returns only when the key names one content row. *)
Lemma delete_content_sent os_remove content_id s :
  fst (delete_content os_remove content_id s) = Sent tt ->
  exists c, filter (fun c => Content.id c =? content_id)
                   (database.contents (database.current (db (session s)))) = [c].
Proof.
  unfold delete_content.
  destruct (filter _ _) as [|c [|c' l]]; cbn; try discriminate.
  intros _. now exists c.
Qed.

End Deleting.

(** X22.  [delete_content] for a key that names one content row returns,
    whatever becomes of removing the file, and commits: afterwards no
    summary and no association refers to the key, the details of the key
    are not found, and a second [delete_content] for it is refused with
    404 and changes nothing.  The themes are as before, their content
    counts included. *)
Theorem deleted_content_is_gone :
  forall (os_remove : string -> result unit) (content_id : Z)
         (s : content_routes.site) (c : Content.t),
    filter (fun c => Content.id c =? content_id)
           (database.contents (database.current (db (content_routes.session s)))) = [c] ->
    let s' := snd (content_routes.delete_content os_remove content_id s) in
    let t' := database.committed (db (content_routes.session s')) in
    fst (content_routes.delete_content os_remove content_id s) = content_routes.Sent tt
    /\ database.current (db (content_routes.session s')) = t'
    /\ filter (fun r => Summary.content_id r =? content_id) (database.summaries t') = []
    /\ filter (fun l => ContentTheme.content_id l =? content_id)
              (database.content_themes t') = []
    /\ database.themes t'
       = database.themes (database.current (db (content_routes.session s)))
    /\ fst (content_processor._get_content_details content_id (content_routes.session s'))
       = Raise (mk_exn NoResultFound "No row was found when one was required")
    /\ content_routes.delete_content os_remove content_id s'
       = (content_routes.Refused
            {| content_routes.status_code := 404;
               content_routes.detail :=
                 "Content " +++ file_handler.str_of_int content_id +++ " not found" |},
          s').
Proof.
  intros os_remove content_id s c Hc. cbv zeta.
  rewrite (delete_content_found os_remove content_id s c Hc).
  cbn [fst snd content_routes.session db database.committed database.current
       content_routes.delete_rows database.summaries database.content_themes
       database.themes].
  split; [reflexivity|]. split; [reflexivity|].
  split; [apply (filter_same Summary.content_id)|].
  split; [apply (filter_same ContentTheme.content_id)|].
  split; [reflexivity|]. split.
  - unfold content_processor._get_content_details, bind, get_tables, lift.
    cbn [db database.current content_routes.delete_rows database.contents].
    rewrite (filter_same Content.id). reflexivity.
  - unfold content_routes.delete_content.
    cbn [content_routes.session db database.current content_routes.delete_rows
         database.contents].
    rewrite (filter_same Content.id). reflexivity.
Qed.

Lemma deleted_content_is_gone_witness :
  fst (content_routes.delete_content samples.removes 1 samples.stored_site)
  = content_routes.Sent tt
  /\ fst (content_processor._get_content_details 1
            (content_routes.session
               (snd (content_routes.delete_content samples.removes 1
                       samples.stored_site))))
     = Raise (mk_exn NoResultFound "No row was found when one was required").
Proof.
  assert (Hc : exists c,
             filter (fun c => Content.id c =? 1)
                    (database.contents
                       (database.current
                          (db (content_routes.session samples.stored_site)))) = [c])
    by (eexists; vm_compute; reflexivity).
  destruct Hc as (c & Hc).
  destruct (deleted_content_is_gone samples.removes 1 samples.stored_site c Hc)
    as (H1 & _ & _ & _ & _ & H2 & _).
  split; [exact H1|exact H2].
Defined.

(** X23.  A [delete_content] that returns leaves the details of every
    other content as they were: its row, its summary and its
    associations. *)
Theorem deletion_keeps_other_contents :
  forall (os_remove : string -> result unit) (content_id other : Z)
         (s : content_routes.site),
    fst (content_routes.delete_content os_remove content_id s) = content_routes.Sent tt ->
    other <> content_id ->
    fst (content_processor._get_content_details other
           (content_routes.session
              (snd (content_routes.delete_content os_remove content_id s))))
    = fst (content_processor._get_content_details other (content_routes.session s)).
Proof.
  intros os_remove content_id other s Hsent Hother.
  destruct (delete_content_sent os_remove content_id s Hsent) as (c & Hc).
  rewrite (delete_content_found os_remove content_id s c Hc).
  cbn [snd content_routes.session].
  unfold content_processor._get_content_details, bind, get_tables, lift, ret.
  cbn [db database.current content_routes.delete_rows database.contents
       database.summaries database.content_themes].
  rewrite (filter_other Content.id), (filter_other Summary.content_id),
    (filter_other ContentTheme.content_id) by exact Hother.
  destruct (database.scalar_one _) as [row|e]; [|reflexivity].
  destruct (database.scalar_one_or_none _) as [summary|e]; reflexivity.
Qed.

Lemma deletion_keeps_other_contents_witness :
  exists d,
    fst (content_processor._get_content_details 2
           (content_routes.session
              (snd (content_routes.delete_content samples.removes 1
                      samples.twice_stored_site))))
    = Ok d
    /\ content_processor.content_id d = 2.
Proof.
  assert (Hsent : fst (content_routes.delete_content samples.removes 1
                         samples.twice_stored_site) = content_routes.Sent tt)
    by (vm_compute; reflexivity).
  assert (Hd : exists d,
             fst (content_processor._get_content_details 2
                    (content_routes.session samples.twice_stored_site)) = Ok d
             /\ content_processor.content_id d = 2)
    by (eexists; split; vm_compute; reflexivity).
  destruct Hd as (d & Hd & Hid). exists d. split; [|exact Hid].
  rewrite <- Hd.
  apply (deletion_keeps_other_contents samples.removes 1 2 samples.twice_stored_site
           Hsent).
  discriminate.
Defined.

Section Resubmitting.
Import content_routes pipeline ledger.

Lemma NoDup_map_same {A B} (f : A -> B) (l : list A) (a b : A) :
  NoDup (map f l) -> In a l -> In b l -> f a = f b -> a = b.
Proof.
  induction l as [|x l IH]; [intros _ []|].
  cbn [map]. intros Hnd Ha Hb Hf. inversion Hnd as [|? ? Hx Hl]; subst.
  destruct Ha as [->|Ha], Hb as [->|Hb].
  - reflexivity.
  - exfalso. apply Hx. rewrite Hf. now apply in_map.
  - exfalso. apply Hx. rewrite <- Hf. now apply in_map.
  - now apply IH.
Qed.

(** After the row that carries a digest is deleted, no row carries it,
    when the digests were unique. *)
Lemma deleted_hash_is_free (t : database.tables) (content_id : Z) (c : Content.t) :
  hashes_unique t ->
  filter (fun c => Content.id c =? content_id) (database.contents t) = [c] ->
  filter (content_processor.has_hash (Content.content_hash c))
         (database.contents (delete_rows content_id t)) = [].
Proof.
  intros Hu Hc. cbn [delete_rows database.contents].
  assert (Hin : In c (database.contents t) /\ Content.id c = content_id).
  { assert (H : In c [c]) by now left.
    rewrite <- Hc in H. apply filter_In in H. destruct H as (H & E).
    split; [exact H|now apply Z.eqb_eq in E]. }
  destruct Hin as (Hin & Hid).
  match goal with |- ?rows = [] => destruct rows as [|c' l] eqn:E end;
    [reflexivity|exfalso].
  assert (H : In c' (c' :: l)) by now left.
  rewrite <- E in H. apply filter_In in H. destruct H as (H & Hh).
  apply filter_In in H. destruct H as (Hin' & Hne).
  unfold content_processor.has_hash in Hh. apply String.eqb_eq in Hh.
  pose proof (NoDup_map_same Content.content_hash _ c' c Hu Hin' Hin Hh) as ->.
  rewrite Hid, Z.eqb_refl in Hne. discriminate.
Qed.

Lemma Forall_filter {A} (P : A -> Prop) (f : A -> bool) (l : list A) :
  Forall P l -> Forall P (filter f l).
Proof.
  intros H. apply Forall_forall. intros x Hx. apply filter_In in Hx.
  rewrite Forall_forall in H. now apply H.
Qed.

Lemma keys_below_delete next content_id t :
  keys_below next t -> keys_below next (delete_rows content_id t).
Proof.
  intros (Hc & Hs). split; cbn [delete_rows database.contents database.summaries];
    now apply Forall_filter.
Qed.

End Resubmitting.

(** X24.  A file that [save_upload_file] stored is removed again by
    [delete_content] of the content row that names its path: the upload
    directory then holds what it held before the upload, less any file
    at that path.  When removing the file fails, the file stays and the
    row is deleted all the same. *)
Theorem delete_removes_uploaded_file :
  forall (settings : config.Settings) (md5_hexdigest : list N -> string)
         (bytes : list N) (filename path : string) (before : file_handler.disk)
         (os_remove : string -> result unit) (content_id : Z)
         (s : content_routes.site) (c : Content.t),
    file_handler.save_upload_file settings md5_hexdigest bytes filename before
    = (Ok path, content_routes.files s) ->
    pystr.is_empty path = false ->
    filter (fun c => Content.id c =? content_id)
           (database.contents (database.current (db (content_routes.session s)))) = [c] ->
    Content.file_path c = Some path ->
    let s' := snd (content_routes.delete_content os_remove content_id s) in
    (os_remove path = Ok tt ->
     content_routes.files s'
     = filter (fun entry => negb (String.eqb (fst entry) path)) before)
    /\ (forall e, os_remove path = Raise e ->
                  content_routes.files s' = content_routes.files s)
    /\ filter (fun c => Content.id c =? content_id)
              (database.contents
                 (database.committed (db (content_routes.session s')))) = [].
Proof.
  intros settings md5_hexdigest bytes filename path before os_remove content_id s c
         Hsave Hpath Hc Hfile. cbv zeta.
  rewrite (delete_content_found os_remove content_id s c Hc).
  cbn [snd content_routes.files content_routes.session db database.committed
       content_routes.delete_rows database.contents].
  rewrite Hfile. cbn [content_routes.given]. rewrite Hpath.
  unfold file_handler.save_upload_file in Hsave.
  destruct (config.MAX_FILE_SIZE settings <? _); [discriminate|].
  injection Hsave as Hp Hfiles. rewrite <- Hfiles.
  unfold content_routes.delete_file.
  cbn [existsb fst]. rewrite Hp, String.eqb_refl. cbn [orb].
  split; [|split].
  - intros ->. cbn [snd filter fst]. rewrite String.eqb_refl. reflexivity.
  - intros e ->. reflexivity.
  - apply (filter_same Content.id).
Qed.

Lemma delete_removes_uploaded_file_witness :
  content_routes.files
    (snd (content_routes.delete_content samples.removes 7
            {| content_routes.session := samples.uploaded_world;
               content_routes.files := [("./uploads/d41d.pdf", [])] |}))
  = [].
Proof.
  destruct (delete_removes_uploaded_file config.defaults (fun _ => "d41d") []
              "Paper.pdf" "./uploads/d41d.pdf" [] samples.removes 7
              {| content_routes.session := samples.uploaded_world;
                 content_routes.files := [("./uploads/d41d.pdf", [])] |}
              samples.uploaded_row eq_refl eq_refl eq_refl eq_refl)
    as (H & _).
  exact (H eq_refl).
Defined.



(** ** Uploads that fail *)

(** X26.  An upload with an allowed name whose bytes number more than
    [MAX_FILE_SIZE] is refused with status 500, the detail naming the
    limit; no file is written and the session is untouched. *)
Theorem oversize_upload_is_refused_with_500 :
  forall (R : Type) (lib : library) (env : environment) (settings : config.Settings)
         (md5_hexdigest : list N -> string) (respond : Z -> M R)
         (filename : string) (content : list N) (s : content_routes.site),
    file_handler.is_allowed_file_type filename file_handler.pdf_only = true ->
    config.MAX_FILE_SIZE settings < Z.of_nat (List.length content) ->
    content_routes.upload_file lib env settings md5_hexdigest respond filename content s
    = (content_routes.Refused
         {| content_routes.status_code := 500;
            content_routes.detail :=
              "Failed to process file: File size exceeds maximum of "
              +++ file_handler.str_of_int (config.MAX_FILE_SIZE settings) +++ " bytes" |},
       s).
Proof.
  intros R lib env settings md5_hexdigest respond filename content s Hallowed Hsize.
  unfold content_routes.upload_file, file_handler.save_upload_file.
  rewrite Hallowed. cbn [negb].
  apply Z.ltb_lt in Hsize. rewrite Hsize.
  destruct s as [w d]. reflexivity.
Qed.

Lemma oversize_upload_is_refused_with_500_witness :
  content_routes.upload_file samples.lib samples.env_ok
    {| config.UPLOAD_DIR := "./uploads"; config.MAX_FILE_SIZE := 2 |}
    samples.one_digest samples.echo "Paper.pdf" [37%N; 80%N; 68%N] samples.bare_site
  = (content_routes.Refused
       {| content_routes.status_code := 500;
          content_routes.detail :=
            "Failed to process file: File size exceeds maximum of 2 bytes" |},
     samples.bare_site).
Proof.
  apply (oversize_upload_is_refused_with_500 Z samples.lib samples.env_ok
           {| config.UPLOAD_DIR := "./uploads"; config.MAX_FILE_SIZE := 2 |}
           samples.one_digest samples.echo "Paper.pdf" [37%N; 80%N; 68%N]
           samples.bare_site).
  - reflexivity.
  - reflexivity.
Defined.

(** X27.  When the extraction of an accepted upload fails, [upload_file]
    is refused with status 500 and a detail that carries the prefix of
    [process_file] after its own; the session is rolled back and no
    request goes to the language model, but the file
    [save_upload_file] wrote stays in the upload directory. *)
Theorem failed_upload_keeps_the_file :
  forall (R : Type) (lib : library) (env : environment) (settings : config.Settings)
         (md5_hexdigest : list N -> string) (respond : Z -> M R)
         (filename : string) (content : list N) (s : content_routes.site)
         (cause : exn),
    file_handler.is_allowed_file_type filename file_handler.pdf_only = true ->
    Z.of_nat (List.length content) <= config.MAX_FILE_SIZE settings ->
    let file_path :=
      posixpath.join (config.UPLOAD_DIR settings)
                     (md5_hexdigest content +++ snd (posixpath.splitext filename)) in
    content_processor.extract lib env file_path true = Raise cause ->
    content_routes.upload_file lib env settings md5_hexdigest respond filename content s
    = (content_routes.Refused
         {| content_routes.status_code := 500;
            content_routes.detail :=
              "Failed to process file: Failed to process file: " +++ str_of_exn cause |},
       {| content_routes.session := ledger.after_rollback (content_routes.session s);
          content_routes.files := (file_path, content) :: content_routes.files s |}).
Proof.
  intros R lib env settings md5_hexdigest respond filename content s cause
         Hallowed Hsize file_path Hext.
  unfold content_routes.upload_file, file_handler.save_upload_file.
  rewrite Hallowed. cbn [negb].
  destruct (config.MAX_FILE_SIZE settings <? _) eqn:E; [apply Z.ltb_lt in E; lia|].
  fold file_path.
  unfold content_processor.process_file, try_except, bind at 1.
  unfold bind at 1, lift. rewrite Hext.
  unfold content_processor.failed, bind, db_rollback, raise.
  reflexivity.
Qed.

Lemma failed_upload_keeps_the_file_witness :
  content_routes.upload_file samples.lib samples.env_unreadable config.defaults
    samples.one_digest samples.echo "Paper.pdf" [37%N; 80%N; 68%N] samples.bare_site
  = (content_routes.Refused
       {| content_routes.status_code := 500;
          content_routes.detail :=
            "Failed to process file: Failed to process file: Failed to extract PDF: No text could be extracted from PDF" |},
     {| content_routes.session := ledger.after_rollback samples.empty_world;
        content_routes.files := [("./uploads/d41d.pdf", [37%N; 80%N; 68%N])] |}).
Proof.
  apply (failed_upload_keeps_the_file Z samples.lib samples.env_unreadable
           config.defaults samples.one_digest samples.echo "Paper.pdf"
           [37%N; 80%N; 68%N] samples.bare_site
           (pdf.failed "No text could be extracted from PDF")).
  - reflexivity.
  - vm_compute. discriminate.
  - reflexivity.
Defined.
